(** * Smartwatch health tracker: a shallow embedding of [tracker.py]

    The program reads a table of daily smartwatch metrics, keeps the rows
    that breach one of three fixed thresholds, derives advisory sentences
    from them, draws four line charts and assembles a PDF report.

    The embedding follows the Python source function by function.  The
    data-frame, plotting, document and UI libraries the script calls are
    represented by the small part of their behaviour the script relies
    on:
    - a [DataFrame] is a list of column labels and a list of rows;
    - data frames are objects: they live in a store and are passed around
      by reference, so that "is the uploaded table ever written?" is a
      question about the store;
    - [matplotlib.pyplot] is a global stack of figures;
    - the calls into matplotlib and reportlab that may raise ([plt.plot],
      [plt.savefig], [Paragraph], [Image] and the layout engine) are the
      fields of a record [Libraries], over which the program is
      parameterised: nothing is assumed about when they accept;
    - the Streamlit calls append to a log of what is put on the page;
    - Python exceptions are the [Err] results of a state-and-error monad
      in which the state survives an exception. *)

From Stdlib Require Import List String Ascii Bool ZArith QArith Lia.
From Stdlib Require Import Strings.Byte DecimalString.
Import ListNotations.

Local Open Scope bool_scope.
Local Open Scope Z_scope.

(* ================================================================== *)
(** * Cell values *)
(* ================================================================== *)

(** A [float64] cell.  Every finite IEEE double is a rational number, and
    the program only ever compares cells with integer constants, so a
    finite double is represented by its exact value. *)
Inductive float64 : Type :=
  | Finite (q : Q)
  | PosInf
  | NegInf
  | NaN.

(** What a cell of a frame read by [pd.read_csv] may hold.  Columns are
    homogeneous: an [int64] column holds [VInt] cells, a [float64] column
    [VFloat] cells (a blank is NaN), and an object column, such as [Date],
    holds text, a blank being [VMissing] (the NaN object such a column
    stores, told apart here so that a cell shows the kind of its
    column). *)
Inductive value : Type :=
  | VStr (s : string)
  | VInt (z : Z)
  | VFloat (x : float64)
  | VMissing.

(** Python exceptions.  [ValueError] carries the text that could not be
    parsed; [OSError] and [LayoutError] are what the image reader and the
    layout engine raise. *)
Inductive exception : Type :=
  | KeyError (key : string)
  | TypeError (op : string)
  | ValueError (text : string)
  | OSError (what : string)
  | LayoutError (what : string)
  | DanglingReference.

Inductive result (A : Type) : Type :=
  | Ok (a : A)
  | Err (e : exception).
Arguments Ok {A} a.
Arguments Err {A} e.

(** [a < b] on rationals, as a boolean. *)
Definition Qltb (a b : Q) : bool :=
  Qnum a * Z.pos (Qden b) <? Qnum b * Z.pos (Qden a).

(** IEEE comparison of a double with an integer: anything involving NaN
    is false. *)
Definition float_gt (x : float64) (k : Z) : bool :=
  match x with
  | Finite q => Qltb (inject_Z k) q
  | PosInf => true
  | NegInf => false
  | NaN => false
  end.

Definition float_lt (x : float64) (k : Z) : bool :=
  match x with
  | Finite q => Qltb q (inject_Z k)
  | PosInf => false
  | NegInf => true
  | NaN => false
  end.

(** [cell > k] and [cell < k] for one cell; text against a number raises
    [TypeError]. *)
Definition value_gt (v : value) (k : Z) : result bool :=
  match v with
  | VInt z => Ok (k <? z)
  | VFloat x => Ok (float_gt x k)
  | VMissing => Ok false
  | VStr _ => Err (TypeError ">")
  end.

Definition value_lt (v : value) (k : Z) : result bool :=
  match v with
  | VInt z => Ok (z <? k)
  | VFloat x => Ok (float_lt x k)
  | VMissing => Ok false
  | VStr _ => Err (TypeError "<")
  end.

(* ================================================================== *)
(** * Series and data frames (values) *)
(* ================================================================== *)

Definition Series := list value.
Definition Row := list value.

(** A frame: column labels and the rows in file order, one cell per label.
    Row labels (the index) are left out: the program never reads them
    ([iterrows] binds them to [_]). *)
Record DataFrame : Type := mkDataFrame {
  columns : list string;
  rows : list Row
}.

(** Position of a label among the columns ([Index.get_loc]). *)
Fixpoint get_loc (name : string) (cols : list string) : option nat :=
  match cols with
  | [] => None
  | c :: cols' =>
      if String.eqb name c then Some O
      else option_map S (get_loc name cols')
  end.

(** The cell of row [r] at position [i]; frames are rectangular, and a
    cell missing from a short line of the file is stored as NaN. *)
Definition iloc (i : nat) (r : Row) : value := nth i r (VFloat NaN).

(** [row[name]] for a row of a frame with columns [cols]. *)
Definition row_getitem (cols : list string) (r : Row) (name : string)
  : result value :=
  match get_loc name cols with
  | Some i => Ok (iloc i r)
  | None => Err (KeyError name)
  end.

(** [df[name]]: the column as a series. *)
Definition df_getitem (df : DataFrame) (name : string) : result Series :=
  match get_loc name (columns df) with
  | Some i => Ok (map (iloc i) (rows df))
  | None => Err (KeyError name)
  end.

(** Element-wise comparison of a series with a scalar; the first text
    cell raises. *)
Fixpoint series_cmp (cmp : value -> Z -> result bool) (s : Series) (k : Z)
  : result (list bool) :=
  match s with
  | [] => Ok []
  | v :: s' =>
      match cmp v k with
      | Err e => Err e
      | Ok b =>
          match series_cmp cmp s' k with
          | Err e => Err e
          | Ok bs => Ok (b :: bs)
          end
      end
  end.

Definition series_gt : Series -> Z -> result (list bool) := series_cmp value_gt.
Definition series_lt : Series -> Z -> result (list bool) := series_cmp value_lt.

(** [a | b] on boolean series over the same index. *)
Definition series_or (a b : list bool) : list bool :=
  map (fun p => fst p || snd p) (combine a b).

(** [mask.any()]. *)
Definition series_any (mask : list bool) : bool := existsb (fun b => b) mask.

(** The rows of [df[mask]]: those whose mask entry is true, in order. *)
Fixpoint select_rows (rs : list Row) (mask : list bool) : list Row :=
  match rs, mask with
  | r :: rs', b :: mask' =>
      if b then r :: select_rows rs' mask' else select_rows rs' mask'
  | _, _ => []
  end.

(** [df.empty]: some axis has length zero. *)
Definition df_empty (df : DataFrame) : bool :=
  match columns df, rows df with
  | [], _ => true
  | _, [] => true
  | _, _ => false
  end.

(** [df.head()]: the first five rows. *)
Definition df_head (df : DataFrame) : DataFrame :=
  mkDataFrame (columns df) (firstn 5 (rows df)).

(** [float(z)] for an [int64]: the nearest double, ties to the even
    mantissa; integers of up to 53 bits are kept exactly. *)
Definition round_to_double (z : Z) : Z :=
  let a := Z.abs z in
  let e := Z.log2 a - 52 in
  if e <=? 0 then z
  else
    let q := Z.shiftr a e in
    let r := Z.land a (Z.ones e) in
    let half := Z.shiftl 1 (e - 1) in
    let q' := if (half <? r) || ((r =? half) && Z.odd q) then q + 1 else q in
    Z.sgn z * Z.shiftl q' e.

Definition is_object (v : value) : bool :=
  match v with
  | VStr _ => true
  | VMissing => true
  | _ => false
  end.

Definition is_float (v : value) : bool :=
  match v with
  | VFloat _ => true
  | _ => false
  end.

(** The conversion of a cell to [float64]. *)
Definition to_float64 (v : value) : value :=
  match v with
  | VInt z => VFloat (Finite (inject_Z (round_to_double z)))
  | _ => v
  end.

(** [df.values]: the cells of the frame as one array, of the common
    dtype of its columns.  With an object column in the frame the cells
    are kept as they are; with numeric columns only, one of them
    [float64], the integers are converted to doubles. *)
Definition values (df : DataFrame) : list Row :=
  if existsb (existsb is_object) (rows df) then rows df
  else if existsb (existsb is_float) (rows df) then
    map (map to_float64) (rows df)
  else rows df.

(** The rows of [df.iterrows()], in order (the labels left out): each is
    a row of [df.values]. *)
Definition iterrows (df : DataFrame) : list Row := values df.

(* ================================================================== *)
(** * In-memory byte buffers ([io.BytesIO]) *)
(* ================================================================== *)

Definition bytes := list byte.

Record BytesIO : Type := mkBytesIO {
  getvalue : bytes;
  tell : nat
}.

Definition BytesIO_new : BytesIO := mkBytesIO [] 0%nat.

(** [buf.write(data)]: overwrite from the current position, padding with
    zero bytes when the position lies beyond the end, and advance. *)
Definition BytesIO_write (buf : BytesIO) (data : bytes) : BytesIO :=
  let old := getvalue buf in
  let pos := tell buf in
  mkBytesIO
    (firstn pos old ++ repeat x00 (pos - List.length old)%nat
       ++ data ++ skipn (pos + List.length data)%nat old)
    (pos + List.length data)%nat.

Definition BytesIO_seek (buf : BytesIO) (pos : nat) : BytesIO :=
  mkBytesIO (getvalue buf) pos.

(** [buf.read()]: everything from the current position to the end; the
    position moves to the end. *)
Definition BytesIO_read (buf : BytesIO) : bytes * BytesIO :=
  (skipn (tell buf) (getvalue buf),
   mkBytesIO (getvalue buf) (Nat.max (tell buf) (List.length (getvalue buf)))).

(* ================================================================== *)
(** * Figures ([matplotlib.pyplot]) *)
(* ================================================================== *)

Record Line2D : Type := mkLine2D {
  xdata : Series;
  ydata : Series;
  marker : string;
  color : option string   (* [None]: the colour the property cycle gives *)
}.

Record Axes : Type := mkAxes {
  subplot_spec : nat * nat * nat;   (* rows, columns, index *)
  lines : list Line2D;              (* in drawing order *)
  axes_title : string;
  xticks_rotation : Z
}.

Record Figure : Type := mkFigure {
  figsize : Q * Q;
  axes : list Axes;                 (* the current axes first *)
  tight : bool
}.

(** The state of the [pyplot] module: the open figures, the current one
    first. *)
Definition pyplot := list Figure.

Definition new_axes (spec : nat * nat * nat) : Axes :=
  mkAxes spec [] EmptyString 0.

Definition default_figure : Figure :=
  mkFigure ((64 # 10)%Q, (48 # 10)%Q) [] false.

Definition spec_eqb (a b : nat * nat * nat) : bool :=
  Nat.eqb (fst (fst a)) (fst (fst b))
  && Nat.eqb (snd (fst a)) (snd (fst b))
  && Nat.eqb (snd a) (snd b).

(** Apply [f] to the current figure; [pyplot] opens a default figure when
    there is none. *)
Definition on_gcf (f : Figure -> Figure) (p : pyplot) : pyplot :=
  match p with
  | [] => [f default_figure]
  | fig :: p' => f fig :: p'
  end.

(** Apply [g] to the current axes of a figure; a figure without axes gets
    the single-cell axes first. *)
Definition on_gca (g : Axes -> Axes) (fig : Figure) : Figure :=
  match axes fig with
  | [] => mkFigure (figsize fig) [g (new_axes (1, 1, 1)%nat)] (tight fig)
  | a :: rest => mkFigure (figsize fig) (g a :: rest) (tight fig)
  end.

(** [plt.figure(figsize=...)]: a new, empty figure becomes current. *)
Definition pyplot_figure (size : Q * Q) (p : pyplot) : pyplot :=
  mkFigure size [] false :: p.

(** [plt.subplot(r, c, i)]: the axes at that grid cell of the current
    figure become current; they are created when the cell is free. *)
Definition pyplot_subplot (spec : nat * nat * nat) (p : pyplot) : pyplot :=
  on_gcf (fun fig =>
    match partition (fun a => spec_eqb (subplot_spec a) spec) (axes fig) with
    | (a :: _, others) => mkFigure (figsize fig) (a :: others) (tight fig)
    | ([], others) => mkFigure (figsize fig) (new_axes spec :: others) (tight fig)
    end) p.

(** [plt.plot(x, y, marker=..., color=...)]. *)
Definition pyplot_plot (x y : Series) (mk : string) (col : option string)
  (p : pyplot) : pyplot :=
  on_gcf (on_gca (fun a =>
    mkAxes (subplot_spec a) (lines a ++ [mkLine2D x y mk col])
           (axes_title a) (xticks_rotation a))) p.

(** [plt.title(s)]. *)
Definition pyplot_title (s : string) (p : pyplot) : pyplot :=
  on_gcf (on_gca (fun a =>
    mkAxes (subplot_spec a) (lines a) s (xticks_rotation a))) p.

(** [plt.xticks(rotation=deg)]. *)
Definition pyplot_xticks (deg : Z) (p : pyplot) : pyplot :=
  on_gcf (on_gca (fun a =>
    mkAxes (subplot_spec a) (lines a) (axes_title a) deg)) p.

(** [plt.tight_layout()]. *)
Definition pyplot_tight_layout (p : pyplot) : pyplot :=
  on_gcf (fun fig => mkFigure (figsize fig) (axes fig) true) p.

(** The figure [plt.savefig] draws. *)
Definition gcf (p : pyplot) : Figure := hd default_figure (on_gcf (fun f => f) p).

(* ================================================================== *)
(** * Document elements ([reportlab.platypus]) *)
(* ================================================================== *)

(** The named colours and the entries of the sample style sheet the
    program uses. *)
Module colors.
Inductive Color : Type := grey | whitesmoke | beige | black.
End colors.

Module styles.
Inductive ParagraphStyle : Type := Title | Heading2 | Heading3 | Normal.
End styles.

(** Cell coordinates are (column, row); negative ones count from the
    end. *)
Definition coord := (Z * Z)%type.

Inductive TableStyleCmd : Type :=
  | BACKGROUND (start stop : coord) (c : colors.Color)
  | TEXTCOLOR (start stop : coord) (c : colors.Color)
  | ALIGN (start stop : coord) (how : string)
  | GRID (start stop : coord) (width : Z) (c : colors.Color).

Inductive Flowable : Type :=
  | Paragraph (text : string) (style : styles.ParagraphStyle)
  | Table (data : list (list value)) (style : list TableStyleCmd)
  | Image (src : BytesIO).

(** US letter, in points. *)
Definition letter : Z * Z := (612, 792).

(** How the layout engine resolves a style on a table of [ncols] by
    [nrows] cells: a command covers a rectangle of cells, and among the
    commands of one kind the last one covering a cell wins. *)
Definition resolve (n i : Z) : Z := if i <? 0 then n + i else i.

Definition covers (ncols nrows : Z) (start stop : coord) (cell : coord) : bool :=
  (resolve ncols (fst start) <=? fst cell)
  && (fst cell <=? resolve ncols (fst stop))
  && (resolve nrows (snd start) <=? snd cell)
  && (snd cell <=? resolve nrows (snd stop)).

Definition cell_background (ncols nrows : Z) (cmds : list TableStyleCmd)
  (cell : coord) : option colors.Color :=
  fold_left (fun acc cmd =>
    match cmd with
    | BACKGROUND s e c => if covers ncols nrows s e cell then Some c else acc
    | _ => acc
    end) cmds None.

Definition cell_textcolor (ncols nrows : Z) (cmds : list TableStyleCmd)
  (cell : coord) : colors.Color :=
  fold_left (fun acc cmd =>
    match cmd with
    | TEXTCOLOR s e c => if covers ncols nrows s e cell then c else acc
    | _ => acc
    end) cmds colors.black.

(** Width and colour of the grid lines around a cell, if any. *)
Definition cell_grid (ncols nrows : Z) (cmds : list TableStyleCmd)
  (cell : coord) : option (Z * colors.Color) :=
  fold_left (fun acc cmd =>
    match cmd with
    | GRID s e w c => if covers ncols nrows s e cell then Some (w, c) else acc
    | _ => acc
    end) cmds None.

(* ================================================================== *)
(** * What the page shows ([streamlit]) *)
(* ================================================================== *)

Inductive event : Type :=
  | ShowTitle (s : string)
  | ShowTextInput (label : string)
  | ShowNumberInput (label : string) (min_value max_value value : Z)
  | ShowFileUploader (label type : string)
  | ShowText (s : string)
  | ShowFrame (df : DataFrame)
  | ShowError (s : string)
  | ShowDownloadButton (label : string) (data : bytes) (file_name mime : string).

(* ================================================================== *)
(** * The world the script runs in, and its monad *)
(* ================================================================== *)

(** A reference to a data-frame object: its position in the store. *)
Definition ref := nat.

Record world : Type := mkWorld {
  frames : list DataFrame;   (* the data-frame objects allocated so far *)
  figures : pyplot;          (* the state of matplotlib.pyplot *)
  page : list event          (* what has been put on the page, in order *)
}.

(** A computation returns a value or raises; the world it leaves behind
    is kept in both cases. *)
Definition M (A : Type) : Type := world -> result A * world.

Definition ret {A : Type} (a : A) : M A := fun w => (Ok a, w).

Definition raise {A : Type} (e : exception) : M A := fun w => (Err e, w).

Definition bind {A B : Type} (c : M A) (k : A -> M B) : M B :=
  fun w =>
    match c w with
    | (Ok a, w') => k a w'
    | (Err e, w') => (Err e, w')
    end.

Declare Scope py_scope.
Delimit Scope py_scope with py.
Notation "x <- c ;; k" := (bind c (fun x => k))
  (at level 61, c at next level, right associativity) : py_scope.
Notation "c ;; k" := (bind c (fun _ => k))
  (at level 61, right associativity) : py_scope.
Local Open Scope py_scope.

Definition lift {A : Type} (r : result A) : M A := fun w => (r, w).

(** ** Data-frame objects *)

Definition frame_at (w : world) (p : ref) : option DataFrame :=
  nth_error (frames w) p.

(** The reference the next allocation returns. *)
Definition next_ref (w : world) : ref := List.length (frames w).

Definition new_frame (df : DataFrame) : M ref :=
  fun w => (Ok (next_ref w), mkWorld (frames w ++ [df]) (figures w) (page w)).

Definition deref (p : ref) : M DataFrame :=
  fun w =>
    match frame_at w p with
    | Some df => (Ok df, w)
    | None => (Err DanglingReference, w)
    end.

(** [data[name]]. *)
Definition getitem (data : ref) (name : string) : M Series :=
  df <- deref data ;; lift (df_getitem df name).

(** [data[mask]]: boolean indexing builds a new frame object. *)
Definition getitem_mask (data : ref) (mask : list bool) : M ref :=
  df <- deref data ;;
  new_frame (mkDataFrame (columns df) (select_rows (rows df) mask)).

(** [data.empty]. *)
Definition empty (data : ref) : M bool :=
  df <- deref data ;; ret (df_empty df).

(** [data.head()]: a new frame object. *)
Definition head (data : ref) : M ref :=
  df <- deref data ;; new_frame (df_head df).

(** [pd.read_csv(f)]: the parsed table becomes a new frame object. *)
Definition read_csv (parsed : DataFrame) : M ref := new_frame parsed.

(** ** pyplot and streamlit calls *)

Definition plt (f : pyplot -> pyplot) : M unit :=
  fun w => (Ok tt, mkWorld (frames w) (f (figures w)) (page w)).

Definition st (e : event) : M unit :=
  fun w => (Ok tt, mkWorld (frames w) (figures w) (page w ++ [e])).

(** [str(n)] for a Python int. *)
Definition str (n : Z) : string := NilZero.string_of_int (Z.to_int n).

(* ================================================================== *)
(** * The program *)
(* ================================================================== *)

(** What the script relies on from matplotlib and reportlab without
    this development looking inside: each call either does its work or
    raises.
    - [plot_error x y]: what [plt.plot(x, y, ...)] raises on these two
      series, [None] when it draws them;
    - [savefig_png fig]: the PNG encoding [plt.savefig] writes, or what
      it raises;
    - [markup_ok text]: whether [Paragraph(text, style)] can parse its
      text as markup (it raises [ValueError] otherwise);
    - [image_error buf]: what [Image(buf)] raises when it reads the
      buffer, [None] when it holds an image;
    - [platypus_build pagesize elements]: the document
      [SimpleDocTemplate.build] writes, or what it raises. *)
Record Libraries : Type := mkLibraries {
  plot_error : Series -> Series -> option exception;
  savefig_png : Figure -> result bytes;
  markup_ok : string -> bool;
  image_error : BytesIO -> option exception;
  platypus_build : Z * Z -> list Flowable -> result bytes
}.

Section Tracker.

Variable lib : Libraries.

Local Open Scope string_scope.
Local Open Scope list_scope.

Definition detect_anomalies (data : ref) : M ref :=
  heart_rate <- getitem data "Heart Rate (bpm)" ;;
  high <- lift (series_gt heart_rate 100) ;;
  steps <- getitem data "Steps" ;;
  few <- lift (series_lt steps 1000) ;;
  sleep <- getitem data "Sleep Duration (hours)" ;;
  short <- lift (series_lt sleep 5) ;;
  anomalies <- getitem_mask data (series_or (series_or high few) short) ;;
  ret anomalies.

Definition provide_recommendations (anomalies : ref) : M (list string) :=
  let recommendations := [] in
  is_empty <- empty anomalies ;;
  if negb is_empty then
    heart_rate <- getitem anomalies "Heart Rate (bpm)" ;;
    high <- lift (series_gt heart_rate 100) ;;
    let recommendations :=
      if series_any high
      then recommendations
             ++ ["Consider consulting a doctor about high heart rate readings."]
      else recommendations in
    steps <- getitem anomalies "Steps" ;;
    few <- lift (series_lt steps 1000) ;;
    let recommendations :=
      if series_any few
      then recommendations
             ++ ["Increase daily steps to at least 1000 for better health."]
      else recommendations in
    sleep <- getitem anomalies "Sleep Duration (hours)" ;;
    short <- lift (series_lt sleep 5) ;;
    let recommendations :=
      if series_any short
      then recommendations
             ++ ["Ensure to get at least 5-7 hours of sleep daily."]
      else recommendations in
    ret recommendations
  else
    ret (recommendations ++ ["No anomalies detected. Keep up the good work!"]).

(** [plt.plot(x, y, marker=..., color=...)]: the line is added to the
    current axes unless the call raises. *)
Definition plot (x y : Series) (mk : string) (col : option string) : M unit :=
  match plot_error lib x y with
  | Some e => raise e
  | None => plt (pyplot_plot x y mk col)
  end.

(** [plt.savefig(buf, format='png')]: the current figure, encoded, is
    written to the buffer. *)
Definition savefig (buf : BytesIO) : M BytesIO :=
  fun w =>
    match savefig_png lib (gcf (figures w)) with
    | Ok png => (Ok (BytesIO_write buf png), w)
    | Err e => (Err e, w)
    end.

Definition plot_data (data : ref) : M BytesIO :=
  plt (pyplot_figure (10 # 1, 6 # 1)%Q) ;;
  plt (pyplot_subplot (2, 2, 1)%nat) ;;
  x <- getitem data "Date" ;;
  y <- getitem data "Steps" ;;
  plot x y "o" None ;;
  plt (pyplot_title "Steps Over Time") ;;
  plt (pyplot_xticks 45) ;;

  plt (pyplot_subplot (2, 2, 2)%nat) ;;
  x <- getitem data "Date" ;;
  y <- getitem data "Heart Rate (bpm)" ;;
  plot x y "o" (Some "red") ;;
  plt (pyplot_title "Heart Rate Over Time") ;;
  plt (pyplot_xticks 45) ;;

  plt (pyplot_subplot (2, 2, 3)%nat) ;;
  x <- getitem data "Date" ;;
  y <- getitem data "Calories Burned" ;;
  plot x y "o" (Some "green") ;;
  plt (pyplot_title "Calories Burned Over Time") ;;
  plt (pyplot_xticks 45) ;;

  plt (pyplot_subplot (2, 2, 4)%nat) ;;
  x <- getitem data "Date" ;;
  y <- getitem data "Sleep Duration (hours)" ;;
  plot x y "o" (Some "purple") ;;
  plt (pyplot_title "Sleep Duration Over Time") ;;
  plt (pyplot_xticks 45) ;;

  plt pyplot_tight_layout ;;

  let buf := BytesIO_new in
  buf <- savefig buf ;;
  let buf := BytesIO_seek buf 0 in
  ret buf.

(** One body row of the report's table. *)
Definition table_row (cols : list string) (row : Row) : result (list value) :=
  match row_getitem cols row "Date" with
  | Err e => Err e
  | Ok date =>
  match row_getitem cols row "Steps" with
  | Err e => Err e
  | Ok steps =>
  match row_getitem cols row "Heart Rate (bpm)" with
  | Err e => Err e
  | Ok heart_rate =>
  match row_getitem cols row "Calories Burned" with
  | Err e => Err e
  | Ok calories =>
  match row_getitem cols row "Sleep Duration (hours)" with
  | Err e => Err e
  | Ok sleep => Ok [date; steps; heart_rate; calories; sleep]
  end end end end end.

(** The [for _, row in anomalies.iterrows()] loop, appending to the table
    data. *)
Fixpoint append_rows (cols : list string) (rs : list Row)
  (anomaly_data : list (list value)) : result (list (list value)) :=
  match rs with
  | [] => Ok anomaly_data
  | row :: rs' =>
      match table_row cols row with
      | Err e => Err e
      | Ok cells => append_rows cols rs' (anomaly_data ++ [cells])
      end
  end.

(** [Paragraph(text, style)]: the text is parsed as markup when the
    paragraph is made. *)
Definition new_Paragraph (text : string) (style : styles.ParagraphStyle)
  : result Flowable :=
  if markup_ok lib text then Ok (Paragraph text style)
  else Err (ValueError text).

(** [Image(buf)]: a file-like object is read when the image is made. *)
Definition new_Image (buf : BytesIO) : result Flowable :=
  match image_error lib buf with
  | Some e => Err e
  | None => Ok (Image buf)
  end.

(** The [for rec in recommendations] loop, appending to the elements. *)
Fixpoint append_paragraphs (recs : list string) (elements : list Flowable)
  : result (list Flowable) :=
  match recs with
  | [] => Ok elements
  | rec :: recs' =>
      match new_Paragraph ("- " ++ rec)%string styles.Normal with
      | Err e => Err e
      | Ok p => append_paragraphs recs' (elements ++ [p])
      end
  end.

Definition create_pdf_report (name : string) (age : Z) (data anomalies : ref)
  (recommendations : list string) (plot_image_buf : BytesIO) : M bytes :=
  let buffer := BytesIO_new in
  let elements := [] in

  title <- lift (new_Paragraph
                   ("Health Report for " ++ name ++ ", Age: " ++ str age)%string
                   styles.Title) ;;
  let elements := elements ++ [title] in

  heading <- lift (new_Paragraph "Data Summary:" styles.Heading2) ;;
  let elements := elements ++ [heading] in

  heading <- lift (new_Paragraph "Anomalies Detected:" styles.Heading3) ;;
  let elements := elements ++ [heading] in
  let anomaly_data :=
    [[VStr "Date"; VStr "Steps"; VStr "Heart Rate (bpm)";
      VStr "Calories Burned"; VStr "Sleep Duration (hours)"]] in
  df <- deref anomalies ;;
  anomaly_data <- lift (append_rows (columns df) (iterrows df) anomaly_data) ;;

  let anomaly_table :=
    Table anomaly_data
      [BACKGROUND (0, 0) (-1, 0) colors.grey;
       TEXTCOLOR (0, 0) (-1, 0) colors.whitesmoke;
       ALIGN (0, 0) (-1, -1) "CENTER";
       BACKGROUND (0, 1) (-1, -1) colors.beige;
       GRID (0, 0) (-1, -1) 1 colors.black] in
  let elements := elements ++ [anomaly_table] in

  heading <- lift (new_Paragraph "Recommendations:" styles.Heading2) ;;
  let elements := elements ++ [heading] in
  elements <- lift (append_paragraphs recommendations elements) ;;

  image <- lift (new_Image plot_image_buf) ;;
  let elements := elements ++ [image] in

  document <- lift (platypus_build lib letter elements) ;;
  let buffer := BytesIO_write buffer document in
  let buffer := BytesIO_seek buffer 0 in
  ret (fst (BytesIO_read buffer)).

(** ** The Streamlit script *)

(** What the user has entered in the form when the script runs. *)
Record Session : Type := mkSession {
  entered_name : string;
  entered_age : option Z;
  uploaded : option DataFrame    (* the CSV file, as [pd.read_csv] parses it *)
}.

Definition text_input (label : string) (s : Session) : M string :=
  st (ShowTextInput label) ;; ret (entered_name s).

(** The widget returns the default until the user changes it, and never
    lets a value leave its bounds. *)
Definition number_input (label : string) (min_value max_value value : Z)
  (s : Session) : M Z :=
  st (ShowNumberInput label min_value max_value value) ;;
  ret (match entered_age s with
       | Some n => Z.max min_value (Z.min max_value n)
       | None => value
       end).

Definition file_uploader (label type : string) (s : Session)
  : M (option DataFrame) :=
  st (ShowFileUploader label type) ;; ret (uploaded s).

Definition required_columns : list string :=
  ["Date"; "Steps"; "Heart Rate (bpm)"; "Calories Burned";
   "Sleep Duration (hours)"].

(** [col in data.columns]. *)
Definition contains (cols : list string) (col : string) : bool :=
  existsb (String.eqb col) cols.

Definition schema_error : string :=
  "CSV file must contain the following columns: 'Date', 'Steps', 'Heart Rate (bpm)', 'Calories Burned', 'Sleep Duration (hours)'.".

Fixpoint write_each (recs : list string) : M unit :=
  match recs with
  | [] => ret tt
  | rec :: recs' => st (ShowText ("- " ++ rec)%string) ;; write_each recs'
  end.

Definition main (s : Session) : M unit :=
  st (ShowTitle "Smartwatch Health Tracker") ;;
  name <- text_input "Enter your name:" s ;;
  age <- number_input "Enter your age:" 0 120 30 s ;;
  st (ShowText ("Hello, " ++ name ++ "! You are " ++ str age
                ++ " years old.")%string) ;;
  st (ShowText "Upload your CSV file containing smartwatch activity data.") ;;
  uploaded_file <- file_uploader "Choose a CSV file" "csv" s ;;
  match uploaded_file with
  | None => ret tt
  | Some parsed =>
      data <- read_csv parsed ;;
      st (ShowText "Data Preview:") ;;
      preview <- head data ;;
      shown <- deref preview ;;
      st (ShowFrame shown) ;;
      df <- deref data ;;
      if negb (forallb (contains (columns df)) required_columns) then
        st (ShowError schema_error)
      else
        anomalies <- detect_anomalies data ;;
        st (ShowText "Anomalies Detected:") ;;
        shown <- deref anomalies ;;
        st (ShowFrame shown) ;;
        recommendations <- provide_recommendations anomalies ;;
        st (ShowText "Recommendations:") ;;
        write_each recommendations ;;
        plot_image_buf <- plot_data data ;;
        pdf_buf <- create_pdf_report name age data anomalies recommendations
                                     plot_image_buf ;;
        st (ShowDownloadButton "Download Report" pdf_buf
                               "health_report.pdf" "application/pdf")
  end.

End Tracker.

(* ================================================================== *)
(** * The vocabulary of the specification *)
(* ================================================================== *)

Local Open Scope string_scope.
Local Open Scope list_scope.

(** Numeric order between a cell and an integer threshold.  A cell that
    holds no number (text, NaN) is neither above nor below anything. *)
Definition exceeds (v : value) (k : Z) : Prop :=
  match v with
  | VInt z => k < z
  | VFloat (Finite q) => (inject_Z k < q)%Q
  | VFloat PosInf => True
  | _ => False
  end.

Definition below (v : value) (k : Z) : Prop :=
  match v with
  | VInt z => z < k
  | VFloat (Finite q) => (q < inject_Z k)%Q
  | VFloat NegInf => True
  | _ => False
  end.

(** The cell of a record under a column label. *)
Definition field (cols : list string) (name : string) (r : Row) : value :=
  match get_loc name cols with
  | Some i => iloc i r
  | None => VFloat NaN
  end.

(** The three violation predicates. *)
Definition heart_rate_high (cols : list string) (r : Row) : Prop :=
  exceeds (field cols "Heart Rate (bpm)" r) 100.

Definition steps_low (cols : list string) (r : Row) : Prop :=
  below (field cols "Steps" r) 1000.

Definition sleep_short (cols : list string) (r : Row) : Prop :=
  below (field cols "Sleep Duration (hours)" r) 5.

Definition violation (cols : list string) (r : Row) : Prop :=
  heart_rate_high cols r \/ steps_low cols r \/ sleep_short cols r.

(** The fixed sentences. *)
Definition advice_heart_rate : string :=
  "Consider consulting a doctor about high heart rate readings.".
Definition advice_steps : string :=
  "Increase daily steps to at least 1000 for better health.".
Definition advice_sleep : string :=
  "Ensure to get at least 5-7 hours of sleep daily.".
Definition fallback : string :=
  "No anomalies detected. Keep up the good work!".

(** A dataset: the five required columns are present and the four metric
    columns hold numbers. *)
Definition numeric (v : value) : bool :=
  match v with
  | VStr _ => false
  | _ => true
  end.

Definition numeric_column (df : DataFrame) (name : string) : bool :=
  match get_loc name (columns df) with
  | Some i => forallb (fun r => numeric (iloc i r)) (rows df)
  | None => false
  end.

Definition is_dataset (df : DataFrame) : bool :=
  forallb (contains (columns df)) required_columns
  && numeric_column df "Steps"
  && numeric_column df "Heart Rate (bpm)"
  && numeric_column df "Calories Burned"
  && numeric_column df "Sleep Duration (hours)".

(** [l1] is [l2] with some elements left out, the others in the same
    order. *)
Inductive subsequence {A : Type} : list A -> list A -> Prop :=
  | sub_nil : subsequence [] []
  | sub_keep : forall x l1 l2, subsequence l1 l2 -> subsequence (x :: l1) (x :: l2)
  | sub_drop : forall x l1 l2, subsequence l1 l2 -> subsequence l1 (x :: l2).

(** Boolean forms of the predicates, for the proofs. *)
Definition exceedsb (v : value) (k : Z) : bool :=
  match value_gt v k with Ok b => b | Err _ => false end.

Definition belowb (v : value) (k : Z) : bool :=
  match value_lt v k with Ok b => b | Err _ => false end.

Definition heart_rate_highb (cols : list string) (r : Row) : bool :=
  exceedsb (field cols "Heart Rate (bpm)" r) 100.
Definition steps_lowb (cols : list string) (r : Row) : bool :=
  belowb (field cols "Steps" r) 1000.
Definition sleep_shortb (cols : list string) (r : Row) : bool :=
  belowb (field cols "Sleep Duration (hours)" r) 5.
Definition violationb (cols : list string) (r : Row) : bool :=
  heart_rate_highb cols r || steps_lowb cols r || sleep_shortb cols r.

(** ** Results of the detector and the recommender *)

(** The frame the detector builds from [d]. *)
Definition anomaly_subset (d : DataFrame) : DataFrame :=
  mkDataFrame (columns d) (filter (violationb (columns d)) (rows d)).

(** The sentences the recommender derives from the rows [rs] of a
    non-empty frame with columns [cols]. *)
Definition advisories (cols : list string) (rs : list Row) : list string :=
  (if existsb (heart_rate_highb cols) rs then [advice_heart_rate] else [])
  ++ (if existsb (steps_lowb cols) rs then [advice_steps] else [])
  ++ (if existsb (sleep_shortb cols) rs then [advice_sleep] else []).

(** ** Sample tables *)

(** The two rows of the scenarios, under the columns in the order the
    script lists them. *)
Definition low_steps_row : Row :=
  [VStr "2024-01-01"; VInt 500; VInt 72; VInt 1800; VInt 7].

Definition healthy_row : Row :=
  [VStr "2024-01-02"; VInt 8000; VInt 65; VInt 2200; VFloat (Finite (15 # 2))].

Definition low_steps_table : DataFrame :=
  mkDataFrame required_columns [low_steps_row].

Definition healthy_table : DataFrame :=
  mkDataFrame required_columns [healthy_row].

(** A week with every kind of row: healthy, racing heart, few steps,
    short night, a missing reading, and the first violation again. *)
Definition sample_table : DataFrame :=
  mkDataFrame required_columns
    [[VStr "2024-03-01"; VInt 8000; VInt 65; VInt 2200; VFloat (Finite (15 # 2))];
     [VStr "2024-03-02"; VInt 9100; VInt 112; VInt 2450; VFloat (Finite (7 # 1))];
     [VStr "2024-03-03"; VInt 400; VInt 70; VInt 1500; VFloat (Finite (8 # 1))];
     [VStr "2024-03-04"; VInt 7600; VInt 68; VInt 2100; VFloat (Finite (9 # 2))];
     [VStr "2024-03-05"; VInt 6400; VInt 71; VInt 2000; VFloat NaN];
     [VStr "2024-03-06"; VInt 9100; VInt 112; VInt 2450; VFloat (Finite (7 # 1))]].

(** A table whose only flagged rows have a high heart rate. *)
Definition racing_table : DataFrame :=
  mkDataFrame required_columns
    [[VStr "2024-04-01"; VInt 5000; VInt 120; VInt 2000; VInt 8];
     [VStr "2024-04-02"; VInt 6000; VInt 101; VInt 2100; VInt 7]].

Definition world_with (d : DataFrame) : world := mkWorld [d] [] [].

(** ** The chart of a dataset *)

(** A column of a frame, as the specification reads it. *)
Definition column (d : DataFrame) (name : string) : Series :=
  map (field (columns d) name) (rows d).

(** One panel: the dates against one metric, as a line with round
    markers, under a title, with the tick labels turned by 45 degrees. *)
Definition panel (d : DataFrame) (index : nat) (metric : string)
  (colour : option string) (title : string) : Axes :=
  mkAxes (2, 2, index)%nat
         [mkLine2D (column d "Date") (column d metric) "o" colour]
         title 45.

(** The figure of a dataset: four panels on a 2 by 2 grid (the one drawn
    last is the current one, hence first). *)
Definition chart (d : DataFrame) : Figure :=
  mkFigure (10 # 1, 6 # 1)%Q
    [panel d 4 "Sleep Duration (hours)" (Some "purple")
           "Sleep Duration Over Time";
     panel d 3 "Calories Burned" (Some "green") "Calories Burned Over Time";
     panel d 2 "Heart Rate (bpm)" (Some "red") "Heart Rate Over Time";
     panel d 1 "Steps" None "Steps Over Time"]
    true.

(** What [plot_data] returns on a frame holding [d]: the first missing
    column or refused plot raises, otherwise the figure is encoded into a
    fresh buffer. *)
Definition plot_outcome (lib : Libraries) (d : DataFrame) : result BytesIO :=
  match df_getitem d "Date" with
  | Err e => Err e
  | Ok x =>
  match df_getitem d "Steps" with
  | Err e => Err e
  | Ok steps =>
  match plot_error lib x steps with
  | Some e => Err e
  | None =>
  match df_getitem d "Heart Rate (bpm)" with
  | Err e => Err e
  | Ok heart_rate =>
  match plot_error lib x heart_rate with
  | Some e => Err e
  | None =>
  match df_getitem d "Calories Burned" with
  | Err e => Err e
  | Ok calories =>
  match plot_error lib x calories with
  | Some e => Err e
  | None =>
  match df_getitem d "Sleep Duration (hours)" with
  | Err e => Err e
  | Ok sleep =>
  match plot_error lib x sleep with
  | Some e => Err e
  | None =>
  match savefig_png lib
          (mkFigure (10 # 1, 6 # 1)%Q
             [mkAxes (2, 2, 4)%nat [mkLine2D x sleep "o" (Some "purple")]
                     "Sleep Duration Over Time" 45;
              mkAxes (2, 2, 3)%nat [mkLine2D x calories "o" (Some "green")]
                     "Calories Burned Over Time" 45;
              mkAxes (2, 2, 2)%nat [mkLine2D x heart_rate "o" (Some "red")]
                     "Heart Rate Over Time" 45;
              mkAxes (2, 2, 1)%nat [mkLine2D x steps "o" None]
                     "Steps Over Time" 45]
             true) with
  | Err e => Err e
  | Ok png => Ok (BytesIO_seek (BytesIO_write BytesIO_new png) 0)
  end end end end end end end end end end.

(** [plt.plot] draws each of the four series of [d] against its
    dates.  Only the metrics whose column (and the date column) the frame
    has are concerned. *)
Definition charts_accepted (lib : Libraries) (d : DataFrame) : Prop :=
  forall metric,
    In metric ["Steps"; "Heart Rate (bpm)"; "Calories Burned";
               "Sleep Duration (hours)"] ->
    contains (columns d) "Date" = true ->
    contains (columns d) metric = true ->
    plot_error lib (column d "Date") (column d metric) = None.

(** A stand-in encoder for concrete runs: one byte per panel. *)
Definition panel_count_png (fig : Figure) : bytes :=
  repeat x2a (List.length (axes fig)).

(** ** The elements of the report *)

Definition table_header : list value :=
  [VStr "Date"; VStr "Steps"; VStr "Heart Rate (bpm)"; VStr "Calories Burned";
   VStr "Sleep Duration (hours)"].

(** The cells of one record, in the order of the header. *)
Definition record_cells (cols : list string) (r : Row) : list value :=
  [field cols "Date" r; field cols "Steps" r; field cols "Heart Rate (bpm)" r;
   field cols "Calories Burned" r; field cols "Sleep Duration (hours)" r].

Definition bullet (rec : string) : Flowable :=
  Paragraph ("- " ++ rec)%string styles.Normal.

(** The style the report gives its table, as the layout engine resolves
    it on a table with five columns and [n] body rows. *)
Definition report_style : list TableStyleCmd :=
  [BACKGROUND (0, 0) (-1, 0) colors.grey;
   TEXTCOLOR (0, 0) (-1, 0) colors.whitesmoke;
   ALIGN (0, 0) (-1, -1) "CENTER";
   BACKGROUND (0, 1) (-1, -1) colors.beige;
   GRID (0, 0) (-1, -1) 1 colors.black].

(** The elements of the report, in order. *)
Definition report_elements (name : string) (age : Z) (a : DataFrame)
  (recs : list string) (plot_image_buf : BytesIO) : list Flowable :=
  [Paragraph ("Health Report for " ++ name ++ ", Age: " ++ str age)%string
             styles.Title;
   Paragraph "Data Summary:" styles.Heading2;
   Paragraph "Anomalies Detected:" styles.Heading3;
   Table (table_header :: map (record_cells (columns a)) (iterrows a))
         report_style;
   Paragraph "Recommendations:" styles.Heading2]
  ++ map bullet recs
  ++ [Image plot_image_buf].

(** [Paragraph] can parse every text the report is made of: the title,
    the three headings and a bullet for each recommendation. *)
Definition markup_accepted (lib : Libraries) (name : string) (age : Z)
  (recs : list string) : Prop :=
  markup_ok lib ("Health Report for " ++ name ++ ", Age: " ++ str age)%string
  = true
  /\ markup_ok lib "Data Summary:" = true
  /\ markup_ok lib "Anomalies Detected:" = true
  /\ markup_ok lib "Recommendations:" = true
  /\ Forall (fun rec => markup_ok lib ("- " ++ rec)%string = true) recs.

(** An exception raised by one of the library calls. *)
Definition library_failure (lib : Libraries) (e : exception) : Prop :=
  (exists x y, plot_error lib x y = Some e)
  \/ (exists fig, savefig_png lib fig = Err e)
  \/ (exists text, markup_ok lib text = false /\ e = ValueError text)
  \/ (exists buf, image_error lib buf = Some e)
  \/ (exists pagesize elements, platypus_build lib pagesize elements = Err e).

(** A stand-in layout engine for concrete runs: one byte per element. *)
Definition element_count_pdf (pagesize : Z * Z) (elements : list Flowable)
  : bytes :=
  repeat x25 (List.length elements).

(** Stand-in libraries for concrete runs.  Plotting takes series that
    are all text or all numbers; markup is text without [<] and [&]; an
    image is a buffer with something left to read. *)
Definition is_text (v : value) : bool :=
  match v with
  | VStr _ => true
  | _ => false
  end.

Definition is_number (v : value) : bool :=
  match v with
  | VInt _ => true
  | VFloat _ => true
  | _ => false
  end.

Definition uniform (s : Series) : bool :=
  forallb is_text s || forallb is_number s.

Definition plain_text (s : string) : bool :=
  forallb (fun c => negb (Ascii.eqb c "<") && negb (Ascii.eqb c "&"))
          (list_ascii_of_string s).

Definition toy_lib : Libraries :=
  mkLibraries
    (fun x y => if uniform x && uniform y then None
                else Some (TypeError "plot"))
    (fun fig => Ok (panel_count_png fig))
    plain_text
    (fun buf => match skipn (tell buf) (getvalue buf) with
                | [] => Some (OSError "cannot identify image file")
                | _ => None
                end)
    (fun pagesize elements => Ok (element_count_pdf pagesize elements)).

(** ** The form *)

(** What the form puts on the page before any file is looked at. *)
Definition form_events (name : string) (age : Z) : list event :=
  [ShowTitle "Smartwatch Health Tracker";
   ShowTextInput "Enter your name:";
   ShowNumberInput "Enter your age:" 0 120 30;
   ShowText ("Hello, " ++ name ++ "! You are " ++ str age ++ " years old.")%string;
   ShowText "Upload your CSV file containing smartwatch activity data.";
   ShowFileUploader "Choose a CSV file" "csv"].

(** The age the number widget hands to the script. *)
Definition widget_age (s : Session) : Z :=
  match entered_age s with
  | Some n => Z.max 0 (Z.min 120 n)
  | None => 30
  end.

(** ** Stages as functions of the frames they are given *)

(** A computation that leaves every frame object it found as it was: the
    store it ends with is the store it started with, plus new objects. *)
Definition grows {A : Type} (c : M A) : Prop :=
  forall w, exists extra, frames (snd (c w)) = frames w ++ extra.

(** The frame a stage hands back, looked up in the store it leaves. *)
Definition returned_frame (out : result ref * world)
  : result (option DataFrame) :=
  match fst out with
  | Ok p => Ok (frame_at (snd out) p)
  | Err e => Err e
  end.

Definition detect_outcome (d : DataFrame) : result (option DataFrame) :=
  match df_getitem d "Heart Rate (bpm)" with
  | Err e => Err e
  | Ok heart_rate =>
  match series_gt heart_rate 100 with
  | Err e => Err e
  | Ok high =>
  match df_getitem d "Steps" with
  | Err e => Err e
  | Ok steps =>
  match series_lt steps 1000 with
  | Err e => Err e
  | Ok few =>
  match df_getitem d "Sleep Duration (hours)" with
  | Err e => Err e
  | Ok sleep =>
  match series_lt sleep 5 with
  | Err e => Err e
  | Ok short =>
      Ok (Some (mkDataFrame (columns d)
                  (select_rows (rows d)
                     (series_or (series_or high few) short))))
  end end end end end end.

Definition recommend_outcome (a : DataFrame) : result (list string) :=
  if negb (df_empty a) then
    match df_getitem a "Heart Rate (bpm)" with
    | Err e => Err e
    | Ok heart_rate =>
    match series_gt heart_rate 100 with
    | Err e => Err e
    | Ok high =>
    match df_getitem a "Steps" with
    | Err e => Err e
    | Ok steps =>
    match series_lt steps 1000 with
    | Err e => Err e
    | Ok few =>
    match df_getitem a "Sleep Duration (hours)" with
    | Err e => Err e
    | Ok sleep =>
    match series_lt sleep 5 with
    | Err e => Err e
    | Ok short =>
        Ok ((if series_any high then [advice_heart_rate] else [])
            ++ (if series_any few then [advice_steps] else [])
            ++ (if series_any short then [advice_sleep] else []))
    end end end end end end
  else Ok [fallback].

Definition report_outcome (lib : Libraries) (name : string) (age : Z)
  (a : DataFrame) (recs : list string) (plot_image_buf : BytesIO)
  : result bytes :=
  match new_Paragraph lib
          ("Health Report for " ++ name ++ ", Age: " ++ str age)%string
          styles.Title with
  | Err e => Err e
  | Ok title =>
  match new_Paragraph lib "Data Summary:" styles.Heading2 with
  | Err e => Err e
  | Ok summary =>
  match new_Paragraph lib "Anomalies Detected:" styles.Heading3 with
  | Err e => Err e
  | Ok detected =>
  match append_rows (columns a) (iterrows a) [table_header] with
  | Err e => Err e
  | Ok anomaly_data =>
  match new_Paragraph lib "Recommendations:" styles.Heading2 with
  | Err e => Err e
  | Ok heading =>
  match append_paragraphs lib recs
          [title; summary; detected; Table anomaly_data report_style;
           heading] with
  | Err e => Err e
  | Ok elements =>
  match new_Image lib plot_image_buf with
  | Err e => Err e
  | Ok image =>
  match platypus_build lib letter (elements ++ [image]) with
  | Err e => Err e
  | Ok document =>
      Ok (fst (BytesIO_read
                 (BytesIO_seek (BytesIO_write BytesIO_new document) 0)))
  end end end end end end end end.

(** ** Notions for the error and edge behaviour *)

(** A reading that is missing (NaN) or sits exactly on the threshold
    [k]. *)
Definition unremarkable (v : value) (k : Z) : Prop :=
  v = VFloat NaN
  \/ v = VInt k
  \/ exists q, v = VFloat (Finite q) /\ (q == inject_Z k)%Q.

(** The first of the required columns, in the order the script lists
    them, that a list of labels lacks. *)
Definition first_missing (cols : list string) : option string :=
  find (fun c => negb (contains cols c)) required_columns.

(** A computation that touches neither the figures nor the page. *)
Definition store_only {A : Type} (c : M A) : Prop :=
  forall w, figures (snd (c w)) = figures w /\ page (snd (c w)) = page w.

(** A computation that, started with a current figure, changes at most
    that figure: the figures below it, the store and the page stay. *)
Definition only_top_figure {A : Type} (c : M A) : Prop :=
  forall fr fig figs pg,
    exists fig',
      snd (c (mkWorld fr (fig :: figs) pg)) = mkWorld fr (fig' :: figs) pg.

(** A computation that leaves the whole world as it found it. *)
Definition readonly {A : Type} (c : M A) : Prop :=
  forall w, snd (c w) = w.

(** An outcome that is a value or a [TypeError]. *)
Definition no_lookup_failure {A : Type} (r : result A) : Prop :=
  match r with
  | Ok _ => True
  | Err (TypeError _) => True
  | Err _ => False
  end.

(** The advisories the script shows for a table: those of its anomaly
    subset, or the fallback when the subset has no rows. *)
Definition shown_recommendations (d : DataFrame) : list string :=
  match rows (anomaly_subset d) with
  | [] => [fallback]
  | _ => advisories (columns d) (rows (anomaly_subset d))
  end.

(** The lines [st.write] prints for the recommendations. *)
Definition recommendation_lines (recs : list string) : list event :=
  map (fun rec => ShowText ("- " ++ rec)%string) recs.

(** A table without the sleep column, and one whose heart-rate column
    holds text. *)
Definition no_sleep_table : DataFrame :=
  mkDataFrame ["Date"; "Steps"; "Heart Rate (bpm)"; "Calories Burned"]
              [[VStr "2024-01-01"; VInt 500; VInt 72; VInt 1800]].

Definition text_rate_table : DataFrame :=
  mkDataFrame required_columns
    [[VStr "2024-05-01"; VInt 5000; VInt 70; VInt 2000; VInt 8];
     [VStr "2024-05-02"; VInt 6000; VStr "n/a"; VInt 2100; VInt 7]].

(** A dataset whose second row has a blank date. *)
Definition blank_date_table : DataFrame :=
  mkDataFrame required_columns
    [[VStr "2024-07-01"; VInt 8000; VInt 65; VInt 2200; VInt 8];
     [VMissing; VInt 400; VInt 70; VInt 1500; VInt 7]].

(** A row with every reading on its threshold, and one with every
    reading missing. *)
Definition borderline_table : DataFrame :=
  mkDataFrame required_columns
    [[VStr "2024-06-01"; VInt 1000; VInt 100; VInt 2000; VFloat (Finite (5 # 1))];
     [VStr "2024-06-02"; VFloat NaN; VFloat NaN; VInt 2100; VFloat NaN];
     [VStr "2024-06-03"; VInt 999; VInt 100; VInt 2100; VFloat (Finite (5 # 1))]].

(** The branch of the script that runs once the columns have been
    checked: the four stages and what is shown between them. *)
Definition run_stages (lib : Libraries) (name : string) (age : Z)
  (data : ref) : M unit :=
  anomalies <- detect_anomalies data ;;
  st (ShowText "Anomalies Detected:") ;;
  shown <- deref anomalies ;;
  st (ShowFrame shown) ;;
  recommendations <- provide_recommendations anomalies ;;
  st (ShowText "Recommendations:") ;;
  write_each recommendations ;;
  plot_image_buf <- plot_data lib data ;;
  pdf_buf <- create_pdf_report lib name age data anomalies recommendations
                               plot_image_buf ;;
  st (ShowDownloadButton "Download Report" pdf_buf
                         "health_report.pdf" "application/pdf").

(** The world after a complete run of the stages on the frame [d], with
    the subset [a], the advisories [recs] and the report [document]. *)
Definition world_after_stages (d a : DataFrame) (recs : list string)
  (document : bytes) (w : world) : world :=
  mkWorld (frames w ++ [a]) (chart d :: figures w)
    (page w
       ++ [ShowText "Anomalies Detected:"; ShowFrame a;
           ShowText "Recommendations:"]
       ++ recommendation_lines recs
       ++ [ShowDownloadButton "Download Report" document
             "health_report.pdf" "application/pdf"]).

(* ================================================================== *)
(** * Facts about cells, series and frames *)
(* ================================================================== *)

Lemma Qltb_lt (a b : Q) : Qltb a b = true <-> (a < b)%Q.
Proof. unfold Qltb, Qlt. apply Z.ltb_lt. Qed.

Lemma exceedsb_iff (v : value) (k : Z) : exceedsb v k = true <-> exceeds v k.
Proof.
  destruct v as [s | z | [q | | | ] | ]; unfold exceedsb; simpl.
  - split; [discriminate | contradiction].
  - apply Z.ltb_lt.
  - apply Qltb_lt.
  - split; trivial.
  - split; [discriminate | contradiction].
  - split; [discriminate | contradiction].
  - split; [discriminate | contradiction].
Qed.

Lemma belowb_iff (v : value) (k : Z) : belowb v k = true <-> below v k.
Proof.
  destruct v as [s | z | [q | | | ] | ]; unfold belowb; simpl.
  - split; [discriminate | contradiction].
  - apply Z.ltb_lt.
  - apply Qltb_lt.
  - split; [discriminate | contradiction].
  - split; trivial.
  - split; [discriminate | contradiction].
  - split; [discriminate | contradiction].
Qed.

Lemma value_gt_numeric (v : value) (k : Z) :
  numeric v = true -> value_gt v k = Ok (exceedsb v k).
Proof.
  destruct v; simpl; [discriminate | reflexivity | reflexivity | reflexivity].
Qed.

Lemma value_lt_numeric (v : value) (k : Z) :
  numeric v = true -> value_lt v k = Ok (belowb v k).
Proof.
  destruct v; simpl; [discriminate | reflexivity | reflexivity | reflexivity].
Qed.

Lemma violationb_iff (cols : list string) (r : Row) :
  violationb cols r = true <-> violation cols r.
Proof.
  unfold violationb, violation, heart_rate_highb, steps_lowb, sleep_shortb,
    heart_rate_high, steps_low, sleep_short.
  rewrite !orb_true_iff, exceedsb_iff, !belowb_iff. tauto.
Qed.

(** A comparison that succeeds on every cell yields the mask of its
    results. *)
Lemma series_cmp_total (cmp : value -> Z -> result bool) (f : value -> bool)
  (k : Z) (s : Series) :
  (forall v, In v s -> cmp v k = Ok (f v)) ->
  series_cmp cmp s k = Ok (map f s).
Proof.
  induction s as [ | v s IH]; intros H; simpl.
  - reflexivity.
  - rewrite (H v (or_introl eq_refl)), IH; [reflexivity | ].
    intros u Hu. apply H. right. exact Hu.
Qed.

Lemma series_gt_column (i : nat) (k : Z) (rs : list Row) :
  forallb (fun r => numeric (iloc i r)) rs = true ->
  series_gt (map (iloc i) rs) k = Ok (map (fun r => exceedsb (iloc i r) k) rs).
Proof.
  intros H. unfold series_gt.
  rewrite (series_cmp_total value_gt (fun v => exceedsb v k)).
  - now rewrite map_map.
  - intros v Hv. apply in_map_iff in Hv. destruct Hv as [r [<- Hr]].
    apply value_gt_numeric. rewrite forallb_forall in H. now apply H.
Qed.

Lemma series_lt_column (i : nat) (k : Z) (rs : list Row) :
  forallb (fun r => numeric (iloc i r)) rs = true ->
  series_lt (map (iloc i) rs) k = Ok (map (fun r => belowb (iloc i r) k) rs).
Proof.
  intros H. unfold series_lt.
  rewrite (series_cmp_total value_lt (fun v => belowb v k)).
  - now rewrite map_map.
  - intros v Hv. apply in_map_iff in Hv. destruct Hv as [r [<- Hr]].
    apply value_lt_numeric. rewrite forallb_forall in H. now apply H.
Qed.

Lemma series_or_map {A : Type} (f g : A -> bool) (l : list A) :
  series_or (map f l) (map g l) = map (fun x => f x || g x) l.
Proof.
  unfold series_or. induction l as [ | x l IH]; simpl; [reflexivity | ].
  now rewrite IH.
Qed.

Lemma series_any_map {A : Type} (f : A -> bool) (l : list A) :
  series_any (map f l) = existsb f l.
Proof.
  unfold series_any. induction l as [ | x l IH]; simpl; [reflexivity | ].
  now rewrite IH.
Qed.

Lemma select_rows_map (f : Row -> bool) (rs : list Row) :
  select_rows rs (map f rs) = filter f rs.
Proof.
  induction rs as [ | r rs IH]; simpl; [reflexivity | ].
  rewrite IH. reflexivity.
Qed.

Lemma filter_subsequence {A : Type} (f : A -> bool) (l : list A) :
  subsequence (filter f l) l.
Proof.
  induction l as [ | x l IH]; simpl.
  - constructor.
  - destruct (f x); now constructor.
Qed.

Lemma forallb_filter {A : Type} (p f : A -> bool) (l : list A) :
  forallb p l = true -> forallb p (filter f l) = true.
Proof.
  rewrite !forallb_forall. intros H x Hx.
  apply filter_In in Hx. now apply H.
Qed.

Lemma existsb_Exists {A : Type} (f : A -> bool) (P : A -> Prop) (l : list A) :
  (forall x, f x = true <-> P x) ->
  existsb f l = true <-> Exists P l.
Proof.
  intros Hf. rewrite existsb_exists, Exists_exists.
  split; intros [x [Hx Hp]]; exists x; split; trivial; now apply Hf.
Qed.

Lemma existsb_filter_absorb {A : Type} (f g : A -> bool) (l : list A) :
  (forall x, f x = true -> g x = true) ->
  existsb f (filter g l) = existsb f l.
Proof.
  intros Hfg. induction l as [ | x l IH]; simpl; [reflexivity | ].
  destruct (g x) eqn:Hg; simpl.
  - now rewrite IH.
  - rewrite IH. destruct (f x) eqn:Hf; [ | reflexivity].
    apply Hfg in Hf. congruence.
Qed.

(** What [is_dataset] gives about the three columns the thresholds are
    applied to. *)
Lemma numeric_column_loc (df : DataFrame) (name : string) :
  numeric_column df name = true ->
  exists i, get_loc name (columns df) = Some i
            /\ forallb (fun r => numeric (iloc i r)) (rows df) = true.
Proof.
  unfold numeric_column. destruct (get_loc name (columns df)) as [i | ].
  - intros H. now exists i.
  - discriminate.
Qed.

Lemma is_dataset_numeric (df : DataFrame) :
  is_dataset df = true ->
  numeric_column df "Heart Rate (bpm)" = true
  /\ numeric_column df "Steps" = true
  /\ numeric_column df "Sleep Duration (hours)" = true.
Proof.
  unfold is_dataset. rewrite !andb_true_iff. tauto.
Qed.

Lemma numeric_column_filter (df : DataFrame) (f : Row -> bool) (name : string) :
  numeric_column df name = true ->
  numeric_column (mkDataFrame (columns df) (filter f (rows df))) name = true.
Proof.
  unfold numeric_column; cbn [columns rows].
  destruct (get_loc name (columns df)); [apply forallb_filter | discriminate].
Qed.

Lemma is_dataset_filter (df : DataFrame) (f : Row -> bool) :
  is_dataset df = true ->
  is_dataset (mkDataFrame (columns df) (filter f (rows df))) = true.
Proof.
  unfold is_dataset. cbn [columns]. rewrite !andb_true_iff.
  intros [[[[Hc Hs] Hh] Hk] Hl].
  repeat split; trivial; now apply numeric_column_filter.
Qed.

Lemma field_loc (cols : list string) (name : string) (i : nat) (r : Row) :
  get_loc name cols = Some i -> field cols name r = iloc i r.
Proof. unfold field. now intros ->. Qed.

(** The three masks of a dataset, and their disjunction. *)
Lemma dataset_masks (df : DataFrame) :
  is_dataset df = true ->
  exists hr st sl,
    df_getitem df "Heart Rate (bpm)" = Ok hr
    /\ series_gt hr 100 = Ok (map (heart_rate_highb (columns df)) (rows df))
    /\ df_getitem df "Steps" = Ok st
    /\ series_lt st 1000 = Ok (map (steps_lowb (columns df)) (rows df))
    /\ df_getitem df "Sleep Duration (hours)" = Ok sl
    /\ series_lt sl 5 = Ok (map (sleep_shortb (columns df)) (rows df)).
Proof.
  intros H. destruct (is_dataset_numeric df H) as [Hh [Hs Hl]].
  apply numeric_column_loc in Hh, Hs, Hl.
  destruct Hh as [ih [Lh Nh]], Hs as [ist [Ls Ns]], Hl as [il [Ll Nl]].
  exists (map (iloc ih) (rows df)), (map (iloc ist) (rows df)),
         (map (iloc il) (rows df)).
  unfold df_getitem. rewrite Lh, Ls, Ll.
  rewrite (series_gt_column ih 100 _ Nh), (series_lt_column ist 1000 _ Ns),
          (series_lt_column il 5 _ Nl).
  repeat split; f_equal; apply map_ext; intros r;
    unfold heart_rate_highb, steps_lowb, sleep_shortb;
    now (rewrite (field_loc _ _ _ r Lh) || rewrite (field_loc _ _ _ r Ls)
         || rewrite (field_loc _ _ _ r Ll)).
Qed.

(** ** Stepping through a computation *)

Lemma bind_ok {A B : Type} (c : M A) (k : A -> M B) (w w' : world) (a : A) :
  c w = (Ok a, w') -> bind c k w = k a w'.
Proof. unfold bind. now intros ->. Qed.

Lemma bind_err {A B : Type} (c : M A) (k : A -> M B) (w w' : world)
  (e : exception) :
  c w = (Err e, w') -> bind c k w = (Err e, w').
Proof. unfold bind. now intros ->. Qed.

Lemma deref_ok (w : world) (p : ref) (d : DataFrame) :
  frame_at w p = Some d -> deref p w = (Ok d, w).
Proof. unfold deref. now intros ->. Qed.

Lemma getitem_ok (w : world) (data : ref) (d : DataFrame) (name : string)
  (s : Series) :
  frame_at w data = Some d -> df_getitem d name = Ok s ->
  getitem data name w = (Ok s, w).
Proof.
  intros Hd Hs. unfold getitem.
  rewrite (bind_ok _ _ w w d (deref_ok w data d Hd)).
  unfold lift. now rewrite Hs.
Qed.

Lemma lift_ok {A : Type} (r : result A) (a : A) (w : world) :
  r = Ok a -> lift r w = (Ok a, w).
Proof. unfold lift. now intros ->. Qed.

Lemma empty_ok (w : world) (p : ref) (d : DataFrame) :
  frame_at w p = Some d -> empty p w = (Ok (df_empty d), w).
Proof.
  intros Hd. unfold empty.
  now rewrite (bind_ok _ _ w w d (deref_ok w p d Hd)).
Qed.

Lemma getitem_mask_ok (w : world) (data : ref) (d : DataFrame)
  (mask : list bool) :
  frame_at w data = Some d ->
  getitem_mask data mask w =
    (Ok (next_ref w),
     mkWorld (frames w ++ [mkDataFrame (columns d) (select_rows (rows d) mask)])
             (figures w) (page w)).
Proof.
  intros Hd. unfold getitem_mask.
  now rewrite (bind_ok _ _ w w d (deref_ok w data d Hd)).
Qed.

(** One step of a run: the first computation of a [bind] returns. *)
Ltac step lemma := erewrite bind_ok by (eapply lemma; eassumption).

(** ** Running the detector and the recommender on a dataset *)

Lemma detect_anomalies_run (w : world) (data : ref) (d : DataFrame) :
  frame_at w data = Some d ->
  is_dataset d = true ->
  detect_anomalies data w =
    (Ok (next_ref w),
     mkWorld (frames w ++ [anomaly_subset d]) (figures w) (page w)).
Proof.
  intros Hd Hds.
  destruct (dataset_masks d Hds) as [hr [st' [sl [Eh [Mh [Es [Ms [El Ml]]]]]]]].
  unfold detect_anomalies.
  step getitem_ok. step (@lift_ok (list bool)).
  step getitem_ok. step (@lift_ok (list bool)).
  step getitem_ok. step (@lift_ok (list bool)).
  step getitem_mask_ok.
  rewrite !series_or_map, select_rows_map.
  reflexivity.
Qed.

Lemma provide_recommendations_empty (w : world) (anomalies : ref)
  (a : DataFrame) :
  frame_at w anomalies = Some a ->
  df_empty a = true ->
  provide_recommendations anomalies w = (Ok [fallback], w).
Proof.
  intros Ha He.
  unfold provide_recommendations.
  step empty_ok. rewrite He. reflexivity.
Qed.

Lemma provide_recommendations_nonempty (w : world) (anomalies : ref)
  (a : DataFrame) :
  frame_at w anomalies = Some a ->
  is_dataset a = true ->
  df_empty a = false ->
  provide_recommendations anomalies w =
    (Ok (advisories (columns a) (rows a)), w).
Proof.
  intros Ha Hds He.
  destruct (dataset_masks a Hds) as [hr [st' [sl [Eh [Mh [Es [Ms [El Ml]]]]]]]].
  unfold provide_recommendations.
  step empty_ok. rewrite He. cbn [negb].
  step getitem_ok. step (@lift_ok (list bool)).
  step getitem_ok. step (@lift_ok (list bool)).
  step getitem_ok. step (@lift_ok (list bool)).
  rewrite !series_any_map. unfold advisories, ret.
  destruct (existsb (heart_rate_highb (columns a)) (rows a));
    destruct (existsb (steps_lowb (columns a)) (rows a));
    destruct (existsb (sleep_shortb (columns a)) (rows a)); reflexivity.
Qed.

Lemma dataset_empty_iff (a : DataFrame) :
  is_dataset a = true -> (df_empty a = true <-> rows a = []).
Proof.
  unfold is_dataset, df_empty. rewrite !andb_true_iff.
  intros [[[[Hc _] _] _] _].
  destruct (columns a) as [ | c cs]; [discriminate | ].
  destruct (rows a); split; congruence.
Qed.

(** ** The store after an allocation *)

Lemma frame_at_new (fs : list DataFrame) (df : DataFrame) (p : pyplot)
  (pg : list event) :
  frame_at (mkWorld (fs ++ [df]) p pg) (List.length fs) = Some df.
Proof.
  unfold frame_at; cbn [frames].
  rewrite nth_error_app2 by apply Nat.le_refl.
  now rewrite Nat.sub_diag.
Qed.

Lemma frame_at_old (fs extra : list DataFrame) (p p' : pyplot)
  (pg pg' : list event) (r : ref) (d : DataFrame) :
  frame_at (mkWorld fs p pg) r = Some d ->
  frame_at (mkWorld (fs ++ extra) p' pg') r = Some d.
Proof.
  unfold frame_at; cbn [frames]. intros H.
  rewrite nth_error_app1; [exact H | ].
  apply nth_error_Some. congruence.
Qed.

(** ** The advisories of a frame *)

(** Membership of a sentence in a short explicit list of sentences. *)
Ltac in_sentences :=
  simpl; repeat match goal with
                | |- _ \/ _ => (left; reflexivity) || right
                end.

Ltac not_in_sentences H :=
  simpl in H; repeat (destruct H as [H | H]; [discriminate H | ]);
  contradiction.

Ltac sentence_cases cols rs :=
  unfold advisories;
  destruct (existsb (heart_rate_highb cols) rs),
           (existsb (steps_lowb cols) rs),
           (existsb (sleep_shortb cols) rs).

Lemma advisories_heart_rate (cols : list string) (rs : list Row) :
  In advice_heart_rate (advisories cols rs)
  <-> existsb (heart_rate_highb cols) rs = true.
Proof.
  sentence_cases cols rs; split; intros H;
    first [reflexivity | discriminate H | solve [in_sentences]
          | not_in_sentences H].
Qed.

Lemma advisories_steps (cols : list string) (rs : list Row) :
  In advice_steps (advisories cols rs)
  <-> existsb (steps_lowb cols) rs = true.
Proof.
  sentence_cases cols rs; split; intros H;
    first [reflexivity | discriminate H | solve [in_sentences]
          | not_in_sentences H].
Qed.

Lemma advisories_sleep (cols : list string) (rs : list Row) :
  In advice_sleep (advisories cols rs)
  <-> existsb (sleep_shortb cols) rs = true.
Proof.
  sentence_cases cols rs; split; intros H;
    first [reflexivity | discriminate H | solve [in_sentences]
          | not_in_sentences H].
Qed.

Lemma advisories_no_fallback (cols : list string) (rs : list Row) :
  ~ In fallback (advisories cols rs).
Proof.
  sentence_cases cols rs; intros H; not_in_sentences H.
Qed.

Lemma advisories_short (cols : list string) (rs : list Row) :
  (List.length (advisories cols rs) <= 3)%nat /\ NoDup (advisories cols rs).
Proof.
  sentence_cases cols rs; (split; [simpl; lia | ]);
    repeat (constructor; [let H := fresh in intros H; not_in_sentences H | ]);
    constructor.
Qed.

Lemma heart_rate_highb_iff (cols : list string) (r : Row) :
  heart_rate_highb cols r = true <-> heart_rate_high cols r.
Proof. apply exceedsb_iff. Qed.

Lemma steps_lowb_iff (cols : list string) (r : Row) :
  steps_lowb cols r = true <-> steps_low cols r.
Proof. apply belowb_iff. Qed.

Lemma sleep_shortb_iff (cols : list string) (r : Row) :
  sleep_shortb cols r = true <-> sleep_short cols r.
Proof. apply belowb_iff. Qed.

(** No advisory is triggered when no row violates a threshold. *)
Lemma advisories_healthy (cols : list string) (rs : list Row) :
  (forall r, In r rs -> ~ violation cols r) -> advisories cols rs = [].
Proof.
  intros H. unfold advisories.
  assert (Hh : existsb (heart_rate_highb cols) rs = false).
  { apply not_true_is_false. intros E. apply existsb_exists in E.
    destruct E as [r [Hr E]]. apply (H r Hr). left.
    now apply heart_rate_highb_iff. }
  assert (Hs : existsb (steps_lowb cols) rs = false).
  { apply not_true_is_false. intros E. apply existsb_exists in E.
    destruct E as [r [Hr E]]. apply (H r Hr). right; left.
    now apply steps_lowb_iff. }
  assert (Hl : existsb (sleep_shortb cols) rs = false).
  { apply not_true_is_false. intros E. apply existsb_exists in E.
    destruct E as [r [Hr E]]. apply (H r Hr). right; right.
    now apply sleep_shortb_iff. }
  now rewrite Hh, Hs, Hl.
Qed.

Lemma filter_nil_iff {A : Type} (f : A -> bool) (l : list A) :
  filter f l = [] <-> forall x, In x l -> f x = false.
Proof.
  induction l as [ | x l IH]; simpl.
  - split; [intros _ y [] | reflexivity].
  - destruct (f x) eqn:E; split.
    + discriminate.
    + intros H. specialize (H x (or_introl eq_refl)). congruence.
    + intros H y [<- | Hy]; [exact E | now apply IH].
    + intros H. apply IH. intros y Hy. apply H. now right.
Qed.

(* ================================================================== *)
(** * The anomaly detector and the recommendation generator *)
(* ================================================================== *)

(** C1.  For every dataset, [detect_anomalies] returns a new frame with
    the columns of the dataset whose rows are exactly the records that
    satisfy heart rate > 100 or steps < 1000 or sleep < 5: the rows are
    the dataset's rows filtered by a test that holds exactly on the
    violating records, so every returned row violates a threshold, every
    violating row is returned, and the original order is kept; an empty
    dataset gives an empty subset. *)
Theorem detect_anomalies_exact (w : world) (data : ref) (d : DataFrame) :
  frame_at w data = Some d ->
  is_dataset d = true ->
  exists (w' : world) (sub : DataFrame),
    detect_anomalies data w = (Ok (next_ref w), w')
    /\ frame_at w' (next_ref w) = Some sub
    /\ columns sub = columns d
    /\ (exists keep : Row -> bool,
          (forall r, keep r = true <-> violation (columns d) r)
          /\ rows sub = filter keep (rows d))
    /\ Forall (violation (columns d)) (rows sub)
    /\ (forall r, In r (rows d) -> violation (columns d) r -> In r (rows sub))
    /\ subsequence (rows sub) (rows d)
    /\ (rows d = [] -> rows sub = []).
Proof.
  intros Hd Hds.
  eexists; exists (anomaly_subset d).
  split; [exact (detect_anomalies_run w data d Hd Hds) | ].
  split; [apply frame_at_new | ].
  split; [reflexivity | ].
  cbn [anomaly_subset rows].
  split.
  { exists (violationb (columns d)). split; [ | reflexivity].
    intros r. apply violationb_iff. }
  split.
  { apply Forall_forall. intros r Hr. apply filter_In in Hr.
    now apply violationb_iff. }
  split.
  { intros r Hr Hv. apply filter_In. split; [exact Hr | ].
    now apply violationb_iff. }
  split.
  { apply filter_subsequence. }
  now intros ->.
Qed.

Lemma detect_anomalies_exact_witness :
  exists (w' : world) (sub : DataFrame),
    detect_anomalies 0%nat (world_with sample_table)
      = (Ok (next_ref (world_with sample_table)), w')
    /\ frame_at w' (next_ref (world_with sample_table)) = Some sub
    /\ columns sub = columns sample_table
    /\ (exists keep : Row -> bool,
          (forall r, keep r = true <-> violation (columns sample_table) r)
          /\ rows sub = filter keep (rows sample_table))
    /\ Forall (violation (columns sample_table)) (rows sub)
    /\ (forall r, In r (rows sample_table) ->
                  violation (columns sample_table) r -> In r (rows sub))
    /\ subsequence (rows sub) (rows sample_table)
    /\ (rows sample_table = [] -> rows sub = []).
Proof.
  apply (detect_anomalies_exact (world_with sample_table) 0%nat sample_table);
    reflexivity.
Defined.

(** C2.  For every non-empty anomaly subset, [provide_recommendations]
    makes three independent checks over the whole subset (is there a row
    with heart rate > 100, one with steps < 1000, one with sleep < 5) and
    returns one fixed sentence for each check that succeeds, in the order
    heart rate, steps, sleep; the list has at most three entries and no
    sentence twice, however many rows trigger it. *)
Theorem provide_recommendations_existence (w : world) (anomalies : ref)
  (a : DataFrame) :
  frame_at w anomalies = Some a ->
  is_dataset a = true ->
  rows a <> [] ->
  exists (high few short : bool) (recs : list string),
    (high = true <-> Exists (heart_rate_high (columns a)) (rows a))
    /\ (few = true <-> Exists (steps_low (columns a)) (rows a))
    /\ (short = true <-> Exists (sleep_short (columns a)) (rows a))
    /\ recs = (if high then [advice_heart_rate] else [])
              ++ (if few then [advice_steps] else [])
              ++ (if short then [advice_sleep] else [])
    /\ provide_recommendations anomalies w = (Ok recs, w)
    /\ (List.length recs <= 3)%nat
    /\ NoDup recs.
Proof.
  intros Ha Hds Hne.
  exists (existsb (heart_rate_highb (columns a)) (rows a)),
         (existsb (steps_lowb (columns a)) (rows a)),
         (existsb (sleep_shortb (columns a)) (rows a)),
         (advisories (columns a) (rows a)).
  split; [apply existsb_Exists, heart_rate_highb_iff | ].
  split; [apply existsb_Exists, steps_lowb_iff | ].
  split; [apply existsb_Exists, sleep_shortb_iff | ].
  split; [reflexivity | ].
  split.
  { apply provide_recommendations_nonempty; trivial.
    apply not_true_is_false. intros He.
    now apply (dataset_empty_iff a Hds) in He. }
  apply advisories_short.
Qed.

Lemma provide_recommendations_existence_witness :
  exists (high few short : bool) (recs : list string),
    (high = true
       <-> Exists (heart_rate_high (columns racing_table)) (rows racing_table))
    /\ (few = true
          <-> Exists (steps_low (columns racing_table)) (rows racing_table))
    /\ (short = true
          <-> Exists (sleep_short (columns racing_table)) (rows racing_table))
    /\ recs = (if high then [advice_heart_rate] else [])
              ++ (if few then [advice_steps] else [])
              ++ (if short then [advice_sleep] else [])
    /\ provide_recommendations 0%nat (world_with racing_table)
         = (Ok recs, world_with racing_table)
    /\ (List.length recs <= 3)%nat
    /\ NoDup recs.
Proof.
  apply (provide_recommendations_existence
           (world_with racing_table) 0%nat racing_table);
    [reflexivity | reflexivity | discriminate].
Defined.

(** Two rows with a racing heart give the heart-rate sentence once; rows
    of all three kinds give the three sentences in order. *)
Example recommend_racing :
  provide_recommendations 0%nat (world_with racing_table)
  = (Ok [advice_heart_rate], world_with racing_table).
Proof. reflexivity. Qed.

Example recommend_sample :
  fst (bind (detect_anomalies 0%nat) provide_recommendations
            (world_with sample_table))
  = Ok [advice_heart_rate; advice_steps; advice_sleep].
Proof. reflexivity. Qed.

(** C3.  When the anomaly subset is empty, [provide_recommendations]
    returns exactly the one fallback sentence.  In particular, in a
    dataset holding the row (2024-01-02, 8000 steps, 65 bpm, 2200
    calories, 7.5 hours) and no violating row, the detector keeps no row,
    so that row is excluded, and the recommendation list is exactly the
    fallback sentence. *)
Theorem provide_recommendations_fallback :
  (forall (w : world) (anomalies : ref) (a : DataFrame),
      frame_at w anomalies = Some a ->
      rows a = [] ->
      provide_recommendations anomalies w
      = (Ok ["No anomalies detected. Keep up the good work!"], w))
  /\ (forall (w : world) (data : ref) (rs : list Row),
         frame_at w data = Some (mkDataFrame required_columns rs) ->
         is_dataset (mkDataFrame required_columns rs) = true ->
         In healthy_row rs ->
         (forall r, In r rs ->
                    r = healthy_row \/ ~ violation required_columns r) ->
         exists (w' : world) (sub : DataFrame),
           detect_anomalies data w = (Ok (next_ref w), w')
           /\ frame_at w' (next_ref w) = Some sub
           /\ ~ In healthy_row (rows sub)
           /\ rows sub = []
           /\ provide_recommendations (next_ref w) w'
              = (Ok ["No anomalies detected. Keep up the good work!"], w')).
Proof.
  split.
  - intros w anomalies a Ha Hr.
    apply (provide_recommendations_empty w anomalies a Ha).
    unfold df_empty. rewrite Hr. now destruct (columns a).
  - intros w data rs Hd Hds Hin Hothers.
    assert (Hsub : anomaly_subset (mkDataFrame required_columns rs)
                   = mkDataFrame required_columns []).
    { unfold anomaly_subset; cbn [columns rows]. f_equal.
      apply filter_nil_iff. intros r Hr. apply not_true_is_false.
      intros Hv. destruct (Hothers r Hr) as [-> | Hok].
      - discriminate Hv.
      - now apply Hok, violationb_iff. }
    pose proof (detect_anomalies_run w data _ Hd Hds) as Hrun.
    rewrite Hsub in Hrun.
    eexists; exists (mkDataFrame required_columns []).
    split; [exact Hrun | ].
    split; [apply frame_at_new | ].
    split; [intros [] | ].
    split; [reflexivity | ].
    eapply provide_recommendations_empty; [apply frame_at_new | reflexivity].
Qed.

Lemma provide_recommendations_fallback_witness :
  provide_recommendations 1%nat
    (mkWorld [healthy_table; mkDataFrame required_columns []] [] [])
  = (Ok ["No anomalies detected. Keep up the good work!"],
     mkWorld [healthy_table; mkDataFrame required_columns []] [] [])
  /\ exists (w' : world) (sub : DataFrame),
       detect_anomalies 0%nat (world_with healthy_table)
         = (Ok (next_ref (world_with healthy_table)), w')
       /\ frame_at w' (next_ref (world_with healthy_table)) = Some sub
       /\ ~ In healthy_row (rows sub)
       /\ rows sub = []
       /\ provide_recommendations (next_ref (world_with healthy_table)) w'
          = (Ok ["No anomalies detected. Keep up the good work!"], w').
Proof.
  split.
  - apply (proj1 provide_recommendations_fallback
             (mkWorld [healthy_table; mkDataFrame required_columns []] [] [])
             1%nat (mkDataFrame required_columns []));
      reflexivity.
  - apply (proj2 provide_recommendations_fallback
             (world_with healthy_table) 0%nat [healthy_row]).
    + reflexivity.
    + reflexivity.
    + simpl. left. reflexivity.
    + simpl. intros r [<- | []]. left. reflexivity.
Defined.

(** C4.  For the single input row (2024-01-01, 500 steps, 72 bpm, 1800
    calories, 7 hours) the detector keeps the row, because its steps are
    below 1000 (and for no other reason), and the recommender returns
    exactly the one sentence about steps on that subset. *)
Theorem low_steps_scenario (w : world) (data : ref) :
  frame_at w data = Some low_steps_table ->
  steps_low required_columns low_steps_row
  /\ ~ heart_rate_high required_columns low_steps_row
  /\ ~ sleep_short required_columns low_steps_row
  /\ exists (w' : world),
       detect_anomalies data w = (Ok (next_ref w), w')
       /\ frame_at w' (next_ref w)
          = Some (mkDataFrame required_columns [low_steps_row])
       /\ provide_recommendations (next_ref w) w'
          = (Ok ["Increase daily steps to at least 1000 for better health."],
             w').
Proof.
  intros Hd.
  split; [apply steps_lowb_iff; reflexivity | ].
  split; [intros H; apply heart_rate_highb_iff in H; discriminate H | ].
  split; [intros H; apply sleep_shortb_iff in H; discriminate H | ].
  eexists.
  split; [exact (detect_anomalies_run w data low_steps_table Hd eq_refl) | ].
  split; [apply frame_at_new | ].
  rewrite (provide_recommendations_nonempty _ (next_ref w)
             (anomaly_subset low_steps_table));
    [reflexivity | apply frame_at_new | reflexivity | reflexivity].
Qed.

Lemma low_steps_scenario_witness :
  steps_low required_columns low_steps_row
  /\ ~ heart_rate_high required_columns low_steps_row
  /\ ~ sleep_short required_columns low_steps_row
  /\ exists (w' : world),
       detect_anomalies 0%nat (world_with low_steps_table)
         = (Ok (next_ref (world_with low_steps_table)), w')
       /\ frame_at w' (next_ref (world_with low_steps_table))
          = Some (mkDataFrame required_columns [low_steps_row])
       /\ provide_recommendations (next_ref (world_with low_steps_table)) w'
          = (Ok ["Increase daily steps to at least 1000 for better health."],
             w').
Proof.
  apply (low_steps_scenario (world_with low_steps_table) 0%nat).
  reflexivity.
Defined.

(** C9.  For every non-empty subset in which no record satisfies any of
    the three predicates, [provide_recommendations] returns the empty
    list: no advisory and no fallback sentence.  The fallback sentence is
    in the result exactly when the subset has no rows. *)
Theorem provide_recommendations_silent (w : world) (anomalies : ref)
  (a : DataFrame) :
  frame_at w anomalies = Some a ->
  is_dataset a = true ->
  exists recs : list string,
    provide_recommendations anomalies w = (Ok recs, w)
    /\ (In fallback recs <-> rows a = [])
    /\ (rows a <> [] ->
        (forall r, In r (rows a) -> ~ violation (columns a) r) ->
        recs = []).
Proof.
  intros Ha Hds.
  destruct (df_empty a) eqn:He.
  - exists [fallback].
    split; [exact (provide_recommendations_empty w anomalies a Ha He) | ].
    apply (dataset_empty_iff a Hds) in He.
    split; [split; [trivial | intros _; now left] | ].
    intros Hne. contradiction.
  - exists (advisories (columns a) (rows a)).
    split; [exact (provide_recommendations_nonempty w anomalies a Ha Hds He) | ].
    split.
    + split.
      * intros H. now apply advisories_no_fallback in H.
      * intros Hr. apply (dataset_empty_iff a Hds) in Hr. congruence.
    + intros _ Hok. now apply advisories_healthy.
Qed.

Lemma provide_recommendations_silent_witness :
  exists recs : list string,
    provide_recommendations 0%nat (world_with healthy_table)
      = (Ok recs, world_with healthy_table)
    /\ (In fallback recs <-> rows healthy_table = [])
    /\ (rows healthy_table <> [] ->
        (forall r, In r (rows healthy_table) ->
                   ~ violation (columns healthy_table) r) ->
        recs = []).
Proof.
  apply (provide_recommendations_silent (world_with healthy_table) 0%nat
           healthy_table); reflexivity.
Defined.

Example recommend_healthy_rows :
  provide_recommendations 0%nat (world_with healthy_table)
  = (Ok [], world_with healthy_table).
Proof. reflexivity. Qed.

(** C10.  For every dataset [d], running the detector and then the
    recommender loses nothing: the sentence of a predicate is in the
    result if and only if some row of [d] itself satisfies that
    predicate. *)
Theorem recommendations_reflect_dataset (w : world) (data : ref)
  (d : DataFrame) :
  frame_at w data = Some d ->
  is_dataset d = true ->
  exists (w' : world) (recs : list string),
    bind (detect_anomalies data) provide_recommendations w = (Ok recs, w')
    /\ (In advice_heart_rate recs
        <-> Exists (heart_rate_high (columns d)) (rows d))
    /\ (In advice_steps recs <-> Exists (steps_low (columns d)) (rows d))
    /\ (In advice_sleep recs <-> Exists (sleep_short (columns d)) (rows d)).
Proof.
  intros Hd Hds.
  pose proof (detect_anomalies_run w data d Hd Hds) as Hrun.
  set (w1 := mkWorld (frames w ++ [anomaly_subset d]) (figures w) (page w))
    in Hrun.
  assert (Hsub : frame_at w1 (next_ref w) = Some (anomaly_subset d))
    by apply frame_at_new.
  assert (Hds' : is_dataset (anomaly_subset d) = true)
    by now apply is_dataset_filter.
  assert (Hh : existsb (heart_rate_highb (columns d)) (rows (anomaly_subset d))
               = existsb (heart_rate_highb (columns d)) (rows d)).
  { apply existsb_filter_absorb. intros r Hr. unfold violationb.
    now rewrite Hr. }
  assert (Hs : existsb (steps_lowb (columns d)) (rows (anomaly_subset d))
               = existsb (steps_lowb (columns d)) (rows d)).
  { apply existsb_filter_absorb. intros r Hr. unfold violationb.
    rewrite Hr. now rewrite orb_true_r. }
  assert (Hl : existsb (sleep_shortb (columns d)) (rows (anomaly_subset d))
               = existsb (sleep_shortb (columns d)) (rows d)).
  { apply existsb_filter_absorb. intros r Hr. unfold violationb.
    rewrite Hr. now rewrite orb_true_r. }
  exists w1.
  rewrite (bind_ok _ _ w w1 _ Hrun).
  destruct (df_empty (anomaly_subset d)) eqn:He.
  - exists [fallback].
    split; [exact (provide_recommendations_empty w1 _ _ Hsub He) | ].
    apply (dataset_empty_iff _ Hds') in He. rewrite He in Hh, Hs, Hl.
    simpl in Hh, Hs, Hl.
    rewrite <- (existsb_Exists _ _ _ (heart_rate_highb_iff (columns d))),
            <- (existsb_Exists _ _ _ (steps_lowb_iff (columns d))),
            <- (existsb_Exists _ _ _ (sleep_shortb_iff (columns d))),
            <- Hh, <- Hs, <- Hl.
    repeat split; intros H; (discriminate H || not_in_sentences H).
  - exists (advisories (columns d) (rows (anomaly_subset d))).
    split.
    { exact (provide_recommendations_nonempty w1 _ _ Hsub Hds' He). }
    rewrite advisories_heart_rate, advisories_steps, advisories_sleep.
    rewrite Hh, Hs, Hl.
    split; [apply existsb_Exists, heart_rate_highb_iff | ].
    split; [apply existsb_Exists, steps_lowb_iff | ].
    apply existsb_Exists, sleep_shortb_iff.
Qed.

Lemma recommendations_reflect_dataset_witness :
  exists (w' : world) (recs : list string),
    bind (detect_anomalies 0%nat) provide_recommendations
         (world_with sample_table) = (Ok recs, w')
    /\ (In advice_heart_rate recs
        <-> Exists (heart_rate_high (columns sample_table)) (rows sample_table))
    /\ (In advice_steps recs
        <-> Exists (steps_low (columns sample_table)) (rows sample_table))
    /\ (In advice_sleep recs
        <-> Exists (sleep_short (columns sample_table)) (rows sample_table)).
Proof.
  apply (recommendations_reflect_dataset (world_with sample_table) 0%nat
           sample_table); reflexivity.
Defined.

(* ================================================================== *)
(** * The chart renderer *)
(* ================================================================== *)

Lemma getitem_err (w : world) (data : ref) (d : DataFrame) (name : string)
  (e : exception) :
  frame_at w data = Some d -> df_getitem d name = Err e ->
  getitem data name w = (Err e, w).
Proof.
  intros Hd Hs. unfold getitem.
  rewrite (bind_ok _ _ w w d (deref_ok w data d Hd)).
  unfold lift. now rewrite Hs.
Qed.

Lemma plt_bind {B : Type} (f : pyplot -> pyplot) (k : unit -> M B) (w : world) :
  bind (plt f) k w = k tt (mkWorld (frames w) (f (figures w)) (page w)).
Proof. reflexivity. Qed.

Lemma st_bind {B : Type} (e : event) (k : unit -> M B) (w : world) :
  bind (st e) k w = k tt (mkWorld (frames w) (figures w) (page w ++ [e])).
Proof. reflexivity. Qed.

Lemma BytesIO_write_new (data : bytes) :
  BytesIO_write BytesIO_new data = mkBytesIO data (List.length data).
Proof.
  unfold BytesIO_write, BytesIO_new; cbn [getvalue tell].
  rewrite skipn_nil. simpl. now rewrite app_nil_r.
Qed.

Lemma contains_get_loc (cols : list string) (name : string) :
  contains cols name = true -> exists i, get_loc name cols = Some i.
Proof.
  unfold contains. induction cols as [ | c cols IH]; simpl.
  - discriminate.
  - destruct (String.eqb name c).
    + intros _. now exists O.
    + intros H. destruct (IH H) as [i ->]. now exists (S i).
Qed.

Lemma contains_In (cols : list string) (name : string) :
  contains cols name = true <-> In name cols.
Proof.
  unfold contains. rewrite existsb_exists. split.
  - intros [c [Hc E]]. apply String.eqb_eq in E. now subst.
  - intros H. exists name. split; [exact H | apply String.eqb_refl].
Qed.

Lemma df_getitem_column (d : DataFrame) (name : string) :
  contains (columns d) name = true ->
  df_getitem d name = Ok (column d name).
Proof.
  intros H. destruct (contains_get_loc _ _ H) as [i Hi].
  unfold df_getitem, column. rewrite Hi. f_equal.
  apply map_ext. intros r. symmetry. now apply field_loc.
Qed.

Lemma required_columns_present (cols : list string) :
  forallb (contains cols) required_columns = true ->
  contains cols "Date" = true
  /\ contains cols "Steps" = true
  /\ contains cols "Heart Rate (bpm)" = true
  /\ contains cols "Calories Burned" = true
  /\ contains cols "Sleep Duration (hours)" = true.
Proof.
  unfold required_columns. cbn [forallb]. rewrite !andb_true_iff. tauto.
Qed.

(** One call of [data[name]] whose outcome on the frame is known. *)
Ltac run_getitem Hd :=
  match goal with
  | H : df_getitem ?d ?name = Ok ?s
    |- context [bind (getitem ?data ?name) ?k ?w] =>
      rewrite (bind_ok (getitem data name) k w w s
                 (getitem_ok w data d name s Hd H))
  | H : df_getitem ?d ?name = Err ?e
    |- context [bind (getitem ?data ?name) ?k ?w] =>
      rewrite (bind_err (getitem data name) k w w e
                 (getitem_err w data d name e Hd H))
  end.

Section Renderer.

Variable lib : Libraries.

Lemma plot_bind_ok {B : Type} (x y : Series) (mk : string)
  (col : option string) (k : unit -> M B) (w : world) :
  plot_error lib x y = None ->
  bind (plot lib x y mk col) k w
  = k tt (mkWorld (frames w) (pyplot_plot x y mk col (figures w)) (page w)).
Proof. intros H. unfold plot. now rewrite H. Qed.

Lemma plot_bind_err {B : Type} (x y : Series) (mk : string)
  (col : option string) (k : unit -> M B) (w : world) (e : exception) :
  plot_error lib x y = Some e ->
  bind (plot lib x y mk col) k w = (Err e, w).
Proof. intros H. unfold plot. now rewrite H. Qed.

Lemma savefig_bind {B : Type} (buf : BytesIO) (k : BytesIO -> M B)
  (w : world) :
  bind (savefig lib buf) k w
  = match savefig_png lib (gcf (figures w)) with
    | Ok png => k (BytesIO_write buf png) w
    | Err e => (Err e, w)
    end.
Proof.
  unfold bind, savefig. now destruct (savefig_png lib (gcf (figures w))).
Qed.

End Renderer.

(** One call of [plt.plot] whose outcome is known. *)
Ltac run_plot :=
  match goal with
  | H : plot_error ?lib ?x ?y = None
    |- context [bind (plot ?lib ?x ?y ?mk ?col) ?k ?w] =>
      rewrite (plot_bind_ok lib x y mk col k w H)
  | H : plot_error ?lib ?x ?y = Some ?e
    |- context [bind (plot ?lib ?x ?y ?mk ?col) ?k ?w] =>
      rewrite (plot_bind_err lib x y mk col k w e H)
  end.

(** Case analysis on the next lookup or library call of an outcome. *)
Ltac next_outcome :=
  match goal with
  | |- _ = match ?r with Ok _ => _ | Err _ => _ end => destruct r eqn:?
  | |- _ = match ?r with Some _ => _ | None => _ end => destruct r eqn:?
  end.

(** Running [plot_data] as far as the outcomes in the context tell. *)
Ltac run_plot_data Hd :=
  repeat first [ rewrite plt_bind; cbn [frames figures page]
               | run_getitem Hd
               | run_plot; cbn [frames figures page] ].

(** Case analysis on the next lookup or [plt.plot] call of a run whose
    outcome is not known yet. *)
Ltac split_run d :=
  match goal with
  | |- context [bind (getitem _ ?name) _ _] =>
      lazymatch goal with
      | H : df_getitem d name = _ |- _ => fail
      | _ => destruct (df_getitem d name) eqn:?
      end
  | |- context [bind (plot ?lib ?x ?y _ _) _ _] =>
      lazymatch goal with
      | H : plot_error lib x y = _ |- _ => fail
      | _ => destruct (plot_error lib x y) eqn:?
      end
  end.

Section RendererFacts.

Variable lib : Libraries.

Lemma plot_data_result (w : world) (data : ref) (d : DataFrame) :
  frame_at w data = Some d ->
  fst (plot_data lib data w) = plot_outcome lib d.
Proof.
  intros Hd. unfold plot_data, plot_outcome.
  repeat first [ rewrite plt_bind; cbn [frames figures page]
               | run_getitem Hd
               | run_plot; cbn [frames figures page]
               | next_outcome ];
    try reflexivity;
    rewrite savefig_bind; cbn [figures];
    match goal with
    | H : savefig_png lib ?fig = _ |- context [gcf ?p] =>
        change (gcf p) with fig; rewrite H
    end;
    reflexivity.
Qed.

Lemma charts_accepted_all (d : DataFrame) :
  forallb (contains (columns d)) required_columns = true ->
  charts_accepted lib d ->
  plot_error lib (column d "Date") (column d "Steps") = None
  /\ plot_error lib (column d "Date") (column d "Heart Rate (bpm)") = None
  /\ plot_error lib (column d "Date") (column d "Calories Burned") = None
  /\ plot_error lib (column d "Date") (column d "Sleep Duration (hours)")
     = None.
Proof.
  intros Hc Ha.
  destruct (required_columns_present _ Hc) as [Cd [Cs [Ch [Cc Cl]]]].
  repeat split; apply Ha; trivial; simpl; tauto.
Qed.

Lemma plot_data_figure (w : world) (data : ref) (d : DataFrame)
  (png : bytes) :
  frame_at w data = Some d ->
  forallb (contains (columns d)) required_columns = true ->
  charts_accepted lib d ->
  savefig_png lib (chart d) = Ok png ->
  plot_data lib data w =
    (Ok (mkBytesIO png 0),
     mkWorld (frames w) (chart d :: figures w) (page w)).
Proof.
  intros Hd Hc Ha Hpng.
  destruct (charts_accepted_all d Hc Ha) as [P1 [P2 [P3 P4]]].
  destruct (required_columns_present _ Hc) as [Cd [Cs [Ch [Cc Cl]]]].
  apply df_getitem_column in Cd, Cs, Ch, Cc, Cl.
  unfold plot_data. run_plot_data Hd.
  rewrite savefig_bind; cbn [figures].
  change (gcf _) with (chart d). rewrite Hpng.
  unfold ret. now rewrite BytesIO_write_new.
Qed.

(** Whatever happens in them, two runs on the same content leave the
    same figure as the current one. *)
Lemma plot_data_same_figure (w1 w2 : world) (data1 data2 : ref)
  (d : DataFrame) :
  frame_at w1 data1 = Some d ->
  frame_at w2 data2 = Some d ->
  gcf (figures (snd (plot_data lib data1 w1)))
  = gcf (figures (snd (plot_data lib data2 w2))).
Proof.
  intros H1 H2. unfold plot_data.
  repeat first [ rewrite plt_bind; cbn [frames figures page]
               | run_getitem H1
               | run_getitem H2
               | run_plot; cbn [frames figures page]
               | split_run d ];
    try reflexivity.
  rewrite !savefig_bind; cbn [figures].
  repeat match goal with
         | |- context [savefig_png lib (gcf ?p)] =>
             let fig := eval cbv in (gcf p) in
             progress change (gcf p) with fig
         end.
  match goal with
  | |- context [savefig_png lib ?fig] => destruct (savefig_png lib fig)
  end;
    reflexivity.
Qed.

(** C7.  The chart renderer is deterministic: two runs of [plot_data] on
    frames with the same content return the same thing (the same buffer,
    or the same exception) and leave the same figure as the current one,
    whatever figures [pyplot] already holds and wherever a run stops.
    On a table with the required columns whose four series [plt.plot]
    draws and whose chart [plt.savefig] encodes, the figure has four
    panels on a 2 by 2 grid,
    the dates against steps, heart rate, calories and sleep, with fixed
    markers, colours, titles and tick rotation; the buffer holds its
    encoding and is rewound to its start. *)
Theorem plot_data_deterministic (w1 w2 : world) (data1 data2 : ref)
  (d : DataFrame) :
  frame_at w1 data1 = Some d ->
  frame_at w2 data2 = Some d ->
  fst (plot_data lib data1 w1) = fst (plot_data lib data2 w2)
  /\ gcf (figures (snd (plot_data lib data1 w1)))
     = gcf (figures (snd (plot_data lib data2 w2)))
  /\ (forall png : bytes,
        forallb (contains (columns d)) required_columns = true ->
        charts_accepted lib d ->
        savefig_png lib (chart d) = Ok png ->
        fst (plot_data lib data1 w1) = Ok (mkBytesIO png 0)
        /\ gcf (figures (snd (plot_data lib data1 w1))) = chart d
        /\ map subplot_spec (axes (chart d))
           = [(2, 2, 4); (2, 2, 3); (2, 2, 2); (2, 2, 1)]%nat
        /\ map lines (axes (chart d))
           = [[mkLine2D (column d "Date") (column d "Sleep Duration (hours)")
                        "o" (Some "purple")];
              [mkLine2D (column d "Date") (column d "Calories Burned")
                        "o" (Some "green")];
              [mkLine2D (column d "Date") (column d "Heart Rate (bpm)")
                        "o" (Some "red")];
              [mkLine2D (column d "Date") (column d "Steps") "o" None]]).
Proof.
  intros H1 H2. split; [ | split].
  - now rewrite (plot_data_result w1 data1 d H1),
                (plot_data_result w2 data2 d H2).
  - exact (plot_data_same_figure w1 w2 data1 data2 d H1 H2).
  - intros png Hc Ha Hpng.
    rewrite (plot_data_figure w1 data1 d png H1 Hc Ha Hpng).
    repeat split.
Qed.

End RendererFacts.

(** The stand-in plotting call draws the four series of the sample
    week. *)
Lemma sample_charts_accepted : charts_accepted toy_lib sample_table.
Proof.
  intros m Hin _ _. simpl in Hin.
  destruct Hin as [<- | [<- | [<- | [<- | []]]]]; reflexivity.
Qed.

Lemma plot_data_deterministic_witness :
  fst (plot_data toy_lib 0%nat (world_with sample_table))
  = fst (plot_data toy_lib 1%nat
           (mkWorld [healthy_table; sample_table] [default_figure]
                    [ShowTitle "x"]))
  /\ gcf (figures (snd (plot_data toy_lib 0%nat (world_with sample_table))))
     = gcf (figures (snd (plot_data toy_lib 1%nat
                            (mkWorld [healthy_table; sample_table]
                                     [default_figure] [ShowTitle "x"]))))
  /\ fst (plot_data toy_lib 0%nat (world_with sample_table))
     = Ok (mkBytesIO (repeat x2a 4) 0)
  /\ gcf (figures (snd (plot_data toy_lib 0%nat (world_with sample_table))))
     = chart sample_table
  /\ map subplot_spec (axes (chart sample_table))
     = [(2, 2, 4); (2, 2, 3); (2, 2, 2); (2, 2, 1)]%nat
  /\ map lines (axes (chart sample_table))
     = [[mkLine2D (column sample_table "Date")
                  (column sample_table "Sleep Duration (hours)")
                  "o" (Some "purple")];
        [mkLine2D (column sample_table "Date")
                  (column sample_table "Calories Burned")
                  "o" (Some "green")];
        [mkLine2D (column sample_table "Date")
                  (column sample_table "Heart Rate (bpm)")
                  "o" (Some "red")];
        [mkLine2D (column sample_table "Date")
                  (column sample_table "Steps") "o" None]].
Proof.
  pose (H := plot_data_deterministic toy_lib
               (world_with sample_table)
               (mkWorld [healthy_table; sample_table] [default_figure]
                        [ShowTitle "x"])
               0%nat 1%nat sample_table eq_refl eq_refl).
  split; [exact (proj1 H) | ].
  split; [exact (proj1 (proj2 H)) | ].
  apply (proj2 (proj2 H) (repeat x2a 4)).
  - reflexivity.
  - apply sample_charts_accepted.
  - reflexivity.
Defined.

(** On the sample week the stand-in libraries accept the plots and
    encode the chart, so the run returns the four-panel figure. *)
Example plot_sample_table :
  plot_data toy_lib 0%nat (world_with sample_table)
  = (Ok (mkBytesIO (repeat x2a 4) 0),
     mkWorld [sample_table] [chart sample_table] []).
Proof. reflexivity. Qed.

(** A blank date makes the date series mixed, which the stand-in
    [plt.plot] refuses as the category converter does: the first panel
    stays without a line and the figure stays open. *)
Example plot_blank_date :
  is_dataset blank_date_table = true
  /\ plot_data toy_lib 0%nat (world_with blank_date_table)
     = (Err (TypeError "plot"),
        mkWorld [blank_date_table]
          [mkFigure (10 # 1, 6 # 1)%Q [mkAxes (2, 2, 1)%nat [] "" 0] false]
          []).
Proof. split; reflexivity. Qed.

(* ================================================================== *)
(** * The report assembler *)
(* ================================================================== *)

Lemma row_getitem_field (cols : list string) (r : Row) (name : string) :
  contains cols name = true ->
  row_getitem cols r name = Ok (field cols name r).
Proof.
  intros H. destruct (contains_get_loc _ _ H) as [i Hi].
  unfold row_getitem, field. now rewrite Hi.
Qed.

Lemma table_row_cells (cols : list string) (r : Row) :
  forallb (contains cols) required_columns = true ->
  table_row cols r = Ok (record_cells cols r).
Proof.
  intros Hc.
  destruct (required_columns_present _ Hc) as [Cd [Cs [Ch [Cc Cl]]]].
  unfold table_row.
  now rewrite !row_getitem_field by assumption.
Qed.

Lemma append_rows_cells (cols : list string) (rs : list Row)
  (acc : list (list value)) :
  forallb (contains cols) required_columns = true ->
  append_rows cols rs acc = Ok (acc ++ map (record_cells cols) rs).
Proof.
  intros Hc. revert acc.
  induction rs as [ | r rs IH]; intros acc; simpl.
  - now rewrite app_nil_r.
  - rewrite (table_row_cells cols r Hc), IH, <- app_assoc. reflexivity.
Qed.

Ltac decide_cover :=
  unfold cell_background, cell_textcolor, cell_grid, report_style, covers,
    resolve;
  cbn [fold_left fst snd Z.ltb Z.compare];
  repeat match goal with
         | |- context [Z.leb ?a ?b] =>
             destruct (Z.leb_spec a b); try lia; cbn [andb]
         end;
  try reflexivity.

Lemma report_style_header (n c : Z) :
  0 <= n -> 0 <= c < 5 ->
  cell_background 5 (1 + n) report_style (c, 0) = Some colors.grey
  /\ cell_textcolor 5 (1 + n) report_style (c, 0) = colors.whitesmoke
  /\ cell_grid 5 (1 + n) report_style (c, 0) = Some (1, colors.black).
Proof. intros Hn Hc. repeat split; decide_cover. Qed.

Lemma report_style_body (n c r : Z) :
  0 <= c < 5 -> 1 <= r <= n ->
  cell_background 5 (1 + n) report_style (c, r) = Some colors.beige
  /\ cell_textcolor 5 (1 + n) report_style (c, r) = colors.black
  /\ cell_grid 5 (1 + n) report_style (c, r) = Some (1, colors.black).
Proof. intros Hc Hr. repeat split; decide_cover. Qed.

(** One [lift]ed step: the value is known, or the error is. *)
Lemma lift_bind_ok {A B : Type} (a : A) (k : A -> M B) (w : world) :
  bind (lift (Ok a)) k w = k a w.
Proof. reflexivity. Qed.

Lemma lift_bind_err {A B : Type} (e : exception) (k : A -> M B) (w : world) :
  bind (lift (Err e)) k w = (Err e, w).
Proof. reflexivity. Qed.

Ltac run_lift := first [rewrite lift_bind_ok | rewrite lift_bind_err].

(** Case analysis on the next step of an outcome function. *)
Ltac next_case :=
  match goal with
  | |- context [match ?r with Ok _ => _ | Err _ => _ end] =>
      destruct r eqn:?
  end.

(** With a text cell somewhere in the frame the rows reach the table as
    they are; in any case there is one for each row of the frame. *)
Lemma iterrows_object (a : DataFrame) :
  existsb (existsb is_object) (rows a) = true -> iterrows a = rows a.
Proof. intros H. unfold iterrows, values. now rewrite H. Qed.

Lemma iterrows_numeric (a : DataFrame) :
  existsb (existsb is_object) (rows a) = false ->
  existsb (existsb is_float) (rows a) = true ->
  iterrows a = map (map to_float64) (rows a).
Proof. intros Ho Hf. unfold iterrows, values. now rewrite Ho, Hf. Qed.

Lemma iterrows_length (a : DataFrame) :
  List.length (iterrows a) = List.length (rows a).
Proof.
  unfold iterrows, values.
  destruct (existsb (existsb is_object) (rows a)); [reflexivity | ].
  destruct (existsb (existsb is_float) (rows a)); [ | reflexivity].
  apply length_map.
Qed.

Section Assembler.

Variable lib : Libraries.

Lemma new_Paragraph_ok (text : string) (style : styles.ParagraphStyle) :
  markup_ok lib text = true ->
  new_Paragraph lib text style = Ok (Paragraph text style).
Proof. intros H. unfold new_Paragraph. now rewrite H. Qed.

Lemma new_Paragraph_refused (text : string) (style : styles.ParagraphStyle) :
  markup_ok lib text = false ->
  new_Paragraph lib text style = Err (ValueError text).
Proof. intros H. unfold new_Paragraph. now rewrite H. Qed.

Lemma append_paragraphs_ok (recs : list string) (elements : list Flowable) :
  Forall (fun rec => markup_ok lib ("- " ++ rec)%string = true) recs ->
  append_paragraphs lib recs elements = Ok (elements ++ map bullet recs).
Proof.
  intros H. revert elements.
  induction H as [ | rec recs Hrec _ IH]; intros elements; simpl.
  - now rewrite app_nil_r.
  - rewrite (new_Paragraph_ok _ _ Hrec), IH, <- app_assoc. reflexivity.
Qed.

(** What the assembler returns depends on the subset's content only, and
    it leaves the world as it is. *)
Lemma create_pdf_report_outcome (name : string) (age : Z) (w : world)
  (data anomalies : ref) (a : DataFrame) (recs : list string)
  (plot_image_buf : BytesIO) :
  frame_at w anomalies = Some a ->
  create_pdf_report lib name age data anomalies recs plot_image_buf w
  = (report_outcome lib name age a recs plot_image_buf, w).
Proof.
  intros Ha.
  unfold create_pdf_report, report_outcome, table_header, report_style.
  cbv zeta.
  repeat first [ run_lift; cbn [app]
               | rewrite (bind_ok _ _ _ _ _ (deref_ok w anomalies a Ha))
               | next_case ];
    reflexivity.
Qed.

Lemma report_outcome_ok (name : string) (age : Z) (a : DataFrame)
  (recs : list string) (plot_image_buf : BytesIO) (document : bytes) :
  forallb (contains (columns a)) required_columns = true ->
  markup_accepted lib name age recs ->
  image_error lib plot_image_buf = None ->
  platypus_build lib letter (report_elements name age a recs plot_image_buf)
  = Ok document ->
  report_outcome lib name age a recs plot_image_buf = Ok document.
Proof.
  intros Hc [Mt [Ms [Md [Mr Mb]]]] Hi Hb. unfold report_outcome.
  rewrite !new_Paragraph_ok by assumption.
  rewrite (append_rows_cells (columns a) (iterrows a) _ Hc).
  rewrite (append_paragraphs_ok recs _ Mb).
  unfold new_Image. rewrite Hi.
  unfold report_elements in Hb. cbn [app] in *. rewrite Hb.
  f_equal. rewrite BytesIO_write_new. reflexivity.
Qed.

Lemma create_pdf_report_run (name : string) (age : Z) (w : world)
  (data anomalies : ref) (a : DataFrame) (recs : list string)
  (plot_image_buf : BytesIO) (document : bytes) :
  frame_at w anomalies = Some a ->
  forallb (contains (columns a)) required_columns = true ->
  markup_accepted lib name age recs ->
  image_error lib plot_image_buf = None ->
  platypus_build lib letter (report_elements name age a recs plot_image_buf)
  = Ok document ->
  create_pdf_report lib name age data anomalies recs plot_image_buf w
  = (Ok document, w).
Proof.
  intros Ha Hc Hm Hi Hb.
  rewrite (create_pdf_report_outcome name age w data anomalies a recs
             plot_image_buf Ha).
  now rewrite (report_outcome_ok name age a recs plot_image_buf document).
Qed.

(** C5.  When [Paragraph] parses the texts, [Image] reads the chart and
    the layout engine builds the document, [create_pdf_report] lays out,
    in this order: the title paragraph, whose text contains the name and
    the age; the heading "Data Summary:"; the heading "Anomalies
    Detected:" and then a table whose first row is the five field names
    and whose other rows are the records of the anomaly subset as
    [iterrows] yields them, one row each, in the subset's order (with a
    text cell in the subset, such as a date, the cells are the records'
    own; in a subset of numbers only, some of them doubles, every
    integer is shown as a double); the heading "Recommendations:" and then one bulleted
    paragraph per advisory, in order; and the chart image.  The header
    row has its own background and text colour (grey and whitesmoke,
    against beige and black in the body) and every cell has a grid line
    of width 1.  The document is written to a buffer, the buffer is
    rewound to its start, and what is returned is the whole document
    read from there. *)
Theorem create_pdf_report_layout (name : string) (age : Z) (w : world)
  (data anomalies : ref) (a : DataFrame) (recs : list string)
  (plot_image_buf : BytesIO) (document : bytes) :
  frame_at w anomalies = Some a ->
  forallb (contains (columns a)) required_columns = true ->
  markup_accepted lib name age recs ->
  image_error lib plot_image_buf = None ->
  platypus_build lib letter (report_elements name age a recs plot_image_buf)
  = Ok document ->
  exists (title : string) (body : list (list value))
         (style : list TableStyleCmd) (buffer : BytesIO),
    let elements :=
      [Paragraph title styles.Title;
       Paragraph "Data Summary:" styles.Heading2;
       Paragraph "Anomalies Detected:" styles.Heading3;
       Table ([VStr "Date"; VStr "Steps"; VStr "Heart Rate (bpm)";
               VStr "Calories Burned"; VStr "Sleep Duration (hours)"]
                :: body) style;
       Paragraph "Recommendations:" styles.Heading2]
      ++ map (fun rec => Paragraph ("- " ++ rec)%string styles.Normal) recs
      ++ [Image plot_image_buf] in
    let nrows := 1 + Z.of_nat (List.length body) in
    report_elements name age a recs plot_image_buf = elements
    /\ title = ("Health Report for " ++ name ++ ", Age: " ++ str age)%string
    /\ body = map (record_cells (columns a)) (iterrows a)
    /\ List.length body = List.length (rows a)
    /\ (existsb (existsb is_object) (rows a) = true ->
        body = map (record_cells (columns a)) (rows a))
    /\ (existsb (existsb is_object) (rows a) = false ->
        existsb (existsb is_float) (rows a) = true ->
        body = map (record_cells (columns a)) (map (map to_float64) (rows a)))
    /\ (forall c, 0 <= c < 5 ->
          cell_background 5 nrows style (c, 0) = Some colors.grey
          /\ cell_textcolor 5 nrows style (c, 0) = colors.whitesmoke
          /\ cell_grid 5 nrows style (c, 0) = Some (1, colors.black))
    /\ (forall c r, 0 <= c < 5 -> 1 <= r < nrows ->
          cell_background 5 nrows style (c, r) = Some colors.beige
          /\ cell_textcolor 5 nrows style (c, r) = colors.black
          /\ cell_grid 5 nrows style (c, r) = Some (1, colors.black)
          /\ cell_background 5 nrows style (c, 0)
             <> cell_background 5 nrows style (c, r)
          /\ cell_textcolor 5 nrows style (c, 0)
             <> cell_textcolor 5 nrows style (c, r))
    /\ getvalue buffer = document
    /\ tell buffer = 0%nat
    /\ create_pdf_report lib name age data anomalies recs plot_image_buf w
       = (Ok (fst (BytesIO_read buffer)), w)
    /\ fst (BytesIO_read buffer) = document.
Proof.
  intros Ha Hc Hm Hi Hb.
  exists ("Health Report for " ++ name ++ ", Age: " ++ str age)%string,
         (map (record_cells (columns a)) (iterrows a)),
         report_style,
         (BytesIO_seek (BytesIO_write BytesIO_new document) 0).
  cbv zeta.
  assert (Hn : 0 <= Z.of_nat (List.length (map (record_cells (columns a))
                                                (iterrows a)))) by lia.
  split; [reflexivity | ].
  split; [reflexivity | ].
  split; [reflexivity | ].
  split; [now rewrite length_map, iterrows_length | ].
  split; [intros Hobj; now rewrite (iterrows_object a Hobj) | ].
  split; [intros Hobj Hfl; now rewrite (iterrows_numeric a Hobj Hfl) | ].
  split; [intros c Hcol; now apply report_style_header | ].
  split.
  { intros c r Hcol Hrow.
    destruct (report_style_header _ c Hn Hcol) as [Hb' [Ht _]].
    destruct (report_style_body
                (Z.of_nat (List.length (map (record_cells (columns a))
                                            (iterrows a)))) c r Hcol)
      as [Bb [Bt Bg]]; [lia | ].
    rewrite Hb', Ht, Bb, Bt, Bg. repeat split; discriminate. }
  rewrite BytesIO_write_new.
  split; [reflexivity | ].
  split; [reflexivity | ].
  split; [ | reflexivity].
  exact (create_pdf_report_run name age w data anomalies a recs
           plot_image_buf document Ha Hc Hm Hi Hb).
Qed.

End Assembler.

Lemma create_pdf_report_layout_witness :
  exists (title : string) (body : list (list value))
         (style : list TableStyleCmd) (buffer : BytesIO),
    let elements :=
      [Paragraph title styles.Title;
       Paragraph "Data Summary:" styles.Heading2;
       Paragraph "Anomalies Detected:" styles.Heading3;
       Table ([VStr "Date"; VStr "Steps"; VStr "Heart Rate (bpm)";
               VStr "Calories Burned"; VStr "Sleep Duration (hours)"]
                :: body) style;
       Paragraph "Recommendations:" styles.Heading2]
      ++ map (fun rec => Paragraph ("- " ++ rec)%string styles.Normal)
             [advice_heart_rate]
      ++ [Image (mkBytesIO [x89; x50; x4e; x47] 0)] in
    let nrows := 1 + Z.of_nat (List.length body) in
    report_elements "Ann" 30 racing_table [advice_heart_rate]
                    (mkBytesIO [x89; x50; x4e; x47] 0) = elements
    /\ title = ("Health Report for " ++ "Ann" ++ ", Age: " ++ str 30)%string
    /\ body = map (record_cells (columns racing_table)) (iterrows racing_table)
    /\ List.length body = List.length (rows racing_table)
    /\ (existsb (existsb is_object) (rows racing_table) = true ->
        body = map (record_cells (columns racing_table)) (rows racing_table))
    /\ (existsb (existsb is_object) (rows racing_table) = false ->
        existsb (existsb is_float) (rows racing_table) = true ->
        body = map (record_cells (columns racing_table))
                   (map (map to_float64) (rows racing_table)))
    /\ (forall c, 0 <= c < 5 ->
          cell_background 5 nrows style (c, 0) = Some colors.grey
          /\ cell_textcolor 5 nrows style (c, 0) = colors.whitesmoke
          /\ cell_grid 5 nrows style (c, 0) = Some (1, colors.black))
    /\ (forall c r, 0 <= c < 5 -> 1 <= r < nrows ->
          cell_background 5 nrows style (c, r) = Some colors.beige
          /\ cell_textcolor 5 nrows style (c, r) = colors.black
          /\ cell_grid 5 nrows style (c, r) = Some (1, colors.black)
          /\ cell_background 5 nrows style (c, 0)
             <> cell_background 5 nrows style (c, r)
          /\ cell_textcolor 5 nrows style (c, 0)
             <> cell_textcolor 5 nrows style (c, r))
    /\ getvalue buffer = repeat x25 7
    /\ tell buffer = 0%nat
    /\ create_pdf_report toy_lib "Ann" 30 0%nat 0%nat
                         [advice_heart_rate]
                         (mkBytesIO [x89; x50; x4e; x47] 0)
                         (world_with racing_table)
       = (Ok (fst (BytesIO_read buffer)), world_with racing_table)
    /\ fst (BytesIO_read buffer) = repeat x25 7.
Proof.
  apply (create_pdf_report_layout toy_lib "Ann" 30
           (world_with racing_table) 0%nat 0%nat racing_table
           [advice_heart_rate] (mkBytesIO [x89; x50; x4e; x47] 0)
           (repeat x25 7)).
  - reflexivity.
  - reflexivity.
  - repeat split; try reflexivity. repeat constructor.
  - reflexivity.
  - reflexivity.
Defined.

Example report_of_racing_table :
  create_pdf_report toy_lib "Ann" 30 0%nat 0%nat
                    [advice_heart_rate] (mkBytesIO [x89; x50; x4e; x47] 0)
                    (world_with racing_table)
  = (Ok (repeat x25 7), world_with racing_table).
Proof. reflexivity. Qed.

(** A name with an unclosed tag stops the report at its title. *)
Example report_with_bad_name :
  create_pdf_report toy_lib "<b>Ann" 30 0%nat 0%nat
                    [advice_heart_rate] (mkBytesIO [x89; x50; x4e; x47] 0)
                    (world_with racing_table)
  = (Err (ValueError "Health Report for <b>Ann, Age: 30"),
     world_with racing_table).
Proof. reflexivity. Qed.

(** On a table of numbers only, the integers reach the table as
    doubles, rounded to the nearest one. *)
Example iterrows_upcast :
  iterrows (mkDataFrame required_columns
              [[VInt 20240101; VInt 500; VInt 72; VInt 1800; VInt 7];
               [VInt 20240102; VInt 8000; VInt 65; VInt 2200;
                VFloat (Finite (15 # 2))]])
  = [[VFloat (Finite (20240101 # 1)); VFloat (Finite (500 # 1));
      VFloat (Finite (72 # 1)); VFloat (Finite (1800 # 1));
      VFloat (Finite (7 # 1))];
     [VFloat (Finite (20240102 # 1)); VFloat (Finite (8000 # 1));
      VFloat (Finite (65 # 1)); VFloat (Finite (2200 # 1));
      VFloat (Finite (15 # 2))]]
  /\ round_to_double (2 ^ 53 + 1) = 2 ^ 53
  /\ round_to_double (2 ^ 53 + 3) = 2 ^ 53 + 4
  /\ round_to_double (- (2 ^ 62 + 1)) = - 2 ^ 62.
Proof. repeat split. Qed.

(* ================================================================== *)
(** * The script *)
(* ================================================================== *)

Lemma new_frame_bind {B : Type} (df : DataFrame) (k : ref -> M B) (w : world) :
  bind (new_frame df) k w
  = k (next_ref w) (mkWorld (frames w ++ [df]) (figures w) (page w)).
Proof. reflexivity. Qed.

Lemma head_ok (w : world) (p : ref) (d : DataFrame) :
  frame_at w p = Some d ->
  head p w = (Ok (next_ref w),
              mkWorld (frames w ++ [df_head d]) (figures w) (page w)).
Proof.
  intros Hd. unfold head.
  now rewrite (bind_ok _ _ w w d (deref_ok w p d Hd)).
Qed.

Lemma missing_column_fails_check (cols : list string) (col : string) :
  In col required_columns -> ~ In col cols ->
  forallb (contains cols) required_columns = false.
Proof.
  intros Hreq Hmiss. apply not_true_is_false. intros H.
  rewrite forallb_forall in H. apply Hmiss, contains_In. now apply H.
Qed.

Section Script.

Variable lib : Libraries.

(** The script up to the point where the columns are checked. *)
Lemma main_until_check (s : Session) (w : world) (parsed : DataFrame) :
  uploaded s = Some parsed ->
  let w0 :=
    mkWorld (frames w ++ [parsed; df_head parsed]) (figures w)
            (page w ++ form_events (entered_name s) (widget_age s)
               ++ [ShowText "Data Preview:"; ShowFrame (df_head parsed)]) in
  main lib s w
  = (if negb (forallb (contains (columns parsed)) required_columns)
     then st (ShowError schema_error)
     else
       anomalies <- detect_anomalies (next_ref w) ;;
       st (ShowText "Anomalies Detected:") ;;
       shown <- deref anomalies ;;
       st (ShowFrame shown) ;;
       recommendations <- provide_recommendations anomalies ;;
       st (ShowText "Recommendations:") ;;
       write_each recommendations ;;
       plot_image_buf <- plot_data lib (next_ref w) ;;
       pdf_buf <- create_pdf_report lib (entered_name s)
                    (widget_age s) (next_ref w) anomalies recommendations
                    plot_image_buf ;;
       st (ShowDownloadButton "Download Report" pdf_buf
                              "health_report.pdf" "application/pdf")) w0.
Proof.
  intros Hup. cbv zeta.
  unfold main, text_input, number_input, file_uploader, read_csv.
  rewrite st_bind.
  unfold bind at 1. rewrite st_bind. unfold ret at 1.
  unfold bind at 1. rewrite st_bind. unfold ret at 1.
  rewrite !st_bind.
  unfold bind at 1. rewrite st_bind. unfold ret at 1.
  cbn [frames figures page]. rewrite Hup.
  rewrite new_frame_bind, st_bind. cbn [frames figures page].
  erewrite bind_ok by (apply head_ok, frame_at_new).
  cbn [frames figures page next_ref].
  erewrite bind_ok by (apply deref_ok; apply frame_at_new).
  rewrite st_bind. cbn [frames figures page].
  erewrite bind_ok
    by (apply deref_ok;
        apply (frame_at_old _ [df_head parsed] (figures w) _ (page w));
        apply frame_at_new).
  unfold form_events, widget_age, next_ref.
  rewrite <- !app_assoc. reflexivity.
Qed.

(** C6.  If the uploaded table lacks one of the five required columns,
    the script stops at the check: it ends normally, the page shows the
    form, the preview and then the schema error and nothing else, and no
    stage has run, since the store holds only the uploaded table and its
    preview (no anomaly subset), no figure has been opened, and there is
    no recommendation and no download button on the page. *)
Theorem missing_column_short_circuit (s : Session) (w : world)
  (parsed : DataFrame) (col : string) :
  uploaded s = Some parsed ->
  In col required_columns ->
  ~ In col (columns parsed) ->
  exists (w' : world) (age : Z),
    main lib s w = (Ok tt, w')
    /\ frames w' = frames w ++ [parsed; df_head parsed]
    /\ figures w' = figures w
    /\ page w' = page w ++ form_events (entered_name s) age
                   ++ [ShowText "Data Preview:"; ShowFrame (df_head parsed);
                       ShowError
                         "CSV file must contain the following columns: 'Date', 'Steps', 'Heart Rate (bpm)', 'Calories Burned', 'Sleep Duration (hours)'."]
    /\ (forall e, In e (page w') -> In e (page w)
                  \/ match e with
                     | ShowDownloadButton _ _ _ _ => False
                     | ShowText t => t <> "Anomalies Detected:"
                                     /\ t <> "Recommendations:"
                     | _ => True
                     end).
Proof.
  intros Hup Hreq Hmiss.
  pose proof (main_until_check s w parsed Hup) as Hmain. cbv zeta in Hmain.
  rewrite (missing_column_fails_check _ col Hreq Hmiss) in Hmain.
  cbn [negb] in Hmain.
  eexists; exists (widget_age s).
  split; [rewrite Hmain; reflexivity | ].
  cbn [frames figures page].
  split; [reflexivity | ].
  split; [reflexivity | ].
  split; [rewrite <- !app_assoc; reflexivity | ].
  intros e He.
  apply in_app_or in He. destruct He as [He | He].
  - apply in_app_or in He. destruct He as [He | He]; [now left | right].
    apply in_app_or in He. destruct He as [He | He].
    + unfold form_events in He. simpl in He.
      repeat (destruct He as [<- | He]; [try exact I | ]);
        try contradiction.
      * split; intros E; simpl in E; discriminate E.
      * split; discriminate.
    + simpl in He.
      repeat (destruct He as [<- | He]; [try exact I | ]);
        try contradiction.
      split; discriminate.
  - right. simpl in He. destruct He as [<- | []]. exact I.
Qed.

End Script.

Lemma missing_column_short_circuit_witness :
  exists (w' : world) (age : Z),
    main toy_lib
         (mkSession "Ann" (Some 41)
            (Some (mkDataFrame ["Date"; "Steps"; "Heart Rate (bpm)";
                                "Calories Burned"]
                               [[VStr "2024-01-01"; VInt 500; VInt 72;
                                 VInt 1800]])))
         (mkWorld [] [] [])
    = (Ok tt, w')
    /\ frames w'
       = frames (mkWorld [] [] [])
         ++ [mkDataFrame ["Date"; "Steps"; "Heart Rate (bpm)";
                          "Calories Burned"]
                         [[VStr "2024-01-01"; VInt 500; VInt 72; VInt 1800]];
             df_head
               (mkDataFrame ["Date"; "Steps"; "Heart Rate (bpm)";
                             "Calories Burned"]
                            [[VStr "2024-01-01"; VInt 500; VInt 72;
                              VInt 1800]])]
    /\ figures w' = figures (mkWorld [] [] [])
    /\ page w'
       = page (mkWorld [] [] [])
         ++ form_events
              (entered_name
                 (mkSession "Ann" (Some 41)
                    (Some (mkDataFrame ["Date"; "Steps"; "Heart Rate (bpm)";
                                        "Calories Burned"]
                                       [[VStr "2024-01-01"; VInt 500; VInt 72;
                                         VInt 1800]]))))
              age
         ++ [ShowText "Data Preview:";
             ShowFrame
               (df_head
                  (mkDataFrame ["Date"; "Steps"; "Heart Rate (bpm)";
                                "Calories Burned"]
                               [[VStr "2024-01-01"; VInt 500; VInt 72;
                                 VInt 1800]]));
             ShowError
               "CSV file must contain the following columns: 'Date', 'Steps', 'Heart Rate (bpm)', 'Calories Burned', 'Sleep Duration (hours)'."]
    /\ (forall e, In e (page w') -> In e (page (mkWorld [] [] []))
                  \/ match e with
                     | ShowDownloadButton _ _ _ _ => False
                     | ShowText t => t <> "Anomalies Detected:"
                                     /\ t <> "Recommendations:"
                     | _ => True
                     end).
Proof.
  apply (missing_column_short_circuit toy_lib
           (mkSession "Ann" (Some 41)
              (Some (mkDataFrame ["Date"; "Steps"; "Heart Rate (bpm)";
                                  "Calories Burned"]
                                 [[VStr "2024-01-01"; VInt 500; VInt 72;
                                   VInt 1800]])))
           (mkWorld [] [] [])
           (mkDataFrame ["Date"; "Steps"; "Heart Rate (bpm)";
                         "Calories Burned"]
                        [[VStr "2024-01-01"; VInt 500; VInt 72; VInt 1800]])
           "Sleep Duration (hours)").
  - reflexivity.
  - simpl. tauto.
  - simpl. intros [H | [H | [H | [H | []]]]]; discriminate H.
Defined.

(* ================================================================== *)
(** * The store is only ever extended *)
(* ================================================================== *)

Lemma grows_ret {A : Type} (a : A) : grows (ret a).
Proof. intros w. exists []. simpl. now rewrite app_nil_r. Qed.

Lemma grows_lift {A : Type} (r : result A) : grows (lift r).
Proof. intros w. exists []. simpl. now rewrite app_nil_r. Qed.

Lemma grows_plt (f : pyplot -> pyplot) : grows (plt f).
Proof. intros w. exists []. simpl. now rewrite app_nil_r. Qed.

Lemma grows_st (e : event) : grows (st e).
Proof. intros w. exists []. simpl. now rewrite app_nil_r. Qed.

Lemma grows_deref (p : ref) : grows (deref p).
Proof.
  intros w. exists []. unfold deref.
  destruct (frame_at w p); simpl; now rewrite app_nil_r.
Qed.

Lemma grows_new_frame (df : DataFrame) : grows (new_frame df).
Proof. intros w. now exists [df]. Qed.

Lemma grows_savefig (lib : Libraries) (buf : BytesIO) :
  grows (savefig lib buf).
Proof.
  intros w. exists []. unfold savefig.
  destruct (savefig_png lib (gcf (figures w))); simpl; now rewrite app_nil_r.
Qed.

Lemma grows_raise {A : Type} (e : exception) : grows (@raise A e).
Proof. intros w. exists []. simpl. now rewrite app_nil_r. Qed.

Lemma grows_plot (lib : Libraries) (x y : Series) (mk : string)
  (col : option string) :
  grows (plot lib x y mk col).
Proof.
  unfold plot. destruct (plot_error lib x y);
    [apply grows_raise | apply grows_plt].
Qed.

Lemma grows_bind {A B : Type} (c : M A) (k : A -> M B) :
  grows c -> (forall a, grows (k a)) -> grows (bind c k).
Proof.
  intros Hc Hk w. unfold bind.
  destruct (Hc w) as [l1 H1]. destruct (c w) as [[a | e] w1]; simpl in H1.
  - destruct (Hk a w1) as [l2 H2]. exists (l1 ++ l2).
    now rewrite H2, H1, app_assoc.
  - now exists l1.
Qed.

Create HintDb grows.
#[local] Hint Resolve grows_ret grows_lift grows_plt grows_st grows_deref
  grows_new_frame grows_savefig grows_raise grows_plot : grows.

(** Split a computation into its calls and close each of them. *)
Ltac grow :=
  cbv zeta;
  repeat first
    [ solve [auto with grows]
    | apply grows_bind; [ | intros ? ]
    | match goal with
      | |- grows (if ?b then _ else _) => destruct b
      | |- grows (match ?x with Some _ => _ | None => _ end) => destruct x
      end ].

Lemma grows_getitem (data : ref) (name : string) : grows (getitem data name).
Proof. unfold getitem. grow. Qed.

Lemma grows_getitem_mask (data : ref) (mask : list bool) :
  grows (getitem_mask data mask).
Proof. unfold getitem_mask. grow. Qed.

Lemma grows_empty (data : ref) : grows (empty data).
Proof. unfold empty. grow. Qed.

Lemma grows_head (data : ref) : grows (head data).
Proof. unfold head. grow. Qed.

#[local] Hint Resolve grows_getitem grows_getitem_mask grows_empty grows_head
  : grows.

Lemma grows_write_each (recs : list string) : grows (write_each recs).
Proof. induction recs as [ | rec recs IH]; simpl; grow. Qed.

Lemma grows_detect_anomalies (data : ref) : grows (detect_anomalies data).
Proof. unfold detect_anomalies. grow. Qed.

Lemma grows_provide_recommendations (anomalies : ref) :
  grows (provide_recommendations anomalies).
Proof. unfold provide_recommendations. grow. Qed.

Lemma grows_plot_data (lib : Libraries) (data : ref) :
  grows (plot_data lib data).
Proof. unfold plot_data. grow. Qed.

Lemma grows_create_pdf_report (lib : Libraries)
  (name : string) (age : Z) (data anomalies : ref) (recs : list string)
  (buf : BytesIO) :
  grows (create_pdf_report lib name age data anomalies recs buf).
Proof. unfold create_pdf_report. grow. Qed.

#[local] Hint Resolve grows_write_each grows_detect_anomalies
  grows_provide_recommendations grows_plot_data grows_create_pdf_report
  : grows.

Lemma grows_main (lib : Libraries) (s : Session) :
  grows (main lib s).
Proof.
  unfold main, text_input, number_input, file_uploader, read_csv. grow.
Qed.

(** What was in the store is still there afterwards. *)
Lemma grows_keeps {A : Type} (c : M A) (w : world) (p : ref) (d : DataFrame) :
  grows c -> frame_at w p = Some d -> frame_at (snd (c w)) p = Some d.
Proof.
  intros Hc Hd. destruct (Hc w) as [extra He].
  unfold frame_at in *. rewrite He.
  rewrite nth_error_app1; [exact Hd | ].
  apply nth_error_Some. congruence.
Qed.

(* ================================================================== *)
(** * Each stage as a function of the frames it is given *)
(* ================================================================== *)

Lemma detect_anomalies_outcome (w : world) (data : ref) (d : DataFrame) :
  frame_at w data = Some d ->
  returned_frame (detect_anomalies data w) = detect_outcome d.
Proof.
  intros Hd. unfold detect_anomalies, detect_outcome.
  repeat first [run_getitem Hd | run_lift | next_case]; try reflexivity.
  rewrite (bind_ok _ _ _ _ _ (getitem_mask_ok w data d _ Hd)).
  unfold ret, returned_frame; cbn [fst snd]. unfold next_ref.
  now rewrite frame_at_new.
Qed.

Lemma provide_recommendations_outcome (w : world) (anomalies : ref)
  (a : DataFrame) :
  frame_at w anomalies = Some a ->
  provide_recommendations anomalies w = (recommend_outcome a, w).
Proof.
  intros Ha. unfold provide_recommendations, recommend_outcome. cbv zeta.
  rewrite (bind_ok _ _ _ _ _ (empty_ok w anomalies a Ha)).
  destruct (df_empty a); cbn [negb]; [reflexivity | ].
  repeat first [run_getitem Ha | run_lift | next_case]; try reflexivity.
  repeat match goal with
         | |- context [if series_any ?m then _ else _] =>
             destruct (series_any m)
         end;
    reflexivity.
Qed.

(** ** Stages that only read *)

Lemma readonly_ret {A : Type} (a : A) : readonly (ret a).
Proof. intros w. reflexivity. Qed.

Lemma readonly_lift {A : Type} (r : result A) : readonly (lift r).
Proof. intros w. reflexivity. Qed.

Lemma readonly_deref (p : ref) : readonly (deref p).
Proof. intros w. unfold deref. now destruct (frame_at w p). Qed.

Lemma readonly_bind {A B : Type} (c : M A) (k : A -> M B) :
  readonly c -> (forall a, readonly (k a)) -> readonly (bind c k).
Proof.
  intros Hc Hk w. unfold bind. specialize (Hc w).
  destruct (c w) as [[a | e] w1]; simpl in Hc; subst w1.
  - apply Hk.
  - reflexivity.
Qed.

Lemma readonly_getitem (data : ref) (name : string) :
  readonly (getitem data name).
Proof.
  unfold getitem. apply readonly_bind; [apply readonly_deref | ].
  intros df. apply readonly_lift.
Qed.

Lemma readonly_empty (data : ref) : readonly (empty data).
Proof.
  unfold empty. apply readonly_bind; [apply readonly_deref | ].
  intros df. apply readonly_ret.
Qed.

Lemma readonly_provide_recommendations (anomalies : ref) :
  readonly (provide_recommendations anomalies).
Proof.
  unfold provide_recommendations. cbv zeta.
  apply readonly_bind; [apply readonly_empty | intros e].
  destruct (negb e); [ | apply readonly_ret].
  repeat (apply readonly_bind;
          [first [apply readonly_getitem | apply readonly_lift] | intros ?]).
  apply readonly_ret.
Qed.

Lemma readonly_create_pdf_report (lib : Libraries) (name : string) (age : Z)
  (data anomalies : ref) (recs : list string) (buf : BytesIO) :
  readonly (create_pdf_report lib name age data anomalies recs buf).
Proof.
  unfold create_pdf_report. cbv zeta.
  repeat (apply readonly_bind;
          [first [apply readonly_deref | apply readonly_lift] | intros ?]).
  apply readonly_ret.
Qed.

(** ** What the detector and the renderer change *)

Lemma store_only_ret {A : Type} (a : A) : store_only (ret a).
Proof. intros w. now split. Qed.

Lemma store_only_lift {A : Type} (r : result A) : store_only (lift r).
Proof. intros w. now split. Qed.

Lemma store_only_deref (p : ref) : store_only (deref p).
Proof. intros w. unfold deref. now destruct (frame_at w p). Qed.

Lemma store_only_new_frame (df : DataFrame) : store_only (new_frame df).
Proof. intros w. now split. Qed.

Lemma store_only_bind {A B : Type} (c : M A) (k : A -> M B) :
  store_only c -> (forall a, store_only (k a)) -> store_only (bind c k).
Proof.
  intros Hc Hk w. unfold bind. destruct (Hc w) as [Hf Hp].
  destruct (c w) as [[a | e] w1]; simpl in Hf, Hp.
  - destruct (Hk a w1) as [Hf' Hp']. split; congruence.
  - now split.
Qed.

Lemma store_only_detect_anomalies (data : ref) :
  store_only (detect_anomalies data).
Proof.
  unfold detect_anomalies, getitem, getitem_mask.
  repeat (apply store_only_bind;
          [first [apply store_only_deref | apply store_only_lift
                 | apply store_only_new_frame
                 | apply store_only_bind;
                   [apply store_only_deref | intros ?];
                   first [apply store_only_lift | apply store_only_new_frame]]
          | intros ?]).
  apply store_only_ret.
Qed.

Lemma only_top_ret {A : Type} (a : A) : only_top_figure (ret a).
Proof. intros fr fig figs pg. now exists fig. Qed.

Lemma only_top_raise {A : Type} (e : exception) : only_top_figure (@raise A e).
Proof. intros fr fig figs pg. now exists fig. Qed.

Lemma only_top_lift {A : Type} (r : result A) : only_top_figure (lift r).
Proof. intros fr fig figs pg. now exists fig. Qed.

Lemma only_top_getitem (data : ref) (name : string) :
  only_top_figure (getitem data name).
Proof.
  intros fr fig figs pg. exists fig.
  unfold getitem, bind, deref, lift.
  now destruct (frame_at _ data).
Qed.

Lemma only_top_on_gcf (f : Figure -> Figure) : only_top_figure (plt (on_gcf f)).
Proof. intros fr fig figs pg. now exists (f fig). Qed.

Lemma only_top_plot (lib : Libraries) (x y : Series) (mk : string)
  (col : option string) :
  only_top_figure (plot lib x y mk col).
Proof.
  unfold plot. destruct (plot_error lib x y);
    [apply only_top_raise | apply only_top_on_gcf].
Qed.

Lemma only_top_savefig (lib : Libraries) (buf : BytesIO) :
  only_top_figure (savefig lib buf).
Proof.
  intros fr fig figs pg. exists fig. unfold savefig.
  now destruct (savefig_png lib _).
Qed.

Lemma only_top_bind {A B : Type} (c : M A) (k : A -> M B) :
  only_top_figure c -> (forall a, only_top_figure (k a)) ->
  only_top_figure (bind c k).
Proof.
  intros Hc Hk fr fig figs pg. unfold bind.
  destruct (Hc fr fig figs pg) as [fig1 H1].
  destruct (c (mkWorld fr (fig :: figs) pg)) as [[a | e] w1]; simpl in H1;
    subst w1.
  - apply Hk.
  - now exists fig1.
Qed.

(** Whatever it is given, [plot_data] opens one figure on top of those
    there are and touches neither the store nor the page. *)
Lemma plot_data_pushes_figure (lib : Libraries) (data : ref) (w : world) :
  exists fig : Figure,
    snd (plot_data lib data w)
    = mkWorld (frames w) (fig :: figures w) (page w).
Proof.
  unfold plot_data. rewrite plt_bind. unfold pyplot_figure at 1.
  match goal with
  | |- exists fig, snd (?c _) = _ =>
      assert (H : only_top_figure (fun w => c w))
  end.
  { change (fun w0 => ?c w0) with c.
    unfold pyplot_subplot, pyplot_title, pyplot_xticks, pyplot_tight_layout.
    repeat (apply only_top_bind;
            [first [apply only_top_on_gcf | apply only_top_getitem
                   | apply only_top_plot | apply only_top_savefig]
            | intros ?]).
    apply only_top_ret. }
  apply H.
Qed.

Section Purity.

Variable lib : Libraries.


End Purity.



(** A full run on the sample week: the page ends with the download
    button, and the store holds the table, its preview and the subset. *)
Example full_run_sample :
  let out := main toy_lib
                  (mkSession "Ann" (Some 41) (Some sample_table))
                  (mkWorld [] [] []) in
  fst out = Ok tt
  /\ List.length (frames (snd out)) = 3%nat
  /\ last (page (snd out)) (ShowTitle "")
     = ShowDownloadButton "Download Report" (repeat x25 9)
                          "health_report.pdf" "application/pdf".
Proof. cbv zeta. repeat split; vm_compute; reflexivity. Qed.

(* ================================================================== *)
(** * Further properties: errors and edges of the detector *)
(* ================================================================== *)

Lemma contains_false_get_loc (cols : list string) (name : string) :
  contains cols name = false -> get_loc name cols = None.
Proof.
  unfold contains. induction cols as [ | c cols IH]; simpl.
  - reflexivity.
  - destruct (String.eqb name c); [discriminate | ].
    intros H. now rewrite (IH H).
Qed.

Lemma df_getitem_missing (d : DataFrame) (name : string) :
  contains (columns d) name = false ->
  df_getitem d name = Err (KeyError name).
Proof.
  intros H. unfold df_getitem. now rewrite (contains_false_get_loc _ _ H).
Qed.

Lemma numeric_column_getitem (d : DataFrame) (name : string) :
  numeric_column d name = true ->
  exists s, df_getitem d name = Ok s
            /\ series_gt s 100 = Ok (map (fun v => exceedsb v 100) s)
            /\ forall k, series_lt s k = Ok (map (fun v => belowb v k) s).
Proof.
  intros H. destruct (numeric_column_loc d name H) as [i [Hi Hn]].
  exists (map (iloc i) (rows d)). unfold df_getitem. rewrite Hi.
  split; [reflexivity | ].
  split.
  - rewrite (series_gt_column i 100 _ Hn). now rewrite map_map.
  - intros k. rewrite (series_lt_column i k _ Hn). now rewrite map_map.
Qed.

(** A comparison on a series holding text raises, wherever the text is. *)
Lemma series_gt_text (s : Series) (k : Z) (t : string) :
  In (VStr t) s -> series_gt s k = Err (TypeError ">").
Proof.
  unfold series_gt. induction s as [ | v s IH]; simpl; [intros [] | ].
  intros [-> | Hin]; [reflexivity | ].
  destruct v as [u | z | x | ]; simpl; try reflexivity;
    now rewrite (IH Hin).
Qed.

Lemma series_lt_text (s : Series) (k : Z) (t : string) :
  In (VStr t) s -> series_lt s k = Err (TypeError "<").
Proof.
  unfold series_lt. induction s as [ | v s IH]; simpl; [intros [] | ].
  intros [-> | Hin]; [reflexivity | ].
  destruct v as [u | z | x | ]; simpl; try reflexivity;
    now rewrite (IH Hin).
Qed.

(** A text cell of a row shows up in the column's series. *)
Lemma text_cell_in_column (d : DataFrame) (name : string) (r : Row)
  (t : string) :
  In r (rows d) ->
  field (columns d) name r = VStr t ->
  exists s, df_getitem d name = Ok s /\ In (VStr t) s.
Proof.
  intros Hr Hf. unfold field in Hf. unfold df_getitem.
  destruct (get_loc name (columns d)) as [i | ]; [ | discriminate Hf].
  exists (map (iloc i) (rows d)). split; [reflexivity | ].
  rewrite <- Hf. now apply in_map.
Qed.

(** X1.  A threshold column that is missing makes [detect_anomalies]
    raise [KeyError] with the label of the first one missing, in the
    order heart rate, steps, sleep (the columns before it holding
    numbers); no frame is allocated and nothing else changes. *)
Theorem detect_anomalies_missing_column (w : world) (data : ref)
  (d : DataFrame) :
  frame_at w data = Some d ->
  (contains (columns d) "Heart Rate (bpm)" = false ->
   detect_anomalies data w = (Err (KeyError "Heart Rate (bpm)"), w))
  /\ (numeric_column d "Heart Rate (bpm)" = true ->
      contains (columns d) "Steps" = false ->
      detect_anomalies data w = (Err (KeyError "Steps"), w))
  /\ (numeric_column d "Heart Rate (bpm)" = true ->
      numeric_column d "Steps" = true ->
      contains (columns d) "Sleep Duration (hours)" = false ->
      detect_anomalies data w = (Err (KeyError "Sleep Duration (hours)"), w)).
Proof.
  intros Hd. split; [ | split].
  - intros Hh. apply df_getitem_missing in Hh.
    unfold detect_anomalies. now run_getitem Hd.
  - intros Hh Hs. apply df_getitem_missing in Hs.
    destruct (numeric_column_getitem d _ Hh) as [hr [Eh [Mh _]]].
    unfold detect_anomalies.
    run_getitem Hd. step (@lift_ok (list bool)). now run_getitem Hd.
  - intros Hh Hs Hl. apply df_getitem_missing in Hl.
    destruct (numeric_column_getitem d _ Hh) as [hr [Eh [Mh _]]].
    destruct (numeric_column_getitem d _ Hs) as [st' [Es [_ Ms]]].
    specialize (Ms 1000).
    unfold detect_anomalies.
    run_getitem Hd. step (@lift_ok (list bool)).
    run_getitem Hd. step (@lift_ok (list bool)).
    now run_getitem Hd.
Qed.

Lemma detect_anomalies_missing_column_witness :
  detect_anomalies 0%nat (world_with no_sleep_table)
  = (Err (KeyError "Sleep Duration (hours)"), world_with no_sleep_table).
Proof.
  apply (proj2 (proj2 (detect_anomalies_missing_column
                         (world_with no_sleep_table) 0%nat no_sleep_table
                         eq_refl)));
    reflexivity.
Defined.

(** X2.  Text in a threshold column makes [detect_anomalies] raise
    [TypeError]: text anywhere in the heart-rate column raises before the
    steps column is even looked up, and text in the steps column raises
    when the heart rates are numbers.  Nothing is allocated. *)
Theorem detect_anomalies_text_cell (w : world) (data : ref) (d : DataFrame)
  (r : Row) (t : string) :
  frame_at w data = Some d ->
  In r (rows d) ->
  (field (columns d) "Heart Rate (bpm)" r = VStr t ->
   detect_anomalies data w = (Err (TypeError ">"), w))
  /\ (numeric_column d "Heart Rate (bpm)" = true ->
      field (columns d) "Steps" r = VStr t ->
      detect_anomalies data w = (Err (TypeError "<"), w))
  /\ (numeric_column d "Heart Rate (bpm)" = true ->
      numeric_column d "Steps" = true ->
      field (columns d) "Sleep Duration (hours)" r = VStr t ->
      detect_anomalies data w = (Err (TypeError "<"), w)).
Proof.
  intros Hd Hr. split; [ | split].
  - intros Hf.
    destruct (text_cell_in_column d _ r t Hr Hf) as [hr [Eh Hin]].
    pose proof (series_gt_text hr 100 t Hin) as Mh.
    unfold detect_anomalies. run_getitem Hd.
    now rewrite (bind_err _ _ w w _ (eq_ind_r (fun x => lift x w = _) eq_refl Mh)).
  - intros Hh Hf.
    destruct (numeric_column_getitem d _ Hh) as [hr [Eh [Mh _]]].
    destruct (text_cell_in_column d _ r t Hr Hf) as [st' [Es Hin]].
    pose proof (series_lt_text st' 1000 t Hin) as Ms.
    unfold detect_anomalies.
    run_getitem Hd. step (@lift_ok (list bool)). run_getitem Hd.
    now rewrite (bind_err _ _ w w _ (eq_ind_r (fun x => lift x w = _) eq_refl Ms)).
  - intros Hh Hs Hf.
    destruct (numeric_column_getitem d _ Hh) as [hr [Eh [Mh _]]].
    destruct (numeric_column_getitem d _ Hs) as [st' [Es [_ Ms]]].
    specialize (Ms 1000).
    destruct (text_cell_in_column d _ r t Hr Hf) as [sl [El Hin]].
    pose proof (series_lt_text sl 5 t Hin) as Ml.
    unfold detect_anomalies.
    run_getitem Hd. step (@lift_ok (list bool)).
    run_getitem Hd. step (@lift_ok (list bool)).
    run_getitem Hd.
    now rewrite (bind_err _ _ w w _ (eq_ind_r (fun x => lift x w = _) eq_refl Ml)).
Qed.

Lemma detect_anomalies_text_cell_witness :
  detect_anomalies 0%nat (world_with text_rate_table)
  = (Err (TypeError ">"), world_with text_rate_table).
Proof.
  apply (proj1 (detect_anomalies_text_cell
                  (world_with text_rate_table) 0%nat text_rate_table
                  [VStr "2024-05-02"; VInt 6000; VStr "n/a"; VInt 2100; VInt 7]
                  "n/a" eq_refl
                  (or_intror (or_introl eq_refl)))).
  reflexivity.
Defined.

Lemma returned_subset (w : world) (data : ref) (d : DataFrame) :
  frame_at w data = Some d ->
  is_dataset d = true ->
  returned_frame (detect_anomalies data w) = Ok (Some (anomaly_subset d)).
Proof.
  intros Hd Hds. rewrite (detect_anomalies_run w data d Hd Hds).
  unfold returned_frame; cbn [fst snd]. unfold next_ref.
  now rewrite frame_at_new.
Qed.

Lemma unremarkable_not_exceeds (v : value) (k : Z) :
  unremarkable v k -> exceedsb v k = false.
Proof.
  intros [-> | [-> | [q [-> Hq]]]]; unfold exceedsb; simpl.
  - reflexivity.
  - apply Z.ltb_irrefl.
  - apply not_true_is_false. intros H. apply Qltb_lt in H.
    rewrite Hq in H. now apply Qlt_irrefl in H.
Qed.

Lemma unremarkable_not_below (v : value) (k : Z) :
  unremarkable v k -> belowb v k = false.
Proof.
  intros [-> | [-> | [q [-> Hq]]]]; unfold belowb; simpl.
  - reflexivity.
  - apply Z.ltb_irrefl.
  - apply not_true_is_false. intros H. apply Qltb_lt in H.
    rewrite Hq in H. now apply Qlt_irrefl in H.
Qed.

(** X3.  The thresholds are strict and a missing reading counts for
    nothing: a row of a dataset whose heart rate is NaN or exactly 100,
    whose steps are NaN or exactly 1000 and whose sleep is NaN or exactly
    5 is not in the frame [detect_anomalies] returns. *)
Theorem detect_anomalies_threshold_excluded (w : world) (data : ref)
  (d : DataFrame) (r : Row) :
  frame_at w data = Some d ->
  is_dataset d = true ->
  In r (rows d) ->
  unremarkable (field (columns d) "Heart Rate (bpm)" r) 100 ->
  unremarkable (field (columns d) "Steps" r) 1000 ->
  unremarkable (field (columns d) "Sleep Duration (hours)" r) 5 ->
  exists sub : DataFrame,
    returned_frame (detect_anomalies data w) = Ok (Some sub)
    /\ ~ In r (rows sub).
Proof.
  intros Hd Hds Hr Hh Hs Hl.
  exists (anomaly_subset d). split; [now apply returned_subset | ].
  cbn [anomaly_subset rows]. intros Hin. apply filter_In in Hin.
  destruct Hin as [_ Hv]. revert Hv.
  unfold violationb, heart_rate_highb, steps_lowb, sleep_shortb.
  now rewrite (unremarkable_not_exceeds _ _ Hh),
              (unremarkable_not_below _ _ Hs),
              (unremarkable_not_below _ _ Hl).
Qed.

Lemma detect_anomalies_threshold_excluded_witness :
  exists sub : DataFrame,
    returned_frame (detect_anomalies 0%nat (world_with borderline_table))
    = Ok (Some sub)
    /\ ~ In [VStr "2024-06-01"; VInt 1000; VInt 100; VInt 2000;
             VFloat (Finite (5 # 1))]
            (rows sub).
Proof.
  apply (detect_anomalies_threshold_excluded
           (world_with borderline_table) 0%nat borderline_table
           [VStr "2024-06-01"; VInt 1000; VInt 100; VInt 2000;
            VFloat (Finite (5 # 1))]).
  - reflexivity.
  - reflexivity.
  - simpl. left. reflexivity.
  - right. left. reflexivity.
  - right. left. reflexivity.
  - right. right. exists (5 # 1)%Q. split; reflexivity.
Defined.

Lemma numeric_column_app (cols : list string) (rs1 rs2 : list Row)
  (name : string) :
  numeric_column (mkDataFrame cols (rs1 ++ rs2)) name = true ->
  numeric_column (mkDataFrame cols rs1) name = true
  /\ numeric_column (mkDataFrame cols rs2) name = true.
Proof.
  unfold numeric_column; cbn [columns rows].
  destruct (get_loc name cols); [ | discriminate].
  rewrite forallb_app, andb_true_iff. tauto.
Qed.

Lemma is_dataset_app (cols : list string) (rs1 rs2 : list Row) :
  is_dataset (mkDataFrame cols (rs1 ++ rs2)) = true ->
  is_dataset (mkDataFrame cols rs1) = true
  /\ is_dataset (mkDataFrame cols rs2) = true.
Proof.
  unfold is_dataset. cbn [columns]. rewrite !andb_true_iff.
  intros [[[[Hc Hs] Hh] Hk] Hl].
  apply numeric_column_app in Hs, Hh, Hk, Hl. tauto.
Qed.

(** X4.  Whether a row is flagged does not depend on the other rows:
    the subset of a table cut in two is the subset of the first part
    followed by the subset of the second. *)
Theorem detect_anomalies_rowwise (w1 w2 w3 : world) (p1 p2 p3 : ref)
  (cols : list string) (rs1 rs2 : list Row) :
  frame_at w1 p1 = Some (mkDataFrame cols rs1) ->
  frame_at w2 p2 = Some (mkDataFrame cols rs2) ->
  frame_at w3 p3 = Some (mkDataFrame cols (rs1 ++ rs2)) ->
  is_dataset (mkDataFrame cols (rs1 ++ rs2)) = true ->
  exists s1 s2 : list Row,
    returned_frame (detect_anomalies p1 w1) = Ok (Some (mkDataFrame cols s1))
    /\ returned_frame (detect_anomalies p2 w2)
       = Ok (Some (mkDataFrame cols s2))
    /\ returned_frame (detect_anomalies p3 w3)
       = Ok (Some (mkDataFrame cols (s1 ++ s2))).
Proof.
  intros H1 H2 H3 Hds.
  destruct (is_dataset_app cols rs1 rs2 Hds) as [Hds1 Hds2].
  exists (filter (violationb cols) rs1), (filter (violationb cols) rs2).
  rewrite (returned_subset w1 p1 _ H1 Hds1), (returned_subset w2 p2 _ H2 Hds2),
          (returned_subset w3 p3 _ H3 Hds).
  unfold anomaly_subset; cbn [columns rows]. rewrite filter_app.
  repeat split.
Qed.

Lemma detect_anomalies_rowwise_witness :
  exists s1 s2 : list Row,
    returned_frame (detect_anomalies 0%nat (world_with racing_table))
    = Ok (Some (mkDataFrame required_columns s1))
    /\ returned_frame (detect_anomalies 0%nat (world_with healthy_table))
       = Ok (Some (mkDataFrame required_columns s2))
    /\ returned_frame
         (detect_anomalies 0%nat
            (world_with (mkDataFrame required_columns
                           (rows racing_table ++ rows healthy_table))))
       = Ok (Some (mkDataFrame required_columns (s1 ++ s2))).
Proof.
  apply (detect_anomalies_rowwise
           (world_with racing_table) (world_with healthy_table)
           (world_with (mkDataFrame required_columns
                          (rows racing_table ++ rows healthy_table)))
           0%nat 0%nat 0%nat required_columns
           (rows racing_table) (rows healthy_table)); reflexivity.
Defined.

Lemma filter_idempotent {A : Type} (f : A -> bool) (l : list A) :
  filter f (filter f l) = filter f l.
Proof.
  induction l as [ | x l IH]; simpl; [reflexivity | ].
  destruct (f x) eqn:E; simpl; [rewrite E | ]; now rewrite IH.
Qed.

(** X5.  Detecting twice changes nothing: run on its own result,
    [detect_anomalies] returns a frame with the same content.  Each run
    returns a new object, distinct from its input, and the dataset is
    still in place afterwards. *)
Theorem detect_anomalies_idempotent (w : world) (data : ref) (d : DataFrame) :
  frame_at w data = Some d ->
  is_dataset d = true ->
  exists (sub : DataFrame) (w1 w2 : world),
    detect_anomalies data w = (Ok (next_ref w), w1)
    /\ frame_at w1 (next_ref w) = Some sub
    /\ detect_anomalies (next_ref w) w1 = (Ok (next_ref w1), w2)
    /\ frame_at w2 (next_ref w1) = Some sub
    /\ next_ref w <> data
    /\ next_ref w1 <> next_ref w
    /\ frame_at w2 data = Some d.
Proof.
  intros Hd Hds.
  pose proof (detect_anomalies_run w data d Hd Hds) as Hrun.
  set (w1 := mkWorld (frames w ++ [anomaly_subset d]) (figures w) (page w))
    in *.
  assert (Hsub : frame_at w1 (next_ref w) = Some (anomaly_subset d))
    by apply frame_at_new.
  assert (Hds' : is_dataset (anomaly_subset d) = true)
    by now apply is_dataset_filter.
  pose proof (detect_anomalies_run w1 _ _ Hsub Hds') as Hrun2.
  assert (Hidem : anomaly_subset (anomaly_subset d) = anomaly_subset d).
  { unfold anomaly_subset; cbn [columns rows]. now rewrite filter_idempotent. }
  rewrite Hidem in Hrun2.
  exists (anomaly_subset d), w1. eexists.
  split; [exact Hrun | ].
  split; [exact Hsub | ].
  split; [exact Hrun2 | ].
  split; [apply frame_at_new | ].
  assert (Hlt : (data < next_ref w)%nat).
  { unfold next_ref. apply nth_error_Some. unfold frame_at in Hd. congruence. }
  split; [lia | ].
  split.
  { unfold next_ref, w1; cbn [frames]. rewrite length_app; simpl. lia. }
  destruct w as [fs pl pg]. unfold w1; cbn [frames figures page].
  rewrite <- app_assoc.
  now apply (frame_at_old fs _ pl pl pg pg data d).
Qed.

Lemma detect_anomalies_idempotent_witness :
  exists (sub : DataFrame) (w1 w2 : world),
    detect_anomalies 0%nat (world_with sample_table)
    = (Ok (next_ref (world_with sample_table)), w1)
    /\ frame_at w1 (next_ref (world_with sample_table)) = Some sub
    /\ detect_anomalies (next_ref (world_with sample_table)) w1
       = (Ok (next_ref w1), w2)
    /\ frame_at w2 (next_ref w1) = Some sub
    /\ next_ref (world_with sample_table) <> 0%nat
    /\ next_ref w1 <> next_ref (world_with sample_table)
    /\ frame_at w2 0%nat = Some sample_table.
Proof.
  apply (detect_anomalies_idempotent (world_with sample_table) 0%nat
           sample_table); reflexivity.
Defined.

(* ================================================================== *)
(** * Further properties: the recommender *)
(* ================================================================== *)

Lemma provide_recommendations_dataset (w : world) (anomalies : ref)
  (a : DataFrame) :
  frame_at w anomalies = Some a ->
  is_dataset a = true ->
  provide_recommendations anomalies w
  = (Ok (match rows a with
         | [] => [fallback]
         | _ => advisories (columns a) (rows a)
         end), w).
Proof.
  intros Ha Hds. destruct (df_empty a) eqn:He.
  - rewrite (provide_recommendations_empty w anomalies a Ha He).
    apply (dataset_empty_iff a Hds) in He. now rewrite He.
  - rewrite (provide_recommendations_nonempty w anomalies a Ha Hds He).
    destruct (rows a) eqn:Hr; [ | reflexivity].
    apply (dataset_empty_iff a Hds) in Hr. congruence.
Qed.

Lemma existsb_same_members {A : Type} (f : A -> bool) (l1 l2 : list A) :
  (forall x, In x l1 <-> In x l2) -> existsb f l1 = existsb f l2.
Proof.
  intros H. apply eq_true_iff_eq. rewrite !existsb_exists.
  split; intros [x [Hx Hf]]; exists x; split; trivial; now apply H.
Qed.

(** X6.  The recommendations depend only on which rows the subset
    holds, not on their order or on how often each occurs: two subsets
    with the same columns and the same rows as sets get the same
    list. *)
Theorem provide_recommendations_same_rows (w1 w2 : world) (p1 p2 : ref)
  (a1 a2 : DataFrame) :
  frame_at w1 p1 = Some a1 ->
  frame_at w2 p2 = Some a2 ->
  is_dataset a1 = true ->
  is_dataset a2 = true ->
  columns a1 = columns a2 ->
  (forall r, In r (rows a1) <-> In r (rows a2)) ->
  fst (provide_recommendations p1 w1) = fst (provide_recommendations p2 w2).
Proof.
  intros H1 H2 D1 D2 Hc Hr.
  rewrite (provide_recommendations_dataset w1 p1 a1 H1 D1),
          (provide_recommendations_dataset w2 p2 a2 H2 D2).
  cbn [fst]. f_equal.
  destruct (rows a1) as [ | r1 l1] eqn:E1, (rows a2) as [ | r2 l2] eqn:E2.
  - reflexivity.
  - exfalso. apply (proj2 (Hr r2)). now left.
  - exfalso. apply (proj1 (Hr r1)). now left.
  - unfold advisories. rewrite <- Hc.
    now rewrite (existsb_same_members (heart_rate_highb (columns a1)) _ _ Hr),
                (existsb_same_members (steps_lowb (columns a1)) _ _ Hr),
                (existsb_same_members (sleep_shortb (columns a1)) _ _ Hr).
Qed.

Lemma provide_recommendations_same_rows_witness :
  fst (provide_recommendations 0%nat (world_with racing_table))
  = fst (provide_recommendations 0%nat
           (world_with (mkDataFrame required_columns
                          (rev (rows racing_table) ++ rows racing_table)))).
Proof.
  apply (provide_recommendations_same_rows
           (world_with racing_table)
           (world_with (mkDataFrame required_columns
                          (rev (rows racing_table) ++ rows racing_table)))
           0%nat 0%nat racing_table
           (mkDataFrame required_columns
              (rev (rows racing_table) ++ rows racing_table)));
    try reflexivity.
  intros r. simpl. tauto.
Defined.

(** X7.  When some row of a dataset violates a threshold, filtering
    first makes no difference to the advice: [provide_recommendations]
    returns the same non-empty list, without the fallback sentence, on
    the dataset itself and on the subset [detect_anomalies] makes of
    it. *)
Theorem provide_recommendations_before_or_after (w : world) (data : ref)
  (d : DataFrame) :
  frame_at w data = Some d ->
  is_dataset d = true ->
  Exists (violation (columns d)) (rows d) ->
  exists (recs : list string) (w' : world),
    provide_recommendations data w = (Ok recs, w)
    /\ bind (detect_anomalies data) provide_recommendations w = (Ok recs, w')
    /\ recs <> []
    /\ ~ In fallback recs.
Proof.
  intros Hd Hds Hex.
  apply Exists_exists in Hex. destruct Hex as [r [Hr Hv]].
  pose proof Hv as Hvb. apply violationb_iff in Hvb.
  assert (Hsub_in : In r (rows (anomaly_subset d))).
  { cbn [anomaly_subset rows]. apply filter_In. now split. }
  pose proof (detect_anomalies_run w data d Hd Hds) as Hrun.
  set (w1 := mkWorld (frames w ++ [anomaly_subset d]) (figures w) (page w))
    in *.
  assert (Hsub : frame_at w1 (next_ref w) = Some (anomaly_subset d))
    by apply frame_at_new.
  assert (Hds' : is_dataset (anomaly_subset d) = true)
    by now apply is_dataset_filter.
  assert (Hsame : advisories (columns d) (rows (anomaly_subset d))
                  = advisories (columns d) (rows d)).
  { unfold advisories. cbn [anomaly_subset rows].
    rewrite !existsb_filter_absorb; [reflexivity | | | ];
      intros x Hx; unfold violationb; rewrite Hx;
      now rewrite ?orb_true_r. }
  exists (advisories (columns d) (rows d)), w1.
  split.
  { rewrite (provide_recommendations_dataset w data d Hd Hds).
    destruct (rows d); [destruct Hr | reflexivity]. }
  split.
  { rewrite (bind_ok _ _ w w1 _ Hrun).
    rewrite (provide_recommendations_dataset w1 _ _ Hsub Hds').
    change (columns (anomaly_subset d)) with (columns d).
    rewrite <- Hsame. revert Hsub_in.
    destruct (rows (anomaly_subset d)); intros Hsub_in;
      [destruct Hsub_in | reflexivity]. }
  split; [ | apply advisories_no_fallback].
  intros Hnil.
  assert (Hin : forall s, ~ In s (advisories (columns d) (rows d)))
    by (intros s; rewrite Hnil; intros []).
  destruct Hv as [Hh | [Hs | Hl]].
  - apply (Hin advice_heart_rate), advisories_heart_rate, existsb_exists.
    exists r. split; [exact Hr | now apply heart_rate_highb_iff].
  - apply (Hin advice_steps), advisories_steps, existsb_exists.
    exists r. split; [exact Hr | now apply steps_lowb_iff].
  - apply (Hin advice_sleep), advisories_sleep, existsb_exists.
    exists r. split; [exact Hr | now apply sleep_shortb_iff].
Qed.

Lemma provide_recommendations_before_or_after_witness :
  exists (recs : list string) (w' : world),
    provide_recommendations 0%nat (world_with sample_table)
    = (Ok recs, world_with sample_table)
    /\ bind (detect_anomalies 0%nat) provide_recommendations
            (world_with sample_table) = (Ok recs, w')
    /\ recs <> []
    /\ ~ In fallback recs.
Proof.
  apply (provide_recommendations_before_or_after
           (world_with sample_table) 0%nat sample_table).
  - reflexivity.
  - reflexivity.
  - apply Exists_cons_tl, Exists_cons_hd. left.
    apply heart_rate_highb_iff. reflexivity.
Defined.

(** X8.  The recommender and the report assembler only read: whatever
    they are given, and whether they return or raise, the store, the
    figures and the page are exactly as before. *)
Theorem recommender_and_assembler_read_only :
  (forall (anomalies : ref) (w : world),
      snd (provide_recommendations anomalies w) = w)
  /\ (forall (lib : Libraries) (name : string)
             (age : Z) (data anomalies : ref) (recs : list string)
             (buf : BytesIO) (w : world),
         snd (create_pdf_report lib name age data anomalies recs buf w) = w).
Proof.
  split.
  - intros anomalies w. apply readonly_provide_recommendations.
  - intros lib name age data anomalies recs buf w.
    apply readonly_create_pdf_report.
Qed.

(* ================================================================== *)
(** * Further properties: the chart renderer and the assembler *)
(* ================================================================== *)

(** X9.  [plot_data] never closes a figure: on a table with the
    required columns, when [plt.plot] draws its four series and
    [plt.savefig] encodes the chart, each run puts one more figure on
    top of those [pyplot] already holds, so two runs on the same table
    leave two copies of its chart open; the store and the page are not
    touched. *)
Theorem plot_data_keeps_figures_open (lib : Libraries) (w : world)
  (data : ref) (d : DataFrame) (png : bytes) :
  frame_at w data = Some d ->
  forallb (contains (columns d)) required_columns = true ->
  charts_accepted lib d ->
  savefig_png lib (chart d) = Ok png ->
  exists (buf : BytesIO) (w1 w2 : world),
    plot_data lib data w = (Ok buf, w1)
    /\ plot_data lib data w1 = (Ok buf, w2)
    /\ figures w1 = chart d :: figures w
    /\ figures w2 = chart d :: chart d :: figures w
    /\ frames w2 = frames w
    /\ page w2 = page w.
Proof.
  intros Hd Hc Ha Hpng.
  pose proof (plot_data_figure lib w data d png Hd Hc Ha Hpng) as H1.
  set (w1 := mkWorld (frames w) (chart d :: figures w) (page w)) in *.
  pose proof (plot_data_figure lib w1 data d png Hd Hc Ha Hpng) as H2.
  exists (mkBytesIO png 0), w1. eexists.
  split; [exact H1 | ].
  split; [exact H2 | ].
  repeat split.
Qed.

Lemma plot_data_keeps_figures_open_witness :
  exists (buf : BytesIO) (w1 w2 : world),
    plot_data toy_lib 0%nat (world_with sample_table) = (Ok buf, w1)
    /\ plot_data toy_lib 0%nat w1 = (Ok buf, w2)
    /\ figures w1 = chart sample_table :: figures (world_with sample_table)
    /\ figures w2
       = chart sample_table :: chart sample_table
           :: figures (world_with sample_table)
    /\ frames w2 = frames (world_with sample_table)
    /\ page w2 = page (world_with sample_table).
Proof.
  apply (plot_data_keeps_figures_open toy_lib
           (world_with sample_table) 0%nat sample_table
           (panel_count_png (chart sample_table)));
    [reflexivity | reflexivity | apply sample_charts_accepted | reflexivity].
Defined.

(** Running [plot_data] up to a column that is missing. *)
Ltac plot_until_error Hd :=
  unfold plot_data;
  repeat first [ rewrite plt_bind; cbn [frames figures page]
               | run_getitem Hd
               | run_plot; cbn [frames figures page] ];
  eexists; reflexivity.



Lemma read_back (data : bytes) :
  fst (BytesIO_read (BytesIO_seek (BytesIO_write BytesIO_new data) 0)) = data.
Proof. rewrite BytesIO_write_new. reflexivity. Qed.

Lemma row_getitem_missing (cols : list string) (r : Row) (name : string) :
  contains cols name = false ->
  row_getitem cols r name = Err (KeyError name).
Proof.
  intros H. unfold row_getitem. now rewrite (contains_false_get_loc _ _ H).
Qed.

Lemma table_row_first_missing (cols : list string) (r : Row) (c : string) :
  first_missing cols = Some c -> table_row cols r = Err (KeyError c).
Proof.
  unfold first_missing, required_columns, table_row. cbn [find].
  destruct (contains cols "Date") eqn:C1; cbn [negb];
    [rewrite (row_getitem_field _ r _ C1)
    | rewrite (row_getitem_missing _ r _ C1); congruence].
  destruct (contains cols "Steps") eqn:C2; cbn [negb];
    [rewrite (row_getitem_field _ r _ C2)
    | rewrite (row_getitem_missing _ r _ C2); congruence].
  destruct (contains cols "Heart Rate (bpm)") eqn:C3; cbn [negb];
    [rewrite (row_getitem_field _ r _ C3)
    | rewrite (row_getitem_missing _ r _ C3); congruence].
  destruct (contains cols "Calories Burned") eqn:C4; cbn [negb];
    [rewrite (row_getitem_field _ r _ C4)
    | rewrite (row_getitem_missing _ r _ C4); congruence].
  destruct (contains cols "Sleep Duration (hours)") eqn:C5; cbn [negb];
    [discriminate
    | rewrite (row_getitem_missing _ r _ C5); congruence].
Qed.

(** X11.  The assembler parses the title before it reads anything, and
    looks columns up only while it copies rows.  A title [Paragraph]
    cannot parse raises [ValueError], whatever the subset is.  When the
    texts are parsed, the image is read and the layout engine builds the
    document, a subset without rows gives the report whatever the
    columns are, with a table that has the header row only.  On a subset
    with rows and a required column missing, once the title and the two
    headings before the table are parsed, the assembler raises
    [KeyError] with the label of the first column missing.  In no case
    does it change the world. *)
Theorem create_pdf_report_edges (lib : Libraries)
  (name : string) (age : Z) (w : world) (data anomalies : ref)
  (a : DataFrame) (recs : list string) (buf : BytesIO) :
  let title := ("Health Report for " ++ name ++ ", Age: " ++ str age)%string in
  frame_at w anomalies = Some a ->
  (markup_ok lib title = false ->
   create_pdf_report lib name age data anomalies recs buf w
   = (Err (ValueError title), w))
  /\ (forall document,
         rows a = [] ->
         markup_accepted lib name age recs ->
         image_error lib buf = None ->
         platypus_build lib letter
           ([Paragraph title styles.Title;
             Paragraph "Data Summary:" styles.Heading2;
             Paragraph "Anomalies Detected:" styles.Heading3;
             Table [table_header] report_style;
             Paragraph "Recommendations:" styles.Heading2]
              ++ map bullet recs ++ [Image buf]) = Ok document ->
         create_pdf_report lib name age data anomalies recs buf w
         = (Ok document, w))
  /\ (forall c, rows a <> [] ->
                first_missing (columns a) = Some c ->
                markup_ok lib title = true ->
                markup_ok lib "Data Summary:" = true ->
                markup_ok lib "Anomalies Detected:" = true ->
                create_pdf_report lib name age data anomalies recs buf w
                = (Err (KeyError c), w)).
Proof.
  intros title Ha. subst title.
  rewrite (create_pdf_report_outcome lib name age w data anomalies a recs
             buf Ha).
  unfold report_outcome. split; [ | split].
  - intros Ht. now rewrite (new_Paragraph_refused lib _ _ Ht).
  - intros document Hr [Mt [Ms [Md [Mr Mb]]]] Hi Hb.
    rewrite !new_Paragraph_ok by assumption.
    unfold iterrows, values. rewrite Hr. cbn [existsb map append_rows].
    rewrite (append_paragraphs_ok lib recs _ Mb).
    unfold new_Image. rewrite Hi.
    cbn [app] in *. rewrite Hb. now rewrite read_back.
  - intros c Hne Hm Mt Ms Md.
    rewrite !new_Paragraph_ok by assumption.
    pose proof (iterrows_length a) as Hlen.
    destruct (iterrows a) as [ | r rs];
      [destruct (rows a); [congruence | discriminate] | ].
    cbn [append_rows].
    now rewrite (table_row_first_missing _ r c Hm).
Qed.

Lemma create_pdf_report_edges_witness :
  create_pdf_report toy_lib "<b>Ann" 30 0%nat 0%nat [fallback]
                    (mkBytesIO [x89] 0) (world_with racing_table)
  = (Err (ValueError "Health Report for <b>Ann, Age: 30"),
     world_with racing_table)
  /\ create_pdf_report toy_lib "Ann" 30 0%nat 0%nat [fallback]
                       (mkBytesIO [x89] 0)
                       (world_with (mkDataFrame ["Date"] []))
     = (Ok (repeat x25 7), world_with (mkDataFrame ["Date"] []))
  /\ create_pdf_report toy_lib "Ann" 30 0%nat 0%nat [advice_steps]
                       (mkBytesIO [x89] 0) (world_with no_sleep_table)
     = (Err (KeyError "Sleep Duration (hours)"), world_with no_sleep_table).
Proof.
  split; [ | split].
  - apply (proj1 (create_pdf_report_edges toy_lib "<b>Ann" 30
                    (world_with racing_table) 0%nat 0%nat
                    racing_table [fallback] (mkBytesIO [x89] 0)
                    eq_refl)).
    reflexivity.
  - apply (proj1 (proj2 (create_pdf_report_edges toy_lib "Ann" 30
                    (world_with (mkDataFrame ["Date"] [])) 0%nat 0%nat
                    (mkDataFrame ["Date"] []) [fallback] (mkBytesIO [x89] 0)
                    eq_refl))).
    + reflexivity.
    + repeat split. repeat constructor.
    + reflexivity.
    + reflexivity.
  - apply (proj2 (proj2 (create_pdf_report_edges toy_lib "Ann" 30
                    (world_with no_sleep_table) 0%nat 0%nat
                    no_sleep_table [advice_steps] (mkBytesIO [x89] 0)
                    eq_refl))).
    + discriminate.
    + reflexivity.
    + reflexivity.
    + reflexivity.
    + reflexivity.
Defined.

(* ================================================================== *)
(** * Further properties: the script as a whole *)
(* ================================================================== *)

Lemma write_each_run (recs : list string) (w : world) :
  write_each recs w
  = (Ok tt, mkWorld (frames w) (figures w)
                    (page w ++ recommendation_lines recs)).
Proof.
  revert w. induction recs as [ | rec recs IH]; intros w; simpl.
  - unfold ret. rewrite app_nil_r. now destruct w.
  - rewrite st_bind, IH. cbn [frames figures page].
    now rewrite <- app_assoc.
Qed.

Lemma main_after_upload (lib : Libraries) (s : Session) (w : world)
  (parsed : DataFrame) :
  uploaded s = Some parsed ->
  main lib s w
  = (if negb (forallb (contains (columns parsed)) required_columns)
     then st (ShowError schema_error)
     else run_stages lib (entered_name s) (widget_age s) (next_ref w))
      (mkWorld (frames w ++ [parsed; df_head parsed]) (figures w)
               (page w ++ form_events (entered_name s) (widget_age s)
                  ++ [ShowText "Data Preview:"; ShowFrame (df_head parsed)])).
Proof. intros Hup. exact (main_until_check lib s w parsed Hup). Qed.

Lemma frame_at_loaded (fs : list DataFrame) (d d' : DataFrame) (p : pyplot)
  (pg : list event) :
  frame_at (mkWorld (fs ++ [d; d']) p pg) (List.length fs) = Some d.
Proof.
  unfold frame_at; cbn [frames].
  rewrite nth_error_app2 by apply Nat.le_refl.
  now rewrite Nat.sub_diag.
Qed.

(** The stages after a detection that has returned, when the libraries
    accept what they are given. *)
Lemma run_stages_ok (lib : Libraries) (name : string) (age : Z)
  (w : world) (data : ref) (d a : DataFrame) (recs : list string)
  (png document : bytes) :
  frame_at w data = Some d ->
  forallb (contains (columns d)) required_columns = true ->
  detect_anomalies data w
  = (Ok (next_ref w), mkWorld (frames w ++ [a]) (figures w) (page w)) ->
  columns a = columns d ->
  recommend_outcome a = Ok recs ->
  charts_accepted lib d ->
  savefig_png lib (chart d) = Ok png ->
  markup_accepted lib name age recs ->
  image_error lib (mkBytesIO png 0) = None ->
  platypus_build lib letter
    (report_elements name age a recs (mkBytesIO png 0)) = Ok document ->
  run_stages lib name age data w
  = (Ok tt, world_after_stages d a recs document w).
Proof.
  intros Hd Hc Hdet Hcols Hrec Hch Hpng Hm Hi Hb. unfold run_stages.
  rewrite (bind_ok _ _ _ _ _ Hdet).
  rewrite st_bind. cbn [frames figures page].
  erewrite bind_ok by (apply deref_ok; apply frame_at_new).
  rewrite st_bind. cbn [frames figures page].
  erewrite bind_ok
    by (rewrite (provide_recommendations_outcome _ (next_ref w) a
                   (frame_at_new _ _ _ _)), Hrec; reflexivity).
  rewrite st_bind. cbn [frames figures page].
  erewrite bind_ok by apply write_each_run.
  cbn [frames figures page].
  destruct w as [fs pl pg]. cbn [frames figures page next_ref] in *.
  erewrite bind_ok
    by (apply (plot_data_figure lib _ data d png); trivial;
        apply (frame_at_old fs [a] pl pl pg _ data d Hd)).
  cbn [frames figures page].
  erewrite bind_ok
    by (apply (create_pdf_report_run lib name age _ data (List.length fs) a
                 recs (mkBytesIO png 0) document);
        [apply frame_at_new | now rewrite Hcols | trivial ..]).
  unfold st, world_after_stages.
  cbn [frames figures page]. rewrite <- !app_assoc. reflexivity.
Qed.

Lemma recommend_outcome_dataset (d : DataFrame) :
  is_dataset d = true ->
  recommend_outcome (anomaly_subset d) = Ok (shown_recommendations d).
Proof.
  intros Hds.
  assert (Hds' : is_dataset (anomaly_subset d) = true)
    by now apply is_dataset_filter.
  pose proof (provide_recommendations_outcome
                (world_with (anomaly_subset d)) 0%nat _ eq_refl) as H1.
  rewrite (provide_recommendations_dataset
             (world_with (anomaly_subset d)) 0%nat _ eq_refl Hds') in H1.
  injection H1 as H1. now rewrite <- H1.
Qed.

Lemma is_dataset_columns (d : DataFrame) :
  is_dataset d = true ->
  forallb (contains (columns d)) required_columns = true.
Proof. unfold is_dataset. rewrite !andb_true_iff. tauto. Qed.

(** X12.  Without an uploaded file the script shows the form and stops:
    it ends normally, the page gains the title, the two inputs, the
    greeting, the prompt and the uploader, and neither the store nor the
    figures change. *)
Theorem main_without_upload (lib : Libraries) (s : Session) (w : world) :
  uploaded s = None ->
  exists age : Z,
    main lib s w
    = (Ok tt,
       mkWorld (frames w) (figures w)
         (page w
            ++ [ShowTitle "Smartwatch Health Tracker";
                ShowTextInput "Enter your name:";
                ShowNumberInput "Enter your age:" 0 120 30;
                ShowText ("Hello, " ++ entered_name s ++ "! You are "
                            ++ str age ++ " years old.")%string;
                ShowText
                  "Upload your CSV file containing smartwatch activity data.";
                ShowFileUploader "Choose a CSV file" "csv"])).
Proof.
  intros Hup. exists (widget_age s).
  unfold main, text_input, number_input, file_uploader.
  rewrite st_bind.
  unfold bind at 1. rewrite st_bind. unfold ret at 1.
  unfold bind at 1. rewrite st_bind. unfold ret at 1.
  rewrite !st_bind.
  unfold bind at 1. rewrite st_bind. unfold ret at 1.
  cbn [frames figures page]. rewrite Hup. unfold ret, widget_age.
  rewrite <- !app_assoc. reflexivity.
Qed.

Lemma main_without_upload_witness :
  exists age : Z,
    main toy_lib (mkSession "Ann" (Some 200) None)
         (world_with sample_table)
    = (Ok tt,
       mkWorld (frames (world_with sample_table))
         (figures (world_with sample_table))
         (page (world_with sample_table)
            ++ [ShowTitle "Smartwatch Health Tracker";
                ShowTextInput "Enter your name:";
                ShowNumberInput "Enter your age:" 0 120 30;
                ShowText ("Hello, "
                            ++ entered_name (mkSession "Ann" (Some 200) None)
                            ++ "! You are " ++ str age ++ " years old.")%string;
                ShowText
                  "Upload your CSV file containing smartwatch activity data.";
                ShowFileUploader "Choose a CSV file" "csv"])).
Proof.
  apply (main_without_upload toy_lib
           (mkSession "Ann" (Some 200) None) (world_with sample_table)).
  reflexivity.
Defined.

(** X13.  On an uploaded dataset the script runs to its end whenever
    the libraries accept what it hands them: [plt.plot] draws the four
    series, [plt.savefig] encodes the chart, [Paragraph] parses the
    title, the headings and the bullets, [Image] reads the chart and the
    layout engine builds the document.  Then the store gains the table,
    its five-row preview and the anomaly subset; one figure, the chart
    of the whole table, is opened and stays open; the page shows the
    form, the preview, the subset, one line per recommendation (those of
    the subset, or the fallback when nothing is flagged) and finally the
    download button, which carries the document built from the subset's
    rows as [iterrows] yields them, those recommendations and the chart,
    as [health_report.pdf]. *)
Theorem main_full_run (lib : Libraries) (s : Session) (w : world)
  (parsed : DataFrame) (png document : bytes) :
  uploaded s = Some parsed ->
  is_dataset parsed = true ->
  charts_accepted lib parsed ->
  savefig_png lib (chart parsed) = Ok png ->
  markup_accepted lib (entered_name s) (widget_age s)
    (shown_recommendations parsed) ->
  image_error lib (mkBytesIO png 0) = None ->
  platypus_build lib letter
    (report_elements (entered_name s) (widget_age s) (anomaly_subset parsed)
       (shown_recommendations parsed) (mkBytesIO png 0)) = Ok document ->
  exists w' : world,
    main lib s w = (Ok tt, w')
    /\ frames w'
       = frames w ++ [parsed; df_head parsed; anomaly_subset parsed]
    /\ figures w' = chart parsed :: figures w
    /\ page w'
       = page w ++ form_events (entered_name s) (widget_age s)
           ++ [ShowText "Data Preview:"; ShowFrame (df_head parsed);
               ShowText "Anomalies Detected:";
               ShowFrame (anomaly_subset parsed);
               ShowText "Recommendations:"]
           ++ recommendation_lines (shown_recommendations parsed)
           ++ [ShowDownloadButton "Download Report" document
                 "health_report.pdf" "application/pdf"].
Proof.
  intros Hup Hds Hch Hpng Hm Hi Hb.
  pose proof (is_dataset_columns parsed Hds) as Hc.
  rewrite (main_after_upload lib s w parsed Hup), Hc. cbn [negb].
  set (w0 := mkWorld (frames w ++ [parsed; df_head parsed]) (figures w) _).
  assert (Hd : frame_at w0 (next_ref w) = Some parsed)
    by apply frame_at_loaded.
  rewrite (run_stages_ok lib _ _ w0 (next_ref w) parsed
             (anomaly_subset parsed) (shown_recommendations parsed)
             png document Hd Hc
             (detect_anomalies_run w0 _ parsed Hd Hds) eq_refl
             (recommend_outcome_dataset parsed Hds) Hch Hpng Hm Hi Hb).
  eexists.
  split; [reflexivity | ].
  unfold world_after_stages, w0; cbn [frames figures page].
  split; [now rewrite <- app_assoc | ].
  split; [reflexivity | ].
  now rewrite <- !app_assoc.
Qed.

Lemma main_full_run_witness :
  exists w' : world,
    main toy_lib
         (mkSession "Ann" (Some 41) (Some sample_table)) (mkWorld [] [] [])
    = (Ok tt, w')
    /\ frames w'
       = frames (mkWorld [] [] [])
           ++ [sample_table; df_head sample_table; anomaly_subset sample_table]
    /\ figures w' = chart sample_table :: figures (mkWorld [] [] [])
    /\ page w'
       = page (mkWorld [] [] [])
           ++ form_events
                (entered_name (mkSession "Ann" (Some 41) (Some sample_table)))
                (widget_age (mkSession "Ann" (Some 41) (Some sample_table)))
           ++ [ShowText "Data Preview:"; ShowFrame (df_head sample_table);
               ShowText "Anomalies Detected:";
               ShowFrame (anomaly_subset sample_table);
               ShowText "Recommendations:"]
           ++ recommendation_lines (shown_recommendations sample_table)
           ++ [ShowDownloadButton "Download Report" (repeat x25 9)
                 "health_report.pdf" "application/pdf"].
Proof.
  apply (main_full_run toy_lib
           (mkSession "Ann" (Some 41) (Some sample_table)) (mkWorld [] [] [])
           sample_table (panel_count_png (chart sample_table))
           (repeat x25 9)).
  - reflexivity.
  - reflexivity.
  - apply sample_charts_accepted.
  - reflexivity.
  - repeat split. vm_compute. repeat constructor.
  - reflexivity.
  - reflexivity.
Defined.

(** The only way a comparison on a series fails. *)
Lemma series_gt_error (s : Series) (k : Z) (e : exception) :
  series_gt s k = Err e -> e = TypeError ">".
Proof.
  unfold series_gt. induction s as [ | v s IH]; simpl; [discriminate | ].
  destruct v as [t | z | x | ]; simpl.
  - congruence.
  - destruct (series_cmp value_gt s k); [discriminate | ].
    intros H. injection H as <-. now apply IH.
  - destruct (series_cmp value_gt s k); [discriminate | ].
    intros H. injection H as <-. now apply IH.
  - destruct (series_cmp value_gt s k); [discriminate | ].
    intros H. injection H as <-. now apply IH.
Qed.

Lemma series_lt_error (s : Series) (k : Z) (e : exception) :
  series_lt s k = Err e -> e = TypeError "<".
Proof.
  unfold series_lt. induction s as [ | v s IH]; simpl; [discriminate | ].
  destruct v as [t | z | x | ]; simpl.
  - congruence.
  - destruct (series_cmp value_lt s k); [discriminate | ].
    intros H. injection H as <-. now apply IH.
  - destruct (series_cmp value_lt s k); [discriminate | ].
    intros H. injection H as <-. now apply IH.
  - destruct (series_cmp value_lt s k); [discriminate | ].
    intros H. injection H as <-. now apply IH.
Qed.

(** With the required columns in place the detector returns a frame
    with the same columns, or stops at a comparison. *)
Lemma detect_anomalies_cases (w : world) (data : ref) (d : DataFrame) :
  frame_at w data = Some d ->
  forallb (contains (columns d)) required_columns = true ->
  (exists op, detect_anomalies data w = (Err (TypeError op), w))
  \/ (exists a,
         detect_anomalies data w
         = (Ok (next_ref w), mkWorld (frames w ++ [a]) (figures w) (page w))
         /\ columns a = columns d).
Proof.
  intros Hd Hc.
  destruct (required_columns_present _ Hc) as [_ [Cs [Ch [_ Cl]]]].
  apply df_getitem_column in Cs, Ch, Cl.
  destruct (series_gt (column d "Heart Rate (bpm)") 100) as [high | e] eqn:Mh.
  2:{ left. exists ">". pose proof (series_gt_error _ _ _ Mh) as He. subst e.
      unfold detect_anomalies. run_getitem Hd. now rewrite Mh. }
  destruct (series_lt (column d "Steps") 1000) as [few | e] eqn:Ms.
  2:{ left. exists "<". pose proof (series_lt_error _ _ _ Ms) as He. subst e.
      unfold detect_anomalies. run_getitem Hd. rewrite Mh, lift_bind_ok.
      run_getitem Hd. now rewrite Ms. }
  destruct (series_lt (column d "Sleep Duration (hours)") 5)
    as [short | e] eqn:Ml.
  2:{ left. exists "<". pose proof (series_lt_error _ _ _ Ml) as He. subst e.
      unfold detect_anomalies. run_getitem Hd. rewrite Mh, lift_bind_ok.
      run_getitem Hd. rewrite Ms, lift_bind_ok.
      run_getitem Hd. now rewrite Ml. }
  right.
  exists (mkDataFrame (columns d)
            (select_rows (rows d) (series_or (series_or high few) short))).
  split; [ | reflexivity].
  unfold detect_anomalies. run_getitem Hd. rewrite Mh, lift_bind_ok.
  run_getitem Hd. rewrite Ms, lift_bind_ok.
  run_getitem Hd. rewrite Ml, lift_bind_ok.
  rewrite (bind_ok _ _ _ _ _ (getitem_mask_ok w data d _ Hd)).
  reflexivity.
Qed.

Lemma recommend_outcome_cases (a : DataFrame) :
  forallb (contains (columns a)) required_columns = true ->
  no_lookup_failure (recommend_outcome a).
Proof.
  intros Hc.
  destruct (required_columns_present _ Hc) as [_ [Cs [Ch [_ Cl]]]].
  apply df_getitem_column in Cs, Ch, Cl.
  unfold recommend_outcome. destruct (negb (df_empty a)); [ | exact I].
  rewrite Ch, Cs, Cl.
  destruct (series_gt (column a "Heart Rate (bpm)") 100) as [high | e] eqn:Mh;
    [ | now rewrite (series_gt_error _ _ _ Mh)].
  destruct (series_lt (column a "Steps") 1000) as [few | e] eqn:Ms;
    [ | now rewrite (series_lt_error _ _ _ Ms)].
  destruct (series_lt (column a "Sleep Duration (hours)") 5)
    as [short | e] eqn:Ml;
    [ | now rewrite (series_lt_error _ _ _ Ml)].
  exact I.
Qed.

(** What the renderer raises on a table with the required columns was
    raised by [plt.plot] or [plt.savefig]. *)
Lemma plot_outcome_failure (lib : Libraries) (d : DataFrame) (e : exception) :
  forallb (contains (columns d)) required_columns = true ->
  plot_outcome lib d = Err e ->
  library_failure lib e.
Proof.
  intros Hc.
  destruct (required_columns_present _ Hc) as [Cd [Cs [Ch [Cc Cl]]]].
  apply df_getitem_column in Cd, Cs, Ch, Cc, Cl.
  unfold plot_outcome. rewrite Cd, Cs, Ch, Cc, Cl.
  repeat match goal with
         | |- match plot_error lib ?x ?y with Some _ => _ | None => _ end = _
             -> _ =>
             let E := fresh "E" in
             destruct (plot_error lib x y) eqn:E;
               [intros H; injection H as <-; left; now exists x, y | ]
         end.
  match goal with
  | |- match savefig_png lib ?fig with Ok _ => _ | Err _ => _ end = _ -> _ =>
      let E := fresh "E" in
      destruct (savefig_png lib fig) eqn:E; [discriminate | ];
        intros H; injection H as <-; right; left; now exists fig
  end.
Qed.

Lemma append_paragraphs_failure (lib : Libraries) (recs : list string)
  (elements : list Flowable) (e : exception) :
  append_paragraphs lib recs elements = Err e ->
  exists text, markup_ok lib text = false /\ e = ValueError text.
Proof.
  revert elements.
  induction recs as [ | rec recs IH]; intros elements;
    cbn [append_paragraphs].
  - discriminate.
  - unfold new_Paragraph.
    destruct (markup_ok lib ("- " ++ rec)%string) eqn:E.
    + apply IH.
    + intros H. injection H as <-. now exists ("- " ++ rec)%string.
Qed.

(** What the assembler raises on a subset with the required columns was
    raised by [Paragraph], [Image] or the layout engine. *)
Lemma report_outcome_failure (lib : Libraries) (name : string) (age : Z)
  (a : DataFrame) (recs : list string) (buf : BytesIO) (e : exception) :
  forallb (contains (columns a)) required_columns = true ->
  report_outcome lib name age a recs buf = Err e ->
  library_failure lib e.
Proof.
  intros Hc. unfold report_outcome.
  rewrite (append_rows_cells (columns a) (iterrows a) _ Hc).
  unfold new_Paragraph at 1 2 3 4.
  repeat match goal with
         | |- context [markup_ok lib ?t] =>
             let E := fresh "E" in
             destruct (markup_ok lib t) eqn:E;
               [ | intros H; injection H as <-;
                   right; right; left; now exists t]
         end.
  match goal with
  | |- context [append_paragraphs lib recs ?els] =>
      destruct (append_paragraphs lib recs els) as [elements | e'] eqn:Ea
  end.
  2:{ intros H. injection H as <-. right; right; left.
      exact (append_paragraphs_failure lib recs _ e' Ea). }
  unfold new_Image. destruct (image_error lib buf) as [e' | ] eqn:Ei.
  { intros H. injection H as <-. right; right; right; left. now exists buf. }
  match goal with
  | |- context [platypus_build lib ?ps ?els] =>
      destruct (platypus_build lib ps els) as [document | e'] eqn:Eb
  end; [discriminate | ].
  intros H. injection H as <-. right; right; right; right. eauto.
Qed.

(** X14.  The column check is enough to rule out every failed lookup of
    the script's own.  For every parsed upload, with or without the
    required columns, the script ends normally, or with the [TypeError]
    of a threshold comparison that met text, or with an exception that
    one of the library calls raised ([plt.plot], [plt.savefig],
    [Paragraph], [Image] or the layout engine); no [KeyError] comes from
    a column lookup. *)
Theorem main_never_key_error (lib : Libraries) (s : Session) (w : world) :
  fst (main lib s w) = Ok tt
  \/ (exists op, fst (main lib s w) = Err (TypeError op))
  \/ (exists e, library_failure lib e /\ fst (main lib s w) = Err e).
Proof.
  destruct (uploaded s) as [parsed | ] eqn:Hup.
  2:{ destruct (main_without_upload lib s w Hup) as [age ->].
      now left. }
  rewrite (main_after_upload lib s w parsed Hup).
  destruct (forallb (contains (columns parsed)) required_columns) eqn:Hc;
    cbn [negb]; [ | now left].
  set (w0 := mkWorld (frames w ++ [parsed; df_head parsed]) (figures w) _).
  assert (Hd : frame_at w0 (next_ref w) = Some parsed)
    by apply frame_at_loaded.
  destruct (detect_anomalies_cases w0 (next_ref w) parsed Hd Hc)
    as [[op Hdet] | [a [Hdet Hcols]]].
  { unfold run_stages. rewrite (bind_err _ _ _ _ _ Hdet).
    right; left. now exists op. }
  pose proof (recommend_outcome_cases a) as Hrec.
  rewrite Hcols in Hrec. specialize (Hrec Hc).
  unfold run_stages. rewrite (bind_ok _ _ _ _ _ Hdet).
  rewrite st_bind. cbn [frames figures page].
  erewrite bind_ok by (apply deref_ok; apply frame_at_new).
  rewrite st_bind. cbn [frames figures page].
  destruct (recommend_outcome a) as [recs | e] eqn:Er.
  2:{ erewrite bind_err
        by (rewrite (provide_recommendations_outcome _ (next_ref w0) a
                       (frame_at_new _ _ _ _)), Er; reflexivity).
      right; left. destruct e; try contradiction. eexists; reflexivity. }
  erewrite bind_ok
    by (rewrite (provide_recommendations_outcome _ (next_ref w0) a
                   (frame_at_new _ _ _ _)), Er; reflexivity).
  rewrite st_bind. cbn [frames figures page].
  erewrite bind_ok by apply write_each_run.
  cbn [frames figures page].
  match goal with
  | |- context [bind (plot_data lib ?data) ?k ?w3] =>
      assert (Hd3 : frame_at w3 data = Some parsed)
        by (apply (frame_at_old _ [a] (figures w0) _ (page w0) _ _ parsed Hd));
      pose proof (plot_data_result lib w3 data parsed Hd3) as Hp;
      destruct (plot_data_pushes_figure lib data w3) as [fig Hw];
      destruct (plot_data lib data w3) as [[buf | e] w4] eqn:Ep;
      cbn [fst snd] in Hp, Hw
  end.
  2:{ rewrite (bind_err _ _ _ _ _ Ep). right; right. exists e.
      split; [ | reflexivity].
      apply (plot_outcome_failure lib parsed e Hc). now symmetry. }
  rewrite (bind_ok _ _ _ _ _ Ep). subst w4. cbn [frames figures page].
  match goal with
  | |- context [bind (create_pdf_report lib ?name ?age ?data ?q ?recs ?buf)
                     ?k ?w4] =>
      pose proof (create_pdf_report_outcome lib name age w4 data q a recs buf
                    (frame_at_new _ _ _ _)) as Hr;
      destruct (report_outcome lib name age a recs buf)
        as [document | e] eqn:Eo
  end.
  - rewrite (bind_ok _ _ _ _ _ Hr). now left.
  - rewrite (bind_err _ _ _ _ _ Hr). right; right. exists e.
    split; [ | reflexivity].
    eapply (report_outcome_failure lib _ _ a recs buf e);
      [now rewrite Hcols | exact Eo].
Qed.

(** X15.  Passing the column check does not make the data numeric: a
    table with all five columns whose heart-rate column holds text goes
    through the check and makes the script stop with [TypeError] in the
    detector, after the preview and before anything else is shown; no
    subset is allocated and no figure opened. *)
Theorem main_text_in_heart_rate (lib : Libraries) (s : Session) (w : world)
  (parsed : DataFrame) (r : Row) (t : string) :
  uploaded s = Some parsed ->
  forallb (contains (columns parsed)) required_columns = true ->
  In r (rows parsed) ->
  field (columns parsed) "Heart Rate (bpm)" r = VStr t ->
  exists age : Z,
    main lib s w
    = (Err (TypeError ">"),
       mkWorld (frames w ++ [parsed; df_head parsed]) (figures w)
               (page w ++ form_events (entered_name s) age
                  ++ [ShowText "Data Preview:"; ShowFrame (df_head parsed)])).
Proof.
  intros Hup Hc Hr Hf. exists (widget_age s).
  rewrite (main_after_upload lib s w parsed Hup), Hc. cbn [negb].
  set (w0 := mkWorld (frames w ++ [parsed; df_head parsed]) (figures w) _).
  assert (Hd : frame_at w0 (next_ref w) = Some parsed)
    by apply frame_at_loaded.
  destruct (text_cell_in_column parsed _ r t Hr Hf) as [hr [Eh Hin]].
  pose proof (series_gt_text hr 100 t Hin) as Mh.
  assert (Hdet : detect_anomalies (next_ref w) w0 = (Err (TypeError ">"), w0)).
  { unfold detect_anomalies. run_getitem Hd. now rewrite Mh. }
  unfold run_stages. rewrite (bind_err _ _ _ _ _ Hdet).
  reflexivity.
Qed.

Lemma main_text_in_heart_rate_witness :
  exists age : Z,
    main toy_lib
         (mkSession "Ann" None (Some text_rate_table)) (mkWorld [] [] [])
    = (Err (TypeError ">"),
       mkWorld (frames (mkWorld [] [] [])
                  ++ [text_rate_table; df_head text_rate_table])
               (figures (mkWorld [] [] []))
               (page (mkWorld [] [] [])
                  ++ form_events
                       (entered_name
                          (mkSession "Ann" None (Some text_rate_table)))
                       age
                  ++ [ShowText "Data Preview:";
                      ShowFrame (df_head text_rate_table)])).
Proof.
  apply (main_text_in_heart_rate toy_lib
           (mkSession "Ann" None (Some text_rate_table)) (mkWorld [] [] [])
           text_rate_table
           [VStr "2024-05-02"; VInt 6000; VStr "n/a"; VInt 2100; VInt 7]
           "n/a").
  - reflexivity.
  - reflexivity.
  - simpl. right. left. reflexivity.
  - reflexivity.
Defined.

Lemma advisories_nonempty (cols : list string) (rs : list Row) (r : Row) :
  In r rs -> violationb cols r = true -> advisories cols rs <> [].
Proof.
  intros Hr Hv Hnil. unfold violationb in Hv.
  apply orb_true_iff in Hv. destruct Hv as [Hv | Hl].
  - apply orb_true_iff in Hv. destruct Hv as [Hh | Hs].
    + assert (Hin : In advice_heart_rate (advisories cols rs)).
      { apply advisories_heart_rate, existsb_exists. now exists r. }
      rewrite Hnil in Hin. destruct Hin.
    + assert (Hin : In advice_steps (advisories cols rs)).
      { apply advisories_steps, existsb_exists. now exists r. }
      rewrite Hnil in Hin. destruct Hin.
  - assert (Hin : In advice_sleep (advisories cols rs)).
    { apply advisories_sleep, existsb_exists. now exists r. }
    rewrite Hnil in Hin. destruct Hin.
Qed.

(** X16.  Behind the detector the recommender always has something to
    say: for every dataset, [provide_recommendations] on the result of
    [detect_anomalies] returns between one and three sentences, and the
    list is the fallback sentence alone exactly when no row of the
    dataset violates a threshold. *)
Theorem recommendations_after_detection (w : world) (data : ref)
  (d : DataFrame) :
  frame_at w data = Some d ->
  is_dataset d = true ->
  exists (recs : list string) (w' : world),
    bind (detect_anomalies data) provide_recommendations w = (Ok recs, w')
    /\ (1 <= List.length recs <= 3)%nat
    /\ (recs = [fallback]
        <-> forall r, In r (rows d) -> ~ violation (columns d) r).
Proof.
  intros Hd Hds.
  pose proof (detect_anomalies_run w data d Hd Hds) as Hrun.
  set (w1 := mkWorld (frames w ++ [anomaly_subset d]) (figures w) (page w))
    in *.
  assert (Hsub : frame_at w1 (next_ref w) = Some (anomaly_subset d))
    by apply frame_at_new.
  assert (Hds' : is_dataset (anomaly_subset d) = true)
    by now apply is_dataset_filter.
  exists (shown_recommendations d), w1.
  split.
  { rewrite (bind_ok _ _ w w1 _ Hrun).
    now rewrite (provide_recommendations_dataset w1 _ _ Hsub Hds'). }
  unfold shown_recommendations.
  destruct (rows (anomaly_subset d)) as [ | r rs] eqn:E.
  - split; [simpl; lia | ].
    split; [ | reflexivity].
    intros _ r Hr Hv. apply violationb_iff in Hv.
    assert (Hin : In r (rows (anomaly_subset d)))
      by (cbn [anomaly_subset rows]; apply filter_In; now split).
    rewrite E in Hin. destruct Hin.
  - rewrite <- E.
    assert (Hr : In r (rows (anomaly_subset d))) by (rewrite E; now left).
    pose proof Hr as Hf. cbn [anomaly_subset rows] in Hf.
    apply filter_In in Hf. destruct Hf as [Hrd Hv].
    pose proof (advisories_nonempty (columns d) _ r Hr Hv) as Hne.
    destruct (advisories_short (columns d) (rows (anomaly_subset d)))
      as [Hle _].
    split.
    + split; [ | exact Hle].
      destruct (advisories (columns d) (rows (anomaly_subset d)));
        [congruence | simpl; lia].
    + split.
      * intros Hfb. exfalso.
        apply (advisories_no_fallback (columns d) (rows (anomaly_subset d))).
        rewrite Hfb. now left.
      * intros Hok. exfalso. apply (Hok r Hrd). now apply violationb_iff.
Qed.

Lemma recommendations_after_detection_witness :
  exists (recs : list string) (w' : world),
    bind (detect_anomalies 0%nat) provide_recommendations
         (world_with borderline_table) = (Ok recs, w')
    /\ (1 <= List.length recs <= 3)%nat
    /\ (recs = [fallback]
        <-> forall r, In r (rows borderline_table) ->
                      ~ violation (columns borderline_table) r).
Proof.
  apply (recommendations_after_detection (world_with borderline_table) 0%nat
           borderline_table); reflexivity.
Defined.
